(** * FIRST Robotics Volunteer Portal: the questionnaire front end, embedded
    and verified.

    Part I embeds the JavaScript sources (one module per source file), Part II
    proves the properties.  JavaScript strings are sequences of UTF-16 code
    units, objects used as dictionaries are finite maps, React state setters
    are modelled by the updater they queue, and [async] functions by an
    explicit completion (normal or thrown) over the component state. *)

From stdpp Require Import gmap list strings.
From Stdlib Require Import ZArith NArith Lia.

Local Open Scope Z_scope.

(* ===================================================================== *)
(** * Part I -- the embedding *)
(* ===================================================================== *)

(** ** JavaScript strings (the built-ins used by [Results.jsx]) *)
Module Js.

(** A string is its sequence of UTF-16 code units. *)
Definition jsstring : Type := list N.

(** Code units of an ASCII literal. *)
Fixpoint lit (s : string) : jsstring :=
  match s with
  | EmptyString => []
  | String c t => Ascii.N_of_ascii c :: lit t
  end.

(** ECMAScript [WhiteSpace] and [LineTerminator] code points, the set
    stripped by [String.prototype.trim]: TAB, LF, VT, FF, CR, SP, NBSP,
    U+1680, U+2000..U+200A, U+2028, U+2029, U+202F, U+205F, U+3000, U+FEFF. *)
Definition isWhiteSpace (c : N) : bool :=
  ((9 <=? c) && (c <=? 13) || (c =? 32) || (c =? 160) || (c =? 5760)
   || (8192 <=? c) && (c <=? 8202) || (c =? 8232) || (c =? 8233)
   || (c =? 8239) || (c =? 8287) || (c =? 12288) || (c =? 65279))%N.

Fixpoint trimStart (s : jsstring) : jsstring :=
  match s with
  | [] => []
  | c :: t => if isWhiteSpace c then trimStart t else s
  end.

Definition trimEnd (s : jsstring) : jsstring := rev (trimStart (rev s)).

(** [s.trim()] *)
Definition trim (s : jsstring) : jsstring := trimEnd (trimStart s).

(** [s.split(sep)] for a one-code-unit separator: the pieces between the
    occurrences of [sep]; the empty string gives the one-element array
    holding the empty string. *)
Fixpoint split (sep : N) (s : jsstring) : list jsstring :=
  match s with
  | [] => [[]]
  | c :: t =>
      if (c =? sep)%N then [] :: split sep t
      else match split sep t with
           | [] => [[c]]
           | w :: ws => (c :: w) :: ws
           end
  end.

(** The code unit of [","]. *)
Definition comma : N := 44%N.

(** [ToBoolean] on a string: only the empty string is falsy. *)
Definition truthy_string (s : jsstring) : bool :=
  match s with [] => false | _ :: _ => true end.

(** [ToBoolean] on an array: every object is truthy. *)
Definition truthy_array {A} (_ : list A) : bool := true.

(** [x || y] *)
Definition or {A} (truthy : A -> bool) (x y : A) : A :=
  if truthy x then x else y.

(** A value produced by [JSON.parse] (numbers are the integers the back end
    sends; an object is its table of own properties). *)
#[warnings="-register-all"]
Inductive json : Type :=
  | JNull
  | JBool (b : bool)
  | JNum (n : Z)
  | JStr (s : jsstring)
  | JArr (items : list json)
  | JObj (fields : list (string * json)).

(** A JavaScript value held in component state: [undefined] or parsed JSON
    ([null] is [Json JNull]). *)
Inductive value : Type :=
  | Undefined
  | Json (j : json).

Definition null : value := Json JNull.

(** [ToBoolean] *)
Definition truthy (v : value) : bool :=
  match v with
  | Undefined => false
  | Json JNull => false
  | Json (JBool b) => b
  | Json (JNum n) => negb (n =? 0)
  | Json (JStr s) => truthy_string s
  | Json (JArr _) => true
  | Json (JObj _) => true
  end.

(** Own-property lookup in an object's table. *)
Fixpoint own_property (fields : list (string * json)) (k : string) : value :=
  match fields with
  | [] => Undefined
  | (k', v) :: rest => if String.eqb k' k then Json v else own_property rest k
  end.

(** [ToBoolean] on a nullable flag held in state ([null], [true], [false]). *)
Definition truthy_flag (b : option bool) : bool :=
  match b with Some true => true | _ => false end.

(** A primitive value held in component state or sent as an answer. *)
Inductive prim : Type :=
  | PUndefined
  | PNull
  | PBool (b : bool)
  | PNum (n : Z)
  | PStr (s : jsstring).

(** [x === y] on primitives is equality. *)
#[export] Instance prim_eq_dec : EqDecision prim.
Proof. solve_decision. Defined.

(** [ToBoolean] on a primitive. *)
Definition truthy_prim (v : prim) : bool :=
  match v with
  | PUndefined | PNull => false
  | PBool b => b
  | PNum n => negb (n =? 0)
  | PStr s => truthy_string s
  end.

(** Made of white space only. *)
Definition all_white_space (s : jsstring) : bool := forallb isWhiteSpace s.

(** No white space at either end. *)
Definition starts_clean (s : jsstring) : bool :=
  match s with [] => true | c :: _ => negb (isWhiteSpace c) end.

Definition trimmed (s : jsstring) : bool :=
  starts_clean s && starts_clean (rev s).

End Js.

(** ** [frontend/src/pages/Results.jsx] *)
Module Results.
Import Js.

(** The [results] member of the result object; a missing field reads as
    [undefined] ([None]). *)
Record ResultFields : Type := {
  best_fit_roles : option jsstring;   (* results["Best fit roles"] *)
  next_best_roles : option jsstring   (* results["Next best roles"] *)
}.

(** [{ status, session_id, results }] *)
Record ResultObject : Type := {
  status : jsstring;
  session_id : jsstring;
  results : option ResultFields
}.

(** [currentResults?.results?.["Best fit roles"]]; [currentResults] is
    [null] ([None]) until results are loaded. *)
Definition best_fit (currentResults : option ResultObject) : option jsstring :=
  r ← currentResults; fs ← results r; best_fit_roles fs.

(** The effect that recomputes [options] when [currentResults] changes. *)
Definition options_effect (currentResults : option ResultObject) : list jsstring :=
  match best_fit currentResults with
  | Some s =>
      if truthy_string s
      then or truthy_array (split comma (trim s)) []
      else []
  | None => []
  end.

(** The argument of [navigate(path, { state })]. *)
Record Navigation : Type := {
  path : jsstring;
  state_roleName : jsstring;
  state_allResults : option ResultObject
}.

Section Render.
(** [encodeURIComponent]; [None] is the [URIError] it throws on a lone
    surrogate. *)
Variable encodeURIComponent : jsstring -> option jsstring.

(** [dynamicButtonClick(roleName)]: the navigation it performs, if any. *)
Definition dynamicButtonClick (currentResults : option ResultObject)
    (roleName : jsstring) : option Navigation :=
  let cleanRoleName := trim roleName in
  encodedRoleName ← encodeURIComponent cleanRoleName;
  Some {| path := lit "/results/" ++ encodedRoleName;
          state_roleName := cleanRoleName;
          state_allResults := currentResults |}.

(** A rendered [<button key={index} onClick=...>{option.trim()}</button>];
    [onClick] is what a click on it does. *)
Record Button : Type := {
  key : nat;
  label : jsstring;
  onClick : option Navigation
}.

(** [options.slice(0, 3).map((option, index) => <button .../>)] *)
Definition render_buttons (currentResults : option ResultObject)
    (options : list jsstring) : list Button :=
  imap (fun index option =>
          {| key := index;
             label := trim option;
             onClick := dynamicButtonClick currentResults option |})
       (take 3 options).

End Render.

End Results.

(** ** Completions of [async] functions and event handlers: a state and
    exception monad over the component state *)
Module Eff.
Import Js.

(** What a JavaScript [throw] carries in this code base. *)
Inductive exn : Type :=
  | NetworkError                  (* [fetch] rejected *)
  | HttpError (status : Z)        (* [new Error(`HTTP error, status: ...`)] *)
  | SyntaxError                   (* [response.json()] rejected *)
  | TypeError.                    (* property read on [null] *)

Inductive completion (A : Type) : Type :=
  | Normal (a : A)
  | Throw (e : exn).
Arguments Normal {A} a.
Arguments Throw {A} e.

Definition M (S A : Type) : Type := S -> completion A * S.

Definition ret {S A} (a : A) : M S A := fun s => (Normal a, s).

Definition throw {S A} (e : exn) : M S A := fun s => (Throw e, s).

Definition bind {S A B} (m : M S A) (k : A -> M S B) : M S B :=
  fun s =>
    match m s with
    | (Normal a, s1) => k a s1
    | (Throw e, s1) => (Throw e, s1)
    end.

(** A state setter call: the queued update applied to the state. *)
Definition modify {S} (f : S -> S) : M S unit := fun s => (Normal tt, f s).

(** [if (c) { m }] *)
Definition when {S} (c : bool) (m : M S unit) : M S unit :=
  if c then m else ret tt.

(** [try { body } catch (error) { handler }] *)
Definition try_catch {S A} (body : M S A) (handler : exn -> M S A) : M S A :=
  fun s =>
    match body s with
    | (Normal a, s1) => (Normal a, s1)
    | (Throw e, s1) => handler e s1
    end.

(** [try { body } finally { fin }]: [fin] runs on both exits; the completion
    of [body] stands unless [fin] itself throws. *)
Definition try_finally {S A} (body : M S A) (fin : M S unit) : M S A :=
  fun s =>
    match body s with
    | (c, s1) =>
        match fin s1 with
        | (Normal _, s2) => (c, s2)
        | (Throw e, s2) => (Throw e, s2)
        end
    end.

Declare Scope eff_scope.
Delimit Scope eff_scope with eff.
Notation "x <- m ;; k" := (bind m (fun x => k))
  (at level 100, m at next level, k at level 200, right associativity) : eff_scope.
Notation "m ;; k" := (bind m (fun _ => k))
  (at level 100, k at level 200, right associativity) : eff_scope.

(** The network as the page sees it. *)
Record Response : Type := {
  ok : bool;
  status : Z;
  body : option json    (* what [response.json()] resolves to; [None]: it rejects *)
}.

Inductive FetchOutcome : Type :=
  | Rejected
  | Resolved (r : Response).

(** [await fetch(...)] *)
Definition fetch {S} (o : FetchOutcome) : M S Response :=
  match o with
  | Rejected => throw NetworkError
  | Resolved r => ret r
  end.

(** [await response.json()] *)
Definition response_json {S} (r : Response) : M S json :=
  match body r with
  | None => throw SyntaxError
  | Some j => ret j
  end.

(** [result[k]] for a key that names no built-in property: a [TypeError] on
    [null], the own property of an object, [undefined] on anything else. *)
Definition get_prop {S} (result : json) (k : string) : M S value :=
  match result with
  | JNull => throw TypeError
  | JObj fields => ret (own_property fields k)
  | _ => ret Undefined
  end.

End Eff.

(** ** [frontend/src/utils/questionnaireUtils.js] *)
Module QuestionnaireUtils.
Section Utils.
(** [K]: question ids (the own-property keys of [completedQuestions]; they are
    question numbers, so [in] finds no inherited property under them);
    [A]: answers; [W]: the state the setter acts on. *)
Context {K : Type} `{Countable K} {A : Type} {W : Type}.

(** The setter takes the updater [prev => ...] that it queues. *)
Definition addCompletedQuestion
    (setCompletedQuestions : (gmap K (list A) -> gmap K (list A)) -> W -> W)
    (id : K) (answer : A) : W -> W :=
  setCompletedQuestions (fun prev => <[id := [answer]]> prev).

Definition setCompletedQuestionsMulti
    (setCompletedQuestionsFunc : (gmap K (list A) -> gmap K (list A)) -> W -> W)
    (id : K) (answersArray : list A) : W -> W :=
  setCompletedQuestionsFunc (fun prev => <[id := answersArray]> prev).

(** [completedQuestions] is the map the caller rendered with; the updater
    works on the state at the time it is applied. *)
Definition removeCompletedQuestion
    (completedQuestions : gmap K (list A))
    (setCompletedQuestions : (gmap K (list A) -> gmap K (list A)) -> W -> W)
    (id : K) : W -> W :=
  if decide (id ∈ dom completedQuestions)
  then setCompletedQuestions (fun prev => delete id prev)
  else fun w => w.

End Utils.

(** React's setter for a state that is the value itself: the updater is
    applied to the current state. *)
Definition setState {V : Type} (updater : V -> V) : V -> V := updater.

End QuestionnaireUtils.

(** ** [frontend/src/pages/Questionnaire.jsx] *)
Module Questionnaire.
Import Js Eff.
Local Open Scope eff_scope.

(** Callbacks handed to [setTimeout]. *)
Inductive TimerCallback : Type :=
  | ClearError.                         (* [() => setError(null)] *)

(** The component's [useState] cells, and the timers it has pending. *)
Record State : Type := {
  questionId : Z;
  data : value;
  isModalOpen : bool;
  completedQuestions : gmap Z (list prim);
  sessionId : prim;
  error : option string;
  skipPhysicalQuestions : option bool;
  totalQuestions : Z;
  timers : list (TimerCallback * Z)
}.

Definition initial : State :=
  {| questionId := 0; data := null; isModalOpen := false;
     completedQuestions := ∅; sessionId := PNull; error := None;
     skipPhysicalQuestions := None; totalQuestions := 11; timers := [] |}.

Definition setQuestionId (f : Z -> Z) (s : State) : State :=
  {| questionId := f (questionId s); data := data s;
     isModalOpen := isModalOpen s; completedQuestions := completedQuestions s;
     sessionId := sessionId s; error := error s;
     skipPhysicalQuestions := skipPhysicalQuestions s;
     totalQuestions := totalQuestions s; timers := timers s |}.

Definition setCompletedQuestions
    (f : gmap Z (list prim) -> gmap Z (list prim)) (s : State) : State :=
  {| questionId := questionId s; data := data s;
     isModalOpen := isModalOpen s; completedQuestions := f (completedQuestions s);
     sessionId := sessionId s; error := error s;
     skipPhysicalQuestions := skipPhysicalQuestions s;
     totalQuestions := totalQuestions s; timers := timers s |}.

Definition setError (e : option string) (s : State) : State :=
  {| questionId := questionId s; data := data s;
     isModalOpen := isModalOpen s; completedQuestions := completedQuestions s;
     sessionId := sessionId s; error := e;
     skipPhysicalQuestions := skipPhysicalQuestions s;
     totalQuestions := totalQuestions s; timers := timers s |}.

Definition setSkipPhysicalQuestions (b : option bool) (s : State) : State :=
  {| questionId := questionId s; data := data s;
     isModalOpen := isModalOpen s; completedQuestions := completedQuestions s;
     sessionId := sessionId s; error := error s;
     skipPhysicalQuestions := b;
     totalQuestions := totalQuestions s; timers := timers s |}.

Definition setTotalQuestions (n : Z) (s : State) : State :=
  {| questionId := questionId s; data := data s;
     isModalOpen := isModalOpen s; completedQuestions := completedQuestions s;
     sessionId := sessionId s; error := error s;
     skipPhysicalQuestions := skipPhysicalQuestions s;
     totalQuestions := n; timers := timers s |}.

(** [setTimeout(callback, delay)] *)
Definition setTimeout (callback : TimerCallback) (delay : Z) (s : State) : State :=
  {| questionId := questionId s; data := data s;
     isModalOpen := isModalOpen s; completedQuestions := completedQuestions s;
     sessionId := sessionId s; error := error s;
     skipPhysicalQuestions := skipPhysicalQuestions s;
     totalQuestions := totalQuestions s;
     timers := timers s ++ [(callback, delay)] |}.

(** What a timer does when it fires. *)
Definition fire (callback : TimerCallback) : State -> State :=
  match callback with
  | ClearError => setError None
  end.

(** The JSON body posted to [/api/save-answer]. *)
Record SaveRequest : Type := {
  session_id : prim;
  question_id : Z;
  answer : prim;
  question : prim
}.

(** The message of the catch block. *)
Definition save_warning : string :=
  "Failed to save answer - your progress may not be saved".

(** [saveAnswer(sessionId, questionId, answer, question, autoSave = true)];
    [net] is what the network answers to the request. *)
Definition saveAnswer (net : SaveRequest -> FetchOutcome)
    (sessionId : prim) (questionId : Z) (answer question : prim)
    (autoSave : bool) : M State unit :=
  try_catch
    (when (autoSave && truthy_prim sessionId)
       (response <- fetch (net {| session_id := sessionId;
                                  question_id := questionId;
                                  answer := answer;
                                  question := question |}) ;;
        when (negb (ok response)) (throw (HttpError (status response))) ;;
        result <- response_json response ;;
        when (questionId =? 1)
          (skip <- get_prop result "skip" ;;
           if truthy skip
           then (modify (setSkipPhysicalQuestions (Some true)) ;;
                 modify (setTotalQuestions 10))
           else (modify (setSkipPhysicalQuestions (Some false)) ;;
                 modify (setTotalQuestions 12)))))
    (fun _ =>
       modify (setError (Some save_warning)) ;;
       modify (setTimeout ClearError 300)).

(** A save that fails: [fetch] rejects, or the response is not OK. *)
Definition save_failed (o : FetchOutcome) : Prop :=
  o = Rejected \/ exists r, o = Resolved r /\ ok r = false.

(** The catch block's effect. *)
Definition warned (s : State) : State :=
  setTimeout ClearError 300 (setError (Some save_warning) s).

(** [handleNextAnswerClick(numSkips = 1)] *)
Definition handleNextAnswerClick (numSkips : Z) : State -> State :=
  setQuestionId (fun prev => prev + numSkips).

(** [handleBackAnswerClick(numSkips = 1)] *)
Definition handleBackAnswerClick (numSkips : Z) : State -> State :=
  setQuestionId (fun prev => prev - numSkips).

End Questionnaire.

(** ** [frontend/src/components/NavigationMenu.jsx] *)
Module NavigationMenu.
Import Js.

Section Handlers.
(** [T]: what calling one of the two callback props does.  [questionId] is
    the 0-based question index, an integer. *)
Context {T : Type}.
Variable handleNextAnswerClick : Z -> T.
Variable handleBackAnswerClick : Z -> T.
Variable skipPhysicalQuestions : option bool.
Variable questionId : Z.

Definition handleNextClick : T :=
  if (questionId =? 1) && truthy_flag skipPhysicalQuestions
  then handleNextAnswerClick 3
  else handleNextAnswerClick 1.

Definition handleBackClick : T :=
  if (questionId =? 4) && truthy_flag skipPhysicalQuestions
  then handleBackAnswerClick 3
  else handleBackAnswerClick 1.

End Handlers.

(** The menu as [Questionnaire] mounts it: props read from the state it was
    rendered with, callbacks acting on that state. *)
Definition clickNext (s : Questionnaire.State) : Questionnaire.State :=
  handleNextClick Questionnaire.handleNextAnswerClick
    (Questionnaire.skipPhysicalQuestions s) (Questionnaire.questionId s) s.

Definition clickBack (s : Questionnaire.State) : Questionnaire.State :=
  handleBackClick Questionnaire.handleBackAnswerClick
    (Questionnaire.skipPhysicalQuestions s) (Questionnaire.questionId s) s.

End NavigationMenu.

(** ** [frontend/src/components/CreateNumButtons.jsx] *)
Module CreateNumButtons.
Import Js QuestionnaireUtils.

(** The question shown: [data.id], [data.question], [data.options]. *)
Record Data (K : Type) : Type := {
  id : K;
  question : prim;
  options : list prim
}.
Arguments id {K} _.
Arguments question {K} _.
Arguments options {K} _.

Section Component.
Context {K : Type} `{Countable K} {W : Type}.
(** Props and the local state setter, acting on the world [W]. *)
Variable setCompletedQuestions :
  (gmap K (list prim) -> gmap K (list prim)) -> W -> W.
Variable saveAnswer : prim -> K -> prim -> prim -> W -> W.
Variable setSelectedButton : prim -> W -> W.

(** [handleButtonClick(event)], where [event.target] is the button rendered
    with [id={`button${index}`}]: [parseInt] of the id without its prefix is
    [index], and reading [data.options] past its end gives [undefined]. *)
Definition handleButtonClick (data : Data K)
    (completedQuestions : gmap K (list prim)) (sessionId : prim)
    (selectedButton : prim) (index : nat) : W -> W :=
  fun w =>
    let optionKey := default PUndefined (options data !! index) in
    if decide (optionKey = selectedButton)
    then
      removeCompletedQuestion completedQuestions setCompletedQuestions (id data)
        (setSelectedButton PNull w)
    else
      saveAnswer sessionId (id data) optionKey (question data)
        (addCompletedQuestion setCompletedQuestions (id data) optionKey
           (setSelectedButton optionKey w)).

End Component.

(** One call of the [saveAnswer] prop. *)
Record SaveCall (K : Type) : Type := {
  call_sessionId : prim;
  call_questionId : K;
  call_answer : prim;
  call_question : prim
}.
Arguments call_sessionId {K} _.
Arguments call_questionId {K} _.
Arguments call_answer {K} _.
Arguments call_question {K} _.

(** The component mounted in a page: the shared [completedQuestions] state,
    the local [selectedButton] cell, the calls of [saveAnswer] made so far and
    the answers the back end holds (its store type [B] is its own affair). *)
Record World (K : Type) `{Countable K} (B : Type) : Type := {
  completedQuestions : gmap K (list prim);
  selectedButton : prim;
  saveCalls : list (SaveCall K);
  backend : B
}.
Arguments completedQuestions {K _ _ B} _.
Arguments selectedButton {K _ _ B} _.
Arguments saveCalls {K _ _ B} _.
Arguments backend {K _ _ B} _.

Section Mounted.
Context {K : Type} `{Countable K} {B : Type}.
(** What one save request does to the back end's store. *)
Variable server : SaveCall K -> B -> B.

Definition world_setCompletedQuestions
    (f : gmap K (list prim) -> gmap K (list prim)) (w : World K B) : World K B :=
  {| completedQuestions := f (completedQuestions w);
     selectedButton := selectedButton w;
     saveCalls := saveCalls w;
     backend := backend w |}.

Definition world_setSelectedButton (v : prim) (w : World K B) : World K B :=
  {| completedQuestions := completedQuestions w;
     selectedButton := v;
     saveCalls := saveCalls w;
     backend := backend w |}.

Definition world_saveAnswer (sessionId : prim) (questionId : K)
    (answer question : prim) (w : World K B) : World K B :=
  let call := {| call_sessionId := sessionId; call_questionId := questionId;
                 call_answer := answer; call_question := question |} in
  {| completedQuestions := completedQuestions w;
     selectedButton := selectedButton w;
     saveCalls := saveCalls w ++ [call];
     backend := server call (backend w) |}.

(** A click on button [index], the handler closed over the props and state
    of the render that produced [w]. *)
Definition click (data : Data K) (sessionId : prim) (index : nat)
    (w : World K B) : World K B :=
  handleButtonClick world_setCompletedQuestions world_saveAnswer
    world_setSelectedButton data (completedQuestions w) sessionId
    (selectedButton w) index w.

End Mounted.

End CreateNumButtons.

(** ** [frontend/src/pages/Page.jsx] *)
Module Page.
Import Js Eff.
Local Open Scope eff_scope.

Record State : Type := {
  expressLink : value;
  descLink : value;
  videoLink : value;
  loading : bool;
  error : option string;
  videoPlayed : bool
}.

(** The [useState] initial values. *)
Definition initial : State :=
  {| expressLink := null; descLink := null; videoLink := null;
     loading := true; error := None; videoPlayed := false |}.

Definition setExpressLink (v : value) (s : State) : State :=
  {| expressLink := v; descLink := descLink s; videoLink := videoLink s;
     loading := loading s; error := error s; videoPlayed := videoPlayed s |}.

Definition setDescLink (v : value) (s : State) : State :=
  {| expressLink := expressLink s; descLink := v; videoLink := videoLink s;
     loading := loading s; error := error s; videoPlayed := videoPlayed s |}.

Definition setVideoLink (v : value) (s : State) : State :=
  {| expressLink := expressLink s; descLink := descLink s; videoLink := v;
     loading := loading s; error := error s; videoPlayed := videoPlayed s |}.

Definition setLoading (b : bool) (s : State) : State :=
  {| expressLink := expressLink s; descLink := descLink s;
     videoLink := videoLink s;
     loading := b; error := error s; videoPlayed := videoPlayed s |}.

Definition setError (e : option string) (s : State) : State :=
  {| expressLink := expressLink s; descLink := descLink s;
     videoLink := videoLink s;
     loading := loading s; error := e; videoPlayed := videoPlayed s |}.

Definition load_failure : string :=
  "Failed to load role links. Please try again.".

(** [getRoleLinks(roleName)]; [net] is what the network answers to the POST
    of [{ role_name: roleName }] to [/api/role-links]. *)
Definition getRoleLinks (net : jsstring -> FetchOutcome) (roleName : jsstring)
    : M State unit :=
  try_finally
    (try_catch
       (modify (setLoading true) ;;
        modify (setError None) ;;
        response <- fetch (net roleName) ;;
        when (negb (ok response)) (throw (HttpError (status response))) ;;
        result <- response_json response ;;
        express <- get_prop result "express_link" ;;
        modify (setExpressLink express) ;;
        desc <- get_prop result "desc_link" ;;
        modify (setDescLink desc) ;;
        video <- get_prop result "video_link" ;;
        modify (setVideoLink video))
       (fun _ => modify (setError (Some load_failure))))
    (modify (setLoading false)).

(** The state after the catch and finally blocks. *)
Definition load_failed (s : State) : State :=
  setLoading false (setError (Some load_failure) (setError None (setLoading true s))).

(** The state after the three links were set. *)
Definition load_succeeded (express desc video : value) (s : State) : State :=
  setLoading false
    (setVideoLink video (setDescLink desc (setExpressLink express
       (setError None (setLoading true s))))).

End Page.

(** ** [frontend/src/components/NavigationMenu.jsx]: the buttons shown *)
Module NavigationButtons.

(** [const totalQuestions = 12] *)
Definition totalQuestions : Z := 12.

(** [{questionId < totalQuestions - 1 && <h2 onClick={handleNextClick}>}] *)
Definition showsNext (questionId : Z) : bool := questionId <? totalQuestions - 1.

(** [{questionId > 0 && <h2 onClick={handleBackClick}>}] *)
Definition showsBack (questionId : Z) : bool := 0 <? questionId.

Inductive Button : Type := Next | Back.

(** A click on a button of the menu rendered from [s]; a button that is not
    rendered cannot be clicked. *)
Definition press (b : Button) (s : Questionnaire.State) : Questionnaire.State :=
  match b with
  | Next =>
      if showsNext (Questionnaire.questionId s) then NavigationMenu.clickNext s else s
  | Back =>
      if showsBack (Questionnaire.questionId s) then NavigationMenu.clickBack s else s
  end.

(** A series of clicks, each on the menu re-rendered after the one before. *)
Definition presses (bs : list Button) (s : Questionnaire.State) : Questionnaire.State :=
  fold_left (fun s b => press b s) bs s.

End NavigationButtons.

(** ** [frontend/src/components/CreateNumButtons.jsx]: the effect that follows
    [completedQuestions] *)
Module CreateNumButtonsSync.
Import Js CreateNumButtons.

Section Sync.
Context {K : Type} `{Countable K} {B : Type}.

(** [useEffect(() => { if (completedQuestions[data.id])
    setSelectedButton(completedQuestions[data.id][0]); else
    setSelectedButton(null); }, [completedQuestions, data.id])]; reading index 0
    of an empty array gives [undefined]. *)
Definition sync_effect (data : Data K) (w : World K B) : World K B :=
  match completedQuestions w !! id data with
  | Some answers => world_setSelectedButton (default PUndefined (head answers)) w
  | None => world_setSelectedButton PNull w
  end.

End Sync.

End CreateNumButtonsSync.

(** ** [frontend/src/components/CustomDropDown.jsx] and [AgeDropDown.jsx] *)
Module CustomDropDown.
Import Js QuestionnaireUtils.

Section Component.
Context {K : Type} `{Countable K} {W : Type}.
Variable setChoice : prim -> W -> W.
Variable setIsOpen : bool -> W -> W.
Variable setCompletedQuestions :
  (gmap K (list prim) -> gmap K (list prim)) -> W -> W.
Variable saveAnswer : prim -> K -> prim -> prim -> W -> W.

(** [handleChoice(option)] *)
Definition handleChoice (data : CreateNumButtons.Data K) (sessionId : prim)
    (option : prim) : W -> W :=
  fun w =>
    saveAnswer sessionId (CreateNumButtons.id data) option
      (CreateNumButtons.question data)
      (addCompletedQuestion setCompletedQuestions (CreateNumButtons.id data) option
         (setIsOpen false (setChoice option w))).

(** The effect that loads an existing selection:
    [if (completedQuestions[data.id] && completedQuestions[data.id].length > 0)
    setChoice(completedQuestions[data.id][0])]. *)
Definition load_effect (data : CreateNumButtons.Data K)
    (completedQuestions : gmap K (list prim)) : W -> W :=
  match completedQuestions !! CreateNumButtons.id data with
  | Some (first :: _) => setChoice first
  | _ => fun w => w
  end.

(** The options listed: [(options || data.options)]; an array prop, even an
    empty one, is truthy. *)
Definition listed (options : option (list prim)) (data : CreateNumButtons.Data K)
    : list prim :=
  match options with
  | Some given => given
  | None => CreateNumButtons.options data
  end.

End Component.

(** The dropdown mounted in a page. *)
Record World (K : Type) `{Countable K} (B : Type) : Type := {
  completedQuestions : gmap K (list prim);
  choice : prim;
  isOpen : bool;
  saveCalls : list (CreateNumButtons.SaveCall K);
  backend : B
}.
Arguments completedQuestions {K _ _ B} _.
Arguments choice {K _ _ B} _.
Arguments isOpen {K _ _ B} _.
Arguments saveCalls {K _ _ B} _.
Arguments backend {K _ _ B} _.

Section Mounted.
Context {K : Type} `{Countable K} {B : Type}.
Variable server : CreateNumButtons.SaveCall K -> B -> B.

Definition world_setChoice (v : prim) (w : World K B) : World K B :=
  {| completedQuestions := completedQuestions w; choice := v; isOpen := isOpen w;
     saveCalls := saveCalls w; backend := backend w |}.

Definition world_setIsOpen (b : bool) (w : World K B) : World K B :=
  {| completedQuestions := completedQuestions w; choice := choice w; isOpen := b;
     saveCalls := saveCalls w; backend := backend w |}.

Definition world_setCompletedQuestions
    (f : gmap K (list prim) -> gmap K (list prim)) (w : World K B) : World K B :=
  {| completedQuestions := f (completedQuestions w); choice := choice w;
     isOpen := isOpen w; saveCalls := saveCalls w; backend := backend w |}.

Definition world_saveAnswer (sessionId : prim) (questionId : K)
    (answer question : prim) (w : World K B) : World K B :=
  let call := {| CreateNumButtons.call_sessionId := sessionId;
                 CreateNumButtons.call_questionId := questionId;
                 CreateNumButtons.call_answer := answer;
                 CreateNumButtons.call_question := question |} in
  {| completedQuestions := completedQuestions w; choice := choice w;
     isOpen := isOpen w; saveCalls := saveCalls w ++ [call];
     backend := server call (backend w) |}.

(** A click on a listed option. *)
Definition pick (data : CreateNumButtons.Data K) (sessionId option : prim)
    (w : World K B) : World K B :=
  handleChoice world_setChoice world_setIsOpen world_setCompletedQuestions
    world_saveAnswer data sessionId option w.

(** The component mounted anew ([useState(null)], [useState(false)]) over the
    page's state, its load effect run. *)
Definition remount (data : CreateNumButtons.Data K) (w : World K B) : World K B :=
  load_effect world_setChoice data (completedQuestions w)
    (world_setIsOpen false (world_setChoice PNull w)).

End Mounted.

(** [Array.from({ length: 88 }, (_, i) => i + 13)] *)
Definition ages : list prim :=
  map (fun i : nat => PNum (Z.of_nat i + 13)) (seq 0 88).

End CustomDropDown.

(** ** [frontend/src/pages/Questionnaire.jsx]: a visit's saves, and Submit *)
Module QuestionnairePage.
Import Js Eff Questionnaire.
Local Open Scope eff_scope.

(** One call of [saveAnswer], with what the network answers to it. *)
Record Save : Type := {
  save_net : SaveRequest -> FetchOutcome;
  save_sessionId : prim;
  save_questionId : Z;
  save_answer : prim;
  save_question : prim;
  save_autoSave : bool
}.

Definition run_save (s : State) (c : Save) : State :=
  snd (saveAnswer (save_net c) (save_sessionId c) (save_questionId c)
         (save_answer c) (save_question c) (save_autoSave c) s).

(** The saves of a visit, one after the other. *)
Definition run_saves (cs : list Save) (s : State) : State :=
  fold_left run_save cs s.

(** The skip flag and the question total as [saveAnswer] sets them together:
    unset and 11, skipping and 10, not skipping and 12. *)
Definition totals_agree (s : State) : Prop :=
  (skipPhysicalQuestions s = None /\ totalQuestions s = 11)
  \/ (skipPhysicalQuestions s = Some true /\ totalQuestions s = 10)
  \/ (skipPhysicalQuestions s = Some false /\ totalQuestions s = 12).

(** The page around the state cells: the alerts raised and the navigations
    made. *)
Record Page : Type := {
  cells : State;
  alerts : list string;
  navigations : list (string * json)     (* [navigate(path, { state: { results } })] *)
}.

Definition alert (message : string) (p : Page) : Page :=
  {| cells := cells p; alerts := alerts p ++ [message];
     navigations := navigations p |}.

Definition navigate (path : string) (results : json) (p : Page) : Page :=
  {| cells := cells p; alerts := alerts p;
     navigations := navigations p ++ [(path, results)] |}.

Definition no_session : string :=
  "No active session found. Please refresh and try again.".

Definition submit_failed : string :=
  "Failed to submit assessment. Please try again.".

(** [handleSubmit()]; [net] is what the network answers to the POST of
    [{ session_id: sessionId }] to [/api/submit]. *)
Definition handleSubmit (net : prim -> FetchOutcome) : M Page unit :=
  fun p =>
    let sessionId := sessionId (cells p) in
    if negb (truthy_prim sessionId)
    then modify (alert no_session) p
    else
      try_catch
        (response <- fetch (net sessionId) ;;
         when (negb (ok response)) (throw (HttpError (status response))) ;;
         result <- response_json response ;;
         modify (navigate "/results" result))
        (fun _ => modify (alert submit_failed))
        p.

(** A submit request that does not come back with a parsed body. *)
Definition submit_fails (o : FetchOutcome) : Prop :=
  o = Rejected
  \/ exists r, o = Resolved r /\ (ok r = false \/ body r = None).

End QuestionnairePage.

(** ** Regular expressions as [RegExp.prototype.test] runs them on a pattern
    anchored at both ends *)
Module Regex.
Import Js.

(** The patterns used: character classes, sequence, alternation, repetition. *)
Inductive regex : Type :=
  | Never
  | Empty
  | Class (p : N -> bool)
  | Seq (r1 r2 : regex)
  | Alt (r1 r2 : regex)
  | Star (r : regex).

(** [r+], [r?] and [r{n}] *)
Definition Plus (r : regex) : regex := Seq r (Star r).

Definition Optional (r : regex) : regex := Alt r Empty.

Fixpoint Times (n : nat) (r : regex) : regex :=
  match n with
  | O => Empty
  | S n => Seq r (Times n r)
  end.

(** A literal code unit. *)
Definition Literal (c : N) : regex := Class (fun x => (x =? c)%N).

(** The strings of a pattern. *)
Inductive Matches : regex -> jsstring -> Prop :=
  | MatchesEmpty : Matches Empty []
  | MatchesClass p c : p c = true -> Matches (Class p) [c]
  | MatchesSeq r1 r2 s1 s2 :
      Matches r1 s1 -> Matches r2 s2 -> Matches (Seq r1 r2) (s1 ++ s2)
  | MatchesAltL r1 r2 s : Matches r1 s -> Matches (Alt r1 r2) s
  | MatchesAltR r1 r2 s : Matches r2 s -> Matches (Alt r1 r2) s
  | MatchesStarNil r : Matches (Star r) []
  | MatchesStarApp r s1 s2 :
      Matches r s1 -> Matches (Star r) s2 -> Matches (Star r) (s1 ++ s2).

(** Whether the pattern takes the empty string. *)
Fixpoint nullable (r : regex) : bool :=
  match r with
  | Never => false
  | Empty => true
  | Class _ => false
  | Seq r1 r2 => nullable r1 && nullable r2
  | Alt r1 r2 => nullable r1 || nullable r2
  | Star _ => true
  end.

(** What is left of the pattern after the code unit [c]. *)
Fixpoint derive (c : N) (r : regex) : regex :=
  match r with
  | Never => Never
  | Empty => Never
  | Class p => if p c then Empty else Never
  | Seq r1 r2 =>
      if nullable r1
      then Alt (Seq (derive c r1) r2) (derive c r2)
      else Seq (derive c r1) r2
  | Alt r1 r2 => Alt (derive c r1) (derive c r2)
  | Star r => Seq (derive c r) (Star r)
  end.

(** [/^r$/.test(s)] *)
Definition test (r : regex) (s : jsstring) : bool :=
  nullable (fold_left (fun r c => derive c r) s r).

(** [\d] and [\s] *)
Definition digit (c : N) : bool := ((48 <=? c) && (c <=? 57))%N.

Definition space (c : N) : bool := isWhiteSpace c.

End Regex.

(** ** [frontend/src/components/UserInfoForm.jsx] *)
Module UserInfoForm.
Import Js Eff Regex QuestionnaireUtils.
Local Open Scope eff_scope.

(** [[^\s@]] *)
Definition not_space_or_at (c : N) : bool := negb (space c) && negb (c =? 64)%N.

(** [/^[^\s@]+@[^\s@]+\.[^\s@]+$/] *)
Definition emailRegex : regex :=
  Seq (Plus (Class not_space_or_at))
    (Seq (Literal 64)
       (Seq (Plus (Class not_space_or_at))
          (Seq (Literal 46) (Plus (Class not_space_or_at))))).

Definition validateEmail (email : jsstring) : bool := test emailRegex email.

(** [/^\d{5}(-\d{4})?$/] *)
Definition zipcodeRegex : regex :=
  Seq (Times 5 (Class digit))
    (Optional (Seq (Literal 45) (Times 4 (Class digit)))).

Definition validateZipcode (zipcode : jsstring) : bool := test zipcodeRegex zipcode.

(** [formData]: a field holds what the user typed, a string, unless the load
    effect put another value there. *)
Record FormData : Type := {
  name : value;
  email : value;
  zipcode : value
}.

Definition str (s : jsstring) : value := Json (JStr s).

(** [errors]: a field is [undefined] ([None]) or a message, the empty one
    included. *)
Record Errors : Type := {
  name_error : option string;
  email_error : option string;
  zipcode_error : option string
}.

Inductive Field : Type := FName | FEmail | FZipcode.

(** [ToBoolean] on an error field. *)
Definition shown (e : option string) : bool :=
  match e with
  | Some m => negb (String.eqb m "")
  | None => false
  end.

(** The component's own state cells. *)
Record State : Type := {
  formData : FormData;
  errors : Errors;
  isSubmitted : bool
}.

(** The [useState] initial values. *)
Definition initial : State :=
  {| formData := {| name := str []; email := str []; zipcode := str [] |};
     errors := {| name_error := Some ""%string; email_error := Some ""%string;
                  zipcode_error := Some ""%string |};
     isSubmitted := false |}.

Definition setFormData (f : FormData -> FormData) (s : State) : State :=
  {| formData := f (formData s); errors := errors s; isSubmitted := isSubmitted s |}.

Definition setErrors (f : Errors -> Errors) (s : State) : State :=
  {| formData := formData s; errors := f (errors s); isSubmitted := isSubmitted s |}.

Definition setIsSubmitted (b : bool) (s : State) : State :=
  {| formData := formData s; errors := errors s; isSubmitted := b |}.

Definition set_field (field : Field) (v : value) (d : FormData) : FormData :=
  match field with
  | FName => {| name := v; email := email d; zipcode := zipcode d |}
  | FEmail => {| name := name d; email := v; zipcode := zipcode d |}
  | FZipcode => {| name := name d; email := email d; zipcode := v |}
  end.

Definition error_of (field : Field) (e : Errors) : option string :=
  match field with
  | FName => name_error e
  | FEmail => email_error e
  | FZipcode => zipcode_error e
  end.

Definition set_error (field : Field) (m : option string) (e : Errors) : Errors :=
  match field with
  | FName => {| name_error := m; email_error := email_error e;
                zipcode_error := zipcode_error e |}
  | FEmail => {| name_error := name_error e; email_error := m;
                 zipcode_error := zipcode_error e |}
  | FZipcode => {| name_error := name_error e; email_error := email_error e;
                   zipcode_error := m |}
  end.

(** [handleInputChange(field, value)] *)
Definition handleInputChange (field : Field) (v : jsstring) (s : State) : State :=
  let s1 := setFormData (set_field field (str v)) s in
  if shown (error_of field (errors s))
  then setErrors (set_error field (Some ""%string)) s1
  else s1.

(** [x.trim()] on a state value: a [TypeError] unless [x] is a string. *)
Definition trim_of {S : Type} (x : value) : M S jsstring :=
  match x with
  | Json (JStr s) => ret (trim s)
  | _ => throw TypeError
  end.

(** [regex.test(x)] after [x.trim()] went through: [x] is a string. *)
Definition string_of (x : value) : jsstring :=
  match x with
  | Json (JStr s) => s
  | _ => []
  end.

Definition no_errors : Errors :=
  {| name_error := None; email_error := None; zipcode_error := None |}.

(** [validateForm()]: collects [newErrors] and [isValid], sets [errors] and
    returns [isValid]. *)
Definition validateForm : M State bool :=
  fun s0 =>
    (let d := formData s0 in
     n <- trim_of (name d) ;;
     let '(e1, v1) :=
       if negb (truthy_string n)
       then (set_error FName (Some "Name is required"%string) no_errors, false)
       else (no_errors, true) in
     e <- trim_of (email d) ;;
     let '(e2, v2) :=
       if negb (truthy_string e)
       then (set_error FEmail (Some "Email is required"%string) e1, false)
       else if negb (validateEmail (string_of (email d)))
            then (set_error FEmail
                    (Some "Please enter a valid email address"%string) e1, false)
            else (e1, v1) in
     z <- trim_of (zipcode d) ;;
     let '(e3, v3) :=
       if negb (truthy_string z)
       then (set_error FZipcode (Some "Zipcode is required"%string) e2, false)
       else if negb (validateZipcode (string_of (zipcode d)))
            then (set_error FZipcode
                    (Some "Please enter a valid zipcode (e.g., 12345 or 12345-6789)"%string)
                    e2, false)
            else (e2, v2) in
     modify (setErrors (fun _ => e3)) ;;
     ret v3)%eff s0.

(** One call of the [saveAnswer] prop, the answer an object. *)
Record SaveCall (K : Type) : Type := {
  call_sessionId : prim;
  call_questionId : K;
  call_answer : json;
  call_question : prim
}.
Arguments call_sessionId {K} _.
Arguments call_questionId {K} _.
Arguments call_answer {K} _.
Arguments call_question {K} _.

(** The form mounted in a page: its own cells, the shared
    [completedQuestions] and the calls of [saveAnswer] made. *)
Record World (K : Type) `{Countable K} : Type := {
  component : State;
  completedQuestions : gmap K (list json);
  saveCalls : list (SaveCall K)
}.
Arguments component {K _ _} _.
Arguments completedQuestions {K _ _} _.
Arguments saveCalls {K _ _} _.

Section Mounted.
Context {K : Type} `{Countable K}.

Definition on_component (f : State -> State) (w : World K) : World K :=
  {| component := f (component w); completedQuestions := completedQuestions w;
     saveCalls := saveCalls w |}.

Definition world_setCompletedQuestions
    (f : gmap K (list json) -> gmap K (list json)) (w : World K) : World K :=
  {| component := component w; completedQuestions := f (completedQuestions w);
     saveCalls := saveCalls w |}.

Definition world_saveAnswer (sessionId : prim) (questionId : K) (answer : json)
    (question : prim) (w : World K) : World K :=
  {| component := component w; completedQuestions := completedQuestions w;
     saveCalls := saveCalls w
                  ++ [{| call_sessionId := sessionId; call_questionId := questionId;
                         call_answer := answer; call_question := question |}] |}.

(** [validateForm()] run on the component's cells. *)
Definition world_validateForm : M (World K) bool :=
  fun w =>
    match validateForm (component w) with
    | (c, s') => (c, on_component (fun _ => s') w)
    end.

(** [{ name: formData.name.trim(), email: ..., zipcode: ... }] *)
Definition answerData (n e z : jsstring) : json :=
  JObj [("name"%string, JStr n); ("email"%string, JStr e); ("zipcode"%string, JStr z)].

(** [handleSubmit(e)] *)
Definition handleSubmit (id : K) (question sessionId : prim) : M (World K) unit :=
  (valid <- world_validateForm ;;
   when valid
     (modify (on_component (setIsSubmitted true)) ;;
      n <- (fun w => trim_of (name (formData (component w))) w) ;;
      e <- (fun w => trim_of (email (formData (component w))) w) ;;
      z <- (fun w => trim_of (zipcode (formData (component w))) w) ;;
      let answer := answerData n e z in
      modify (addCompletedQuestion world_setCompletedQuestions id (JArr [answer])) ;;
      modify (world_saveAnswer sessionId id answer question)))%eff.

(** [typeof x === "object"] *)
Definition typeof_object (x : json) : bool :=
  match x with
  | JNull | JArr _ | JObj _ => true
  | _ => false
  end.

(** [x.k] for a key that no prototype defines: a [TypeError] on [null], the
    own property of an object, [undefined] on anything else. *)
Definition read {S : Type} (x : json) (k : string) : M S value := get_prop x k.

(** [x || ""] *)
Definition or_empty (x : value) : value := or truthy x (str []).

(** The effect that loads existing form data. *)
Definition load_effect (id : K) : M (World K) unit :=
  fun w =>
    match completedQuestions w !! id with
    | Some (savedData :: _) =>
        (if typeof_object savedData
         then
           n <- read savedData "name" ;;
           when (truthy n)
             (e <- read savedData "email" ;;
              z <- read savedData "zipcode" ;;
              modify (on_component
                        (setFormData (fun _ => {| name := or_empty n;
                                                  email := or_empty e;
                                                  zipcode := or_empty z |}))) ;;
              modify (on_component (setIsSubmitted true)))
         else ret tt)%eff w
    | _ => (Normal tt, w)
    end.

(** The component mounted anew over the page's state, its load effect run. *)
Definition remount (id : K) (w : World K) : completion unit * World K :=
  load_effect id (on_component (fun _ => initial) w).

End Mounted.

End UserInfoForm.

(** ** More JavaScript built-ins: [join], [Number.prototype.toString] on
    integers, [parseInt] *)
Module JsText.
Import Js.

(** [items.join(sep)] on an array of strings. *)
Fixpoint join (sep : jsstring) (items : list jsstring) : jsstring :=
  match items with
  | [] => []
  | [x] => x
  | x :: rest => x ++ sep ++ join sep rest
  end.

(** The decimal digits of [n], most significant first, in front of [acc];
    [fuel] bounds their number. *)
Fixpoint digits_of (fuel : nat) (n : N) (acc : jsstring) : jsstring :=
  let acc' := (48 + n mod 10)%N :: acc in
  match fuel with
  | O => acc'
  | S fuel => if (n <? 10)%N then acc' else digits_of fuel (n / 10) acc'
  end.

Definition N_toString (n : N) : jsstring :=
  digits_of (N.to_nat (N.log2 n)) n [].

(** [n.toString()] for an integer [n] (as [Date.now()] is). *)
Definition number_toString (z : Z) : jsstring :=
  match z with
  | Z0 => N_toString 0
  | Zpos p => N_toString (Npos p)
  | Zneg p => 45%N :: N_toString (Npos p)
  end.

(** The value of a digit in the radix, if it is one: [0-9], [a-z], [A-Z]. *)
Definition digit_value (radix : Z) (c : N) : option Z :=
  let v := if ((48 <=? c) && (c <=? 57))%N then Z.of_N c - 48
           else if ((97 <=? c) && (c <=? 122))%N then Z.of_N c - 87
           else if ((65 <=? c) && (c <=? 90))%N then Z.of_N c - 55
           else radix in
  if v <? radix then Some v else None.

(** The number read from the longest prefix of digits; [None] when there is
    no digit at all. *)
Fixpoint parse_digits (radix : Z) (s : jsstring) (acc : option Z) : option Z :=
  match s with
  | [] => acc
  | c :: t =>
      match digit_value radix c with
      | Some d => parse_digits radix t (Some (default 0 acc * radix + d))
      | None => acc
      end
  end.

Definition strip_sign (s : jsstring) : Z * jsstring :=
  match s with
  | c :: t =>
      if (c =? 45)%N then (-1, t) else if (c =? 43)%N then (1, t) else (1, s)
  | [] => (1, s)
  end.

Definition strip_hex_prefix (s : jsstring) : Z * jsstring :=
  match s with
  | c :: x :: t =>
      if ((c =? 48) && ((x =? 120) || (x =? 88)))%N then (16, t) else (10, s)
  | _ => (10, s)
  end.

(** [parseInt(s)]: leading white space skipped, a sign, a [0x] prefix, then
    the digits; [None] is [NaN].  (The value is the integer read; a double
    holds it exactly up to 2^53.) *)
Definition parseInt (s : jsstring) : option Z :=
  let '(sign, s1) := strip_sign (trimStart s) in
  let '(radix, s2) := strip_hex_prefix s1 in
  (fun v => sign * v) <$> parse_digits radix s2 None.

End JsText.

(** ** [frontend/src/pages/Results.jsx]: keeping the results in
    [localStorage] *)
Module ResultsStorage.
Import Js JsText Results.

(** The two keys. *)
Definition assessmentResults : string := "assessmentResults".

Definition resultsTimestamp : string := "resultsTimestamp".

(** [24 * 60 * 60 * 1000] *)
Definition MAX_AGE : Z := 24 * 60 * 60 * 1000.

Section Storage.
(** [JSON.stringify] and [JSON.parse] on result objects: [None] is the
    [SyntaxError] of [JSON.parse], [Some None] a parsed [null]. *)
Variable JSON_stringify : ResultObject -> jsstring.
Variable JSON_parse : jsstring -> option (option ResultObject).
(** Whether [localStorage.setItem(key, value)] goes through on the items
    held, or throws (the quota). *)
Variable accepts : gmap string jsstring -> string -> jsstring -> bool.

(** [localStorage.setItem(key, value)]; [None]: it threw. *)
Definition setItem (key : string) (v : jsstring) (items : gmap string jsstring)
    : option (gmap string jsstring) :=
  if accepts items key v then Some (<[key := v]> items) else None.

(** [saveResultsToStorage(results)] at the time [now]: the [try] block stops
    at the first [setItem] that throws, the [catch] block only logs. *)
Definition saveResultsToStorage (now : Z) (results : ResultObject)
    (items : gmap string jsstring) : gmap string jsstring :=
  match setItem assessmentResults (JSON_stringify results) items with
  | None => items
  | Some items1 =>
      match setItem resultsTimestamp (number_toString now) items1 with
      | None => items1
      | Some items2 => items2
      end
  end.

(** [clearResultsFromStorage()] *)
Definition clearResultsFromStorage (items : gmap string jsstring)
    : gmap string jsstring :=
  delete resultsTimestamp (delete assessmentResults items).

(** [timestamp && Date.now() - parseInt(timestamp) > MAX_AGE]; a comparison
    with [NaN] is false. *)
Definition too_old (now : Z) (timestamp : option jsstring) : bool :=
  match timestamp with
  | Some t =>
      truthy_string t
      && match parseInt t with
         | Some written => MAX_AGE <? now - written
         | None => false
         end
  | None => false
  end.

(** [loadResultsFromStorage()] at the time [now]: what it returns ([None] is
    [null]) and the items it leaves. *)
Definition loadResultsFromStorage (now : Z) (items : gmap string jsstring)
    : option ResultObject * gmap string jsstring :=
  let savedResults := items !! assessmentResults in
  let timestamp := items !! resultsTimestamp in
  if too_old now timestamp
  then (None, clearResultsFromStorage items)
  else
    match savedResults with
    | Some text =>
        if truthy_string text
        then match JSON_parse text with
             | Some parsed => (parsed, items)
             | None => (None, items)
             end
        else (None, items)
    | None => (None, items)
    end.

(** The page: [currentResults] and the browser's storage. *)
Record Page : Type := {
  currentResults : option ResultObject;
  storage : gmap string jsstring
}.

(** The page as first rendered. *)
Definition fresh (items : gmap string jsstring) : Page :=
  {| currentResults := None; storage := items |}.

(** The effect that loads the results on mount, at the time [now];
    [incomingResults] is [location.state?.results]. *)
Definition load_effect (now : Z) (incomingResults : option ResultObject) (p : Page)
    : Page :=
  match incomingResults with
  | Some results =>
      {| currentResults := Some results;
         storage := saveResultsToStorage now results (storage p) |}
  | None =>
      match loadResultsFromStorage now (storage p) with
      | (Some savedResults, items) =>
          {| currentResults := Some savedResults; storage := items |}
      | (None, items) =>
          {| currentResults := currentResults p; storage := items |}
      end
  end.

End Storage.

End ResultsStorage.

(** ** [frontend/src/pages/Results.jsx]: the role names in the field *)
Module RoleNames.
Import Js.


End RoleNames.

(** ** [frontend/src/components/MultiChoiceDropDown.jsx] *)
Module MultiChoiceDropDown.
Import Js JsText Regex QuestionnaireUtils.

Section Text.
(** [Number.prototype.toString]: how a number is written, in a template
    literal and in [join] alike. *)
Variable Number_toString : Z -> jsstring.

(** [String(v)], as a template literal converts [v]. *)
Definition toString (v : prim) : jsstring :=
  match v with
  | PUndefined => lit "undefined"
  | PNull => lit "null"
  | PBool true => lit "true"
  | PBool false => lit "false"
  | PNum n => Number_toString n
  | PStr s => s
  end.

(** [items.join(sep)]: [undefined] and [null] elements give the empty
    string. *)
Definition join_values (sep : jsstring) (items : list prim) : jsstring :=
  join sep (map (fun v => match v with
                          | PUndefined | PNull => []
                          | _ => toString v
                          end) items).

End Text.

(** [s.replace(/r$/, '')]: the leftmost match of [r] that reaches the end of
    [s] is cut off; [s] is kept when there is none. *)
Fixpoint replace_at_end (r : regex) (s : jsstring) : jsstring :=
  if test r s then []
  else match s with
       | [] => []
       | c :: t => c :: replace_at_end r t
       end.

(** The code unit of the multiplication sign, and [\s*×\s*]. *)
Definition times_sign : N := 215%N.

Definition remove_mark : regex :=
  Seq (Star (Class space)) (Seq (Literal times_sign) (Star (Class space))).

(** The text of the span that shows a selected item: the template literal
    [`${item}  ×`] and the space that follows it in the JSX. *)
Definition span_text (Number_toString : Z -> jsstring) (item : prim) : jsstring :=
  toString Number_toString item ++ [32; 32; times_sign; 32]%N.

(** [choice.filter((item) => item !== clickedItemText)] *)
Definition remaining (clickedItemText : jsstring) (choice : list prim) : list prim :=
  filter (fun item => item <> PStr clickedItemText) choice.

Section Component.
Context {K : Type} `{Countable K} {W : Type}.
Variable Number_toString : Z -> jsstring.
Variable setChoice : (list prim -> list prim) -> W -> W.
Variable setIsOpen : bool -> W -> W.
Variable setCompletedQuestions :
  (gmap K (list prim) -> gmap K (list prim)) -> W -> W.
Variable saveAnswer : prim -> K -> prim -> prim -> W -> W.

(** The effect that follows [choice]. *)
Definition choice_effect (data : CreateNumButtons.Data K)
    (completedQuestions : gmap K (list prim)) (sessionId : prim)
    (choice : list prim) : W -> W :=
  match choice with
  | [] =>
      removeCompletedQuestion completedQuestions setCompletedQuestions
        (CreateNumButtons.id data)
  | _ :: _ =>
      fun w =>
        let answerString := join_values Number_toString (lit ", ") choice in
        saveAnswer sessionId (CreateNumButtons.id data) (PStr answerString)
          (CreateNumButtons.question data)
          (setCompletedQuestionsMulti setCompletedQuestions
             (CreateNumButtons.id data) choice w)
  end.

(** The effect that loads the answers held: an array, even an empty one, is
    truthy. *)
Definition load_effect (data : CreateNumButtons.Data K)
    (completedQuestions : gmap K (list prim)) : W -> W :=
  match completedQuestions !! CreateNumButtons.id data with
  | Some saved => setChoice (fun _ => saved)
  | None => fun w => w
  end.

(** A click on a listed option: [setChoice(prev => [...prev, option])]. *)
Definition handleOptionClick (option : prim) : W -> W :=
  setChoice (fun prev => prev ++ [option]).

(** [handleRemoveOnClick(event)], where [event.target] is the span that shows
    [item]; [choice] is the selection the span was rendered with. *)
Definition handleRemoveOnClick (choice : list prim) (item : prim) : W -> W :=
  let clickedItemText := trim (replace_at_end remove_mark (span_text Number_toString item)) in
  setChoice (fun _ => remaining clickedItemText choice).

(** The span's [onClick]: [handleRemoveOnClick(event); setIsOpen(false)]. *)
Definition handleSpanClick (choice : list prim) (item : prim) : W -> W :=
  fun w => setIsOpen false (handleRemoveOnClick choice item w).

End Component.

(** The dropdown mounted in a page. *)
Record World (K : Type) `{Countable K} : Type := {
  completedQuestions : gmap K (list prim);
  choice : list prim;
  isOpen : bool;
  saveCalls : list (CreateNumButtons.SaveCall K)
}.
Arguments completedQuestions {K _ _} _.
Arguments choice {K _ _} _.
Arguments isOpen {K _ _} _.
Arguments saveCalls {K _ _} _.

Section Mounted.
Context {K : Type} `{Countable K}.
Variable Number_toString : Z -> jsstring.

Definition world_setChoice (f : list prim -> list prim) (w : World K) : World K :=
  {| completedQuestions := completedQuestions w; choice := f (choice w);
     isOpen := isOpen w; saveCalls := saveCalls w |}.

Definition world_setIsOpen (b : bool) (w : World K) : World K :=
  {| completedQuestions := completedQuestions w; choice := choice w;
     isOpen := b; saveCalls := saveCalls w |}.

Definition world_setCompletedQuestions
    (f : gmap K (list prim) -> gmap K (list prim)) (w : World K) : World K :=
  {| completedQuestions := f (completedQuestions w); choice := choice w;
     isOpen := isOpen w; saveCalls := saveCalls w |}.

Definition world_saveAnswer (sessionId : prim) (questionId : K)
    (answer question : prim) (w : World K) : World K :=
  let call := {| CreateNumButtons.call_sessionId := sessionId;
                 CreateNumButtons.call_questionId := questionId;
                 CreateNumButtons.call_answer := answer;
                 CreateNumButtons.call_question := question |} in
  {| completedQuestions := completedQuestions w; choice := choice w;
     isOpen := isOpen w; saveCalls := saveCalls w ++ [call] |}.

(** The effects that run after a click changed [choice]: the choice effect,
    on the selection and the [completedQuestions] of the new render, then,
    [completedQuestions] having changed, the load effect (where the choice
    effect left [completedQuestions] alone, its entry is absent and the load
    effect would do nothing). *)
Definition settle (data : CreateNumButtons.Data K) (sessionId : prim)
    (w : World K) : World K :=
  let w1 := choice_effect Number_toString world_setCompletedQuestions
              world_saveAnswer data (completedQuestions w) sessionId (choice w) w in
  load_effect world_setChoice data (completedQuestions w1) w1.

(** A click on a listed option, and a click on a selected item's span. *)
Inductive Click : Type :=
  | Pick (option : prim)
  | Remove (item : prim).

Definition click (data : CreateNumButtons.Data K) (sessionId : prim) (c : Click)
    (w : World K) : World K :=
  match c with
  | Pick option => settle data sessionId (handleOptionClick world_setChoice option w)
  | Remove item =>
      settle data sessionId
        (handleSpanClick Number_toString world_setChoice world_setIsOpen (choice w)
           item w)
  end.

Definition clicks (data : CreateNumButtons.Data K) (sessionId : prim)
    (cs : list Click) (w : World K) : World K :=
  fold_left (fun w c => click data sessionId c w) cs w.

End Mounted.

End MultiChoiceDropDown.

(** ** [frontend/src/pages/AdminUpload.jsx] *)
Module AdminUpload.
Import Js Eff.
Local Open Scope eff_scope.

(** A [File] picked in an input; [file_name] is [file.name]. *)
Record File : Type := {
  file_name : jsstring
}.

(** The component's [useState] cells, the arguments of the [alert] calls
    made, and the error of a render that failed. *)
Record State : Type := {
  password : jsstring;
  sessionToken : value;
  sessionExpires : value;
  matchFile : option File;
  roleFile : option File;
  response : jsstring;
  loading : bool;
  alerts : list value;
  renderError : option exn
}.

Definition initial : State :=
  {| password := []; sessionToken := null; sessionExpires := null;
     matchFile := None; roleFile := None; response := []; loading := false;
     alerts := []; renderError := None |}.

Definition setPassword (v : jsstring) (s : State) : State :=
  {| password := v; sessionToken := sessionToken s;
     sessionExpires := sessionExpires s; matchFile := matchFile s;
     roleFile := roleFile s; response := response s; loading := loading s;
     alerts := alerts s; renderError := renderError s |}.

Definition setSessionToken (v : value) (s : State) : State :=
  {| password := password s; sessionToken := v;
     sessionExpires := sessionExpires s; matchFile := matchFile s;
     roleFile := roleFile s; response := response s; loading := loading s;
     alerts := alerts s; renderError := renderError s |}.

Definition setSessionExpires (v : value) (s : State) : State :=
  {| password := password s; sessionToken := sessionToken s;
     sessionExpires := v; matchFile := matchFile s;
     roleFile := roleFile s; response := response s; loading := loading s;
     alerts := alerts s; renderError := renderError s |}.

Definition setMatchFile (v : option File) (s : State) : State :=
  {| password := password s; sessionToken := sessionToken s;
     sessionExpires := sessionExpires s; matchFile := v;
     roleFile := roleFile s; response := response s; loading := loading s;
     alerts := alerts s; renderError := renderError s |}.

Definition setRoleFile (v : option File) (s : State) : State :=
  {| password := password s; sessionToken := sessionToken s;
     sessionExpires := sessionExpires s; matchFile := matchFile s;
     roleFile := v; response := response s; loading := loading s;
     alerts := alerts s; renderError := renderError s |}.

(** [setResponse(updater)]: the updater runs on the state when the component
    renders next; if it throws, that render fails with its error. *)
Definition setResponse (updater : jsstring -> completion jsstring) (s : State)
    : State :=
  match updater (response s) with
  | Normal v =>
      {| password := password s; sessionToken := sessionToken s;
         sessionExpires := sessionExpires s; matchFile := matchFile s;
         roleFile := roleFile s; response := v; loading := loading s;
         alerts := alerts s; renderError := renderError s |}
  | Throw e =>
      {| password := password s; sessionToken := sessionToken s;
         sessionExpires := sessionExpires s; matchFile := matchFile s;
         roleFile := roleFile s; response := response s; loading := loading s;
         alerts := alerts s; renderError := Some e |}
  end.

Definition setLoading (b : bool) (s : State) : State :=
  {| password := password s; sessionToken := sessionToken s;
     sessionExpires := sessionExpires s; matchFile := matchFile s;
     roleFile := roleFile s; response := response s; loading := b;
     alerts := alerts s; renderError := renderError s |}.

(** [alert(message)] *)
Definition alert (message : value) (s : State) : State :=
  {| password := password s; sessionToken := sessionToken s;
     sessionExpires := sessionExpires s; matchFile := matchFile s;
     roleFile := roleFile s; response := response s; loading := loading s;
     alerts := alerts s ++ [message]; renderError := renderError s |}.

(** A string as a value. *)
Definition text (s : string) : value := Json (JStr (lit s)).

(** [data.k] evaluated on its own: what it gives, or the error it throws. *)
Definition read (data : json) (k : string) : completion value :=
  fst (get_prop data k tt).

(** [handleLogin(e)]; [net] is what the network answers to the POST of
    [{ password }] to [/api/admin-login].  [alert] shows its first argument
    only. *)
Definition handleLogin (net : jsstring -> FetchOutcome) : M State unit :=
  fun s0 =>
    (modify (setLoading true) ;;
     try_finally
       (try_catch
          (res <- fetch (net (password s0)) ;;
           data <- response_json res ;;
           if ok res
           then
             (session_token <- get_prop data "session_token" ;;
              modify (setSessionToken session_token) ;;
              expires_at <- get_prop data "expires_at" ;;
              modify (setSessionExpires expires_at) ;;
              modify (setPassword []) ;;
              modify (setResponse (fun _ => Normal (lit "Login successful!"))))
           else
             (error <- get_prop data "error" ;;
              modify (alert (or truthy error (text "Login failed")))))
          (fun _ => modify (alert (text "Login failed: "))))
       (modify (setLoading false))) s0.

(** [handleLogout()] *)
Definition handleLogout (s : State) : State :=
  setResponse (fun _ => Normal [])
    (setRoleFile None
       (setMatchFile None
          (setPassword [] (setSessionExpires null (setSessionToken null s))))).

(** [s.endsWith(suffix)] *)
Definition endsWith (suffix s : jsstring) : bool :=
  (length suffix <=? length s)%nat
  && bool_decide (drop (length s - length suffix) s = suffix).

(** The request of an upload: the endpoint, the [X-Admin-Token] header and the
    file in the form data. *)
Record UploadRequest : Type := {
  endpoint : jsstring;
  token : value;
  file : File
}.

(** The two kinds of file. *)
Definition match_data : jsstring := lit "Match Data".

Definition role_links : jsstring := lit "Role Links".

Section Upload.
(** [String(v)], as a template literal converts a value, and [err.message]. *)
Variable String_ : value -> jsstring.
Variable message : exn -> jsstring.

(** [prev => `${prev}\n ${fileType}: ${data[k]}`] *)
Definition log_line (fileType : jsstring) (data : json) (k : string)
    (prev : jsstring) : completion jsstring :=
  match read data k with
  | Normal v => Normal (prev ++ [10; 32]%N ++ fileType ++ lit ": " ++ String_ v)
  | Throw e => Throw e
  end.

(** [prev => `${prev}\n ${fileType} upload failed: ${err.message}`] *)
Definition failure_line (fileType : jsstring) (err : exn) (prev : jsstring)
    : completion jsstring :=
  Normal (prev ++ [10; 32]%N ++ fileType ++ lit " upload failed: " ++ message err).

(** [uploadFile(file, endpoint, fileType)]; [net] is what the network answers
    to the POST. *)
Definition uploadFile (net : UploadRequest -> FetchOutcome) (file : option File)
    (endpoint fileType : jsstring) : M State unit :=
  fun s0 =>
    match file with
    | None =>
        modify (alert (Json (JStr (lit "No " ++ fileType ++ lit " file selected")))) s0
    | Some f =>
        if negb (endsWith (lit ".csv") (file_name f))
        then modify (alert (text "Only CSV files are allowed")) s0
        else
          (modify (setLoading true) ;;
           try_finally
             (try_catch
                (res <- fetch (net {| endpoint := endpoint;
                                      token := sessionToken s0;
                                      file := f |}) ;;
                 data <- response_json res ;;
                 if ok res
                 then
                   (modify (setResponse (log_line fileType data "message")) ;;
                    when (bool_decide (fileType = match_data))
                      (modify (setMatchFile None)) ;;
                    when (bool_decide (fileType = role_links))
                      (modify (setRoleFile None)))
                 else modify (setResponse (log_line fileType data "error")))
                (fun err => modify (setResponse (failure_line fileType err))))
             (modify (setLoading false))) s0
    end.

End Upload.

(** The two upload buttons, as rendered with the state [s]. *)
Inductive Kind : Type := MatchData | RoleLinks.

Definition selected (kind : Kind) (s : State) : option File :=
  match kind with MatchData => matchFile s | RoleLinks => roleFile s end.

Definition kind_endpoint (kind : Kind) : jsstring :=
  match kind with
  | MatchData => lit "/api/upload-match-data"
  | RoleLinks => lit "/api/upload-role-links"
  end.

Definition kind_name (kind : Kind) : jsstring :=
  match kind with MatchData => match_data | RoleLinks => role_links end.

(** [disabled={!matchFile || loading}] *)
Definition upload_disabled (kind : Kind) (s : State) : bool :=
  negb (match selected kind s with Some _ => true | None => false end) || loading s.

(** The request a click on the button of [kind] sends for the file [f]. *)
Definition upload_request (kind : Kind) (f : File) (s : State) : UploadRequest :=
  {| endpoint := kind_endpoint kind; token := sessionToken s; file := f |}.

Section Buttons.
Variable String_ : value -> jsstring.
Variable message : exn -> jsstring.

(** [onClick={() => uploadFile(matchFile, "/api/upload-match-data",
    "Match Data")}], and the same for the role links. *)
Definition clickUpload (net : UploadRequest -> FetchOutcome) (kind : Kind)
    : M State unit :=
  fun s =>
    uploadFile String_ message net (selected kind s) (kind_endpoint kind)
      (kind_name kind) s.

End Buttons.

End AdminUpload.

(** ** [frontend/src/pages/Questionnaire.jsx]: loading the question shown *)
Module QuestionnaireData.
Import Js Eff Questionnaire.
Local Open Scope eff_scope.

Definition setData (v : value) (s : State) : State :=
  {| questionId := questionId s; data := v;
     isModalOpen := isModalOpen s; completedQuestions := completedQuestions s;
     sessionId := sessionId s; error := error s;
     skipPhysicalQuestions := skipPhysicalQuestions s;
     totalQuestions := totalQuestions s; timers := timers s |}.

(** The message of the catch block. *)
Definition fetch_failure : string := "Failed to fetch question data".

(** [fetchData()]; [net] is what the network answers to the POST of
    [{ question_id: questionId }] to [/api/get-question]. *)
Definition fetchData (net : Z -> FetchOutcome) : M State unit :=
  fun s0 =>
    try_catch
      (response <- fetch (net (questionId s0)) ;;
       when (negb (ok response)) (throw (HttpError (status response))) ;;
       result <- response_json response ;;
       modify (setData (Json result)))
      (fun _ => modify (setError (Some fetch_failure)))
      s0.

(** A request that does not come back with a parsed body. *)
Definition fetch_fails (o : FetchOutcome) : Prop :=
  o = Rejected
  \/ exists r, o = Resolved r /\ (ok r = false \/ body r = None).

End QuestionnaireData.

(** ** [frontend/src/pages/Page.jsx]: the video link *)
Module PageVideo.
Import Js.

(** Whether [s] begins with [p]. *)
Fixpoint starts_with (p s : jsstring) : bool :=
  match p, s with
  | [], _ => true
  | a :: p', b :: s' => (a =? b)%N && starts_with p' s'
  | _ :: _, [] => false
  end.

(** [s.includes(needle)] *)
Fixpoint includes (needle s : jsstring) : bool :=
  starts_with needle s
  || match s with
     | [] => false
     | _ :: t => includes needle t
     end.

(** [isYouTubeUrl(url)] for a string [url]; the empty string is falsy. *)
Definition isYouTubeUrl (url : jsstring) : bool :=
  truthy_string url
  && (includes (lit "youtube.com") url || includes (lit "youtu.be") url).

(** [[^&\n?#]] *)
Definition id_char (c : N) : bool :=
  negb ((c =? 38) || (c =? 10) || (c =? 63) || (c =? 35))%N.

(** The longest run of [id_char] code units at the start of [s]: what the
    greedy [([^&\n?#]+)] captures there. *)
Fixpoint run (s : jsstring) : jsstring :=
  match s with
  | [] => []
  | c :: t => if id_char c then c :: run t else []
  end.

(** One alternative of a pattern [(?:literal|...)([^&\n?#]+)] tried at the
    start of [s]: the capture, if the literal is there and at least one code
    unit follows for the group. *)
Definition capture_after (literal s : jsstring) : option jsstring :=
  if starts_with literal s
  then match run (drop (length literal) s) with
       | [] => None
       | c :: captured => Some (c :: captured)
       end
  else None.

(** The alternatives tried in order at the start of [s]. *)
Fixpoint capture_here (literals : list jsstring) (s : jsstring) : option jsstring :=
  match literals with
  | [] => None
  | literal :: others =>
      match capture_after literal s with
      | Some captured => Some captured
      | None => capture_here others s
      end
  end.

(** [url.match(pattern)?.[1]]: the capture of the leftmost match. *)
Fixpoint capture (literals : list jsstring) (s : jsstring) : option jsstring :=
  match capture_here literals s with
  | Some captured => Some captured
  | None =>
      match s with
      | [] => None
      | _ :: t => capture literals t
      end
  end.

(** [/(?:youtube\.com\/watch\?v=|youtu\.be\/)([^&\n?#]+)/] and
    [/youtube\.com\/embed\/([^&\n?#]+)/], each as its literals. *)
Definition patterns : list (list jsstring) :=
  [[lit "youtube.com/watch?v="; lit "youtu.be/"]; [lit "youtube.com/embed/"]].

Definition embed_prefix : jsstring := lit "https://www.youtube.com/embed/".

(** The loop over the patterns. *)
Fixpoint first_embed (patterns : list (list jsstring)) (url : jsstring)
    : option jsstring :=
  match patterns with
  | [] => None
  | pattern :: others =>
      match capture pattern url with
      | Some captured => Some (embed_prefix ++ captured)
      | None => first_embed others url
      end
  end.

(** [getYouTubeEmbedUrl(url)] for a string [url]; [None] is [null]. *)
Definition getYouTubeEmbedUrl (url : jsstring) : option jsstring :=
  if negb (truthy_string url) then None else first_embed patterns url.

End PageVideo.

(** ** [frontend/src/components/DynamicFontSize.jsx]: the two lines of a long
    question *)
Module DynamicFontSize.
Import Js JsText.

(** [window.innerWidth], [window.innerHeight] and
    [window.matchMedia("(orientation: landscape)").matches]. *)
Record Screen : Type := {
  screenWidth : Z;
  screenHeight : Z;
  isLandscape : bool
}.

Definition isLandscapePhone (screen : Screen) : bool :=
  isLandscape screen && (screenHeight screen <=? 400)
  && (700 <=? screenWidth screen) && (screenWidth screen <=? 1040).

Definition isDesktop (screen : Screen) : bool := 1024 <=? screenWidth screen.

Definition connectingWords : list jsstring :=
  [lit "with"; lit "and"; lit "or"; lit "but"; lit "the"; lit "a"; lit "an";
   lit "of"; lit "in"; lit "on"; lit "at"].

(** What the question element is given: [innerHTML] or [textContent]. *)
Inductive Content : Type :=
  | InnerHTML (html : jsstring)
  | TextContent (text : jsstring).

Section Lines.
(** [String.prototype.toLowerCase] *)
Variable toLowerCase : jsstring -> jsstring.

(** The last statement of [dynamicFontSize(data, document)], for a string
    [data.question] and a document with a [.question] element: the content
    the element is given (the font size set before it is not modelled).
    [Math.ceil(n / 2)] is [(n + 1) / 2] on a length. *)
Definition question_content (screen : Screen) (question : jsstring) : Content :=
  let words := split 32 question in
  if ((15 <=? length words) && (length words <=? 20))%nat
     && (isDesktop screen || isLandscapePhone screen)
  then
    let midPoint := ((length words + 1) / 2)%nat in
    let breakPoint :=
      if match words !! (midPoint - 1)%nat with
         | Some word => bool_decide (toLowerCase word ∈ connectingWords)
         | None => false
         end
      then S midPoint
      else midPoint in
    InnerHTML (join [32%N] (take breakPoint words) ++ lit "<br>"
               ++ join [32%N] (drop breakPoint words))
  else TextContent question.

End Lines.

End DynamicFontSize.

(** ** Sample inputs *)
Module Samples.

(** A result object as the back end sends it. *)
Definition sample_results (best : Js.jsstring) : option Results.ResultObject :=
  Some {| Results.status := Js.lit "completed";
          Results.session_id := Js.lit "3f2a";
          Results.results :=
            Some {| Results.best_fit_roles := Some best;
                    Results.next_best_roles := Some (Js.lit "Safety Glasses Manager") |} |}.

(** A questionnaire with question 1 answered. *)
Definition sample_completed : gmap Z (list Js.prim) :=
  {[ 1 := [Js.PStr (Js.lit "Yes")] ]}.

(** The questionnaire on question [q] after the back end asked to skip the
    physical questions. *)
Definition skipping_at (q : Z) : Questionnaire.State :=
  Questionnaire.setSkipPhysicalQuestions (Some true)
    (Questionnaire.setQuestionId (fun _ => q) Questionnaire.initial).

(** A network that is down, and a back end that answers 500. *)
Definition offline : Questionnaire.SaveRequest -> Eff.FetchOutcome :=
  fun _ => Eff.Rejected.

Definition server_error : Questionnaire.SaveRequest -> Eff.FetchOutcome :=
  fun _ => Eff.Resolved {| Eff.ok := false; Eff.status := 500; Eff.body := None |}.

(** The role-links service knowing one role. *)
Definition referee_links : list (string * Js.json) :=
  [("express_link"%string, Js.JStr (Js.lit "https://example.org/signup"));
   ("desc_link"%string, Js.JStr (Js.lit "https://example.org/referee"));
   ("video_link"%string, Js.JStr (Js.lit "https://youtu.be/abc"))].

Definition links_service (roleName : Js.jsstring) : Eff.FetchOutcome :=
  if decide (roleName = Js.lit "Referee")
  then Eff.Resolved {| Eff.ok := true; Eff.status := 200;
                       Eff.body := Some (Js.JObj referee_links) |}
  else Eff.Resolved {| Eff.ok := false; Eff.status := 404; Eff.body := None |}.

(** A three-option question, option "2" selected and saved; the back end keeps
    the last answer per question id. *)
Definition sample_question : CreateNumButtons.Data Z :=
  {| CreateNumButtons.id := 3;
     CreateNumButtons.question := Js.PStr (Js.lit "How many days?");
     CreateNumButtons.options :=
       [Js.PStr (Js.lit "1"); Js.PStr (Js.lit "2"); Js.PStr (Js.lit "3")] |}.

Definition last_answer_store (call : CreateNumButtons.SaveCall Z)
    (store : gmap Z Js.prim) : gmap Z Js.prim :=
  <[CreateNumButtons.call_questionId call := CreateNumButtons.call_answer call]> store.

Definition sample_world : CreateNumButtons.World Z (gmap Z Js.prim) :=
  {| CreateNumButtons.completedQuestions := {[ 3 := [Js.PStr (Js.lit "2")] ]};
     CreateNumButtons.selectedButton := Js.PStr (Js.lit "2");
     CreateNumButtons.saveCalls := [];
     CreateNumButtons.backend := {[ 3 := Js.PStr (Js.lit "2") ]} |}.

(** A dropdown just mounted on an unanswered question. *)
Definition sample_dropdown : CustomDropDown.World Z (gmap Z Js.prim) :=
  {| CustomDropDown.completedQuestions := ∅;
     CustomDropDown.choice := Js.PNull;
     CustomDropDown.isOpen := true;
     CustomDropDown.saveCalls := [];
     CustomDropDown.backend := ∅ |}.

(** A back end that answers every save with [{ skip: true }]. *)
Definition says_skip : Questionnaire.SaveRequest -> Eff.FetchOutcome :=
  fun _ => Eff.Resolved {| Eff.ok := true; Eff.status := 200;
                           Eff.body := Some (Js.JObj [("skip"%string, Js.JBool true)]) |}.

Definition sample_save_1 : QuestionnairePage.Save :=
  {| QuestionnairePage.save_net := says_skip;
     QuestionnairePage.save_sessionId := Js.PStr (Js.lit "3f2a");
     QuestionnairePage.save_questionId := 1;
     QuestionnairePage.save_answer := Js.PStr (Js.lit "No");
     QuestionnairePage.save_question := Js.PStr (Js.lit "Can you stand?");
     QuestionnairePage.save_autoSave := true |}.

Definition sample_save_offline : QuestionnairePage.Save :=
  {| QuestionnairePage.save_net := offline;
     QuestionnairePage.save_sessionId := Js.PStr (Js.lit "3f2a");
     QuestionnairePage.save_questionId := 4;
     QuestionnairePage.save_answer := Js.PStr (Js.lit "2");
     QuestionnairePage.save_question := Js.PStr (Js.lit "How many days?");
     QuestionnairePage.save_autoSave := true |}.

Definition sample_save_no_session : QuestionnairePage.Save :=
  {| QuestionnairePage.save_net := says_skip;
     QuestionnairePage.save_sessionId := Js.PNull;
     QuestionnairePage.save_questionId := 1;
     QuestionnairePage.save_answer := Js.PStr (Js.lit "No");
     QuestionnairePage.save_question := Js.PStr (Js.lit "Can you stand?");
     QuestionnairePage.save_autoSave := true |}.

(** A page whose session has started, and a network that is down. *)
Definition sample_page : QuestionnairePage.Page :=
  {| QuestionnairePage.cells :=
       {| Questionnaire.questionId := 11; Questionnaire.data := Js.null;
          Questionnaire.isModalOpen := false;
          Questionnaire.completedQuestions := sample_completed;
          Questionnaire.sessionId := Js.PStr (Js.lit "3f2a");
          Questionnaire.error := None;
          Questionnaire.skipPhysicalQuestions := Some false;
          Questionnaire.totalQuestions := 12; Questionnaire.timers := [] |};
     QuestionnairePage.alerts := [];
     QuestionnairePage.navigations := [] |}.

Definition submit_down : Js.prim -> Eff.FetchOutcome := fun _ => Eff.Rejected.

(** A form as typed, with a zipcode one digit short, and the same form
    completed, mounted on question 0. *)
Definition sample_form : UserInfoForm.State :=
  UserInfoForm.handleInputChange UserInfoForm.FZipcode (Js.lit "1234")
    (UserInfoForm.handleInputChange UserInfoForm.FEmail (Js.lit "ada@example.org")
       (UserInfoForm.handleInputChange UserInfoForm.FName (Js.lit " Ada ")
          UserInfoForm.initial)).

Definition sample_form_world : UserInfoForm.World Z :=
  {| UserInfoForm.component :=
       UserInfoForm.handleInputChange UserInfoForm.FZipcode (Js.lit "12345") sample_form;
     UserInfoForm.completedQuestions := ∅;
     UserInfoForm.saveCalls := [] |}.


(** A serialisation of the sample result object, and the parser that reads it
    back. *)
Definition sample_stringify (_ : Results.ResultObject) : Js.jsstring :=
  Js.lit "{'status':'completed','session_id':'3f2a','results':{}}".

Definition sample_parse (text : Js.jsstring) : option (option Results.ResultObject) :=
  if bool_decide (text = Js.lit "{'status':'completed','session_id':'3f2a','results':{}}")
  then Some (Some {| Results.status := Js.lit "completed";
                     Results.session_id := Js.lit "3f2a";
                     Results.results :=
                       Some {| Results.best_fit_roles := None;
                               Results.next_best_roles := None |} |})
  else None.

Definition sample_stored : Results.ResultObject :=
  {| Results.status := Js.lit "completed";
     Results.session_id := Js.lit "3f2a";
     Results.results :=
       Some {| Results.best_fit_roles := None; Results.next_best_roles := None |} |}.

(** A store with room for everything, and one that is full once the results
    are written. *)
Definition roomy (_ : gmap string Js.jsstring) (_ : string) (_ : Js.jsstring) : bool :=
  true.

Definition full_after_results (_ : gmap string Js.jsstring) (key : string)
    (_ : Js.jsstring) : bool :=
  String.eqb key ResultsStorage.assessmentResults.

(** 3 November 2026, 12:00 UTC, in milliseconds. *)
Definition sample_now : Z := 1793707200000.





(** The multiple-choice question 7 with two options selected. *)
Definition sample_multi_data : CreateNumButtons.Data Z :=
  {| CreateNumButtons.id := 7;
     CreateNumButtons.question := Js.PStr (Js.lit "Which days can you help?");
     CreateNumButtons.options :=
       [Js.PStr (Js.lit "Friday"); Js.PStr (Js.lit "Saturday");
        Js.PStr (Js.lit "Sunday")] |}.

Definition sample_multi : MultiChoiceDropDown.World Z :=
  {| MultiChoiceDropDown.completedQuestions :=
       {[ 7 := [Js.PStr (Js.lit "Friday"); Js.PStr (Js.lit "Sunday")] ]};
     MultiChoiceDropDown.choice :=
       [Js.PStr (Js.lit "Friday"); Js.PStr (Js.lit "Sunday")];
     MultiChoiceDropDown.isOpen := true;
     MultiChoiceDropDown.saveCalls := [] |}.


(** The admin page with a match data file picked, and a back end that takes
    it. *)
Definition sample_admin : AdminUpload.State :=
  AdminUpload.setMatchFile (Some {| AdminUpload.file_name := Js.lit "matches.csv" |})
    (AdminUpload.setSessionToken (Js.Json (Js.JStr (Js.lit "t0k3n")))
       AdminUpload.initial).

Definition upload_taken (_ : AdminUpload.UploadRequest) : Eff.FetchOutcome :=
  Eff.Resolved {| Eff.ok := true; Eff.status := 200;
                  Eff.body := Some (Js.JObj [("message"%string,
                                              Js.JStr (Js.lit "12 rows loaded"))]) |}.

Definition sample_String (v : Js.value) : Js.jsstring :=
  match v with
  | Js.Json (Js.JStr s) => s
  | _ => Js.lit "undefined"
  end.

Definition sample_message (_ : Eff.exn) : Js.jsstring := Js.lit "Failed to fetch".


(** A back end that cannot be reached for questions. *)
Definition questions_down (_ : Z) : Eff.FetchOutcome := Eff.Rejected.


(** A sixteen-word question, a desktop screen and a phone held upright. *)
Definition long_question : Js.jsstring :=
  Js.lit "How many hours are you able to stand or walk around the venue on the day".

Definition desktop : DynamicFontSize.Screen :=
  {| DynamicFontSize.screenWidth := 1440; DynamicFontSize.screenHeight := 900;
     DynamicFontSize.isLandscape := true |}.

Definition upright_phone : DynamicFontSize.Screen :=
  {| DynamicFontSize.screenWidth := 390; DynamicFontSize.screenHeight := 844;
     DynamicFontSize.isLandscape := false |}.

End Samples.

(* ===================================================================== *)
(** * Part II -- the properties *)
(* ===================================================================== *)

Import Samples.

(** ** [trim] and [split] *)
Section JsFacts.
Import Js.

Lemma trimStart_starts_clean (s : jsstring) : starts_clean (trimStart s) = true.
Proof.
  induction s as [|c t IH]; simpl; [reflexivity|].
  destruct (isWhiteSpace c) eqn:Hc; [exact IH|].
  simpl. rewrite Hc. reflexivity.
Qed.

Lemma trimStart_clean_id (s : jsstring) : starts_clean s = true -> trimStart s = s.
Proof.
  destruct s as [|c t]; simpl; [reflexivity|].
  destruct (isWhiteSpace c); [discriminate|reflexivity].
Qed.

Lemma trimStart_suffix (s : jsstring) : exists w, s = w ++ trimStart s.
Proof.
  induction s as [|c t [w IH]]; simpl.
  - exists []. reflexivity.
  - destruct (isWhiteSpace c).
    + exists (c :: w). simpl. congruence.
    + exists []. reflexivity.
Qed.

Lemma trimEnd_prefix (s : jsstring) : exists w, s = trimEnd s ++ w.
Proof.
  unfold trimEnd. destruct (trimStart_suffix (rev s)) as [w Hw].
  exists (rev w).
  rewrite <- rev_app_distr, <- Hw, rev_involutive. reflexivity.
Qed.

Lemma all_white_space_rev (w : jsstring) :
  all_white_space w = true -> all_white_space (rev w) = true.
Proof.
  unfold all_white_space. rewrite !forallb_forall.
  intros Hw c Hc. apply Hw, in_rev, Hc.
Qed.

Lemma trimStart_strips (s : jsstring) :
  exists w, s = w ++ trimStart s /\ all_white_space w = true.
Proof.
  induction s as [|c t (w & IH & Hw)]; simpl.
  - exists []. split; reflexivity.
  - destruct (isWhiteSpace c) eqn:Hc.
    + exists (c :: w). simpl. rewrite Hc. split; [congruence|exact Hw].
    + exists []. split; reflexivity.
Qed.


Lemma starts_clean_prefix (p w : jsstring) :
  starts_clean (p ++ w) = true -> p <> [] -> starts_clean p = true.
Proof. destruct p as [|c p]; [congruence|]. simpl. auto. Qed.

Lemma trim_trimmed (s : jsstring) : trimmed (trim s) = true.
Proof.
  unfold trimmed, trim. apply andb_true_iff. split.
  - destruct (trimEnd_prefix (trimStart s)) as [w Hw].
    destruct (trimEnd (trimStart s)) as [|c p] eqn:E; [reflexivity|].
    apply starts_clean_prefix with (w := w); [|discriminate].
    rewrite <- Hw. apply trimStart_starts_clean.
  - unfold trimEnd. rewrite rev_involutive. apply trimStart_starts_clean.
Qed.

Lemma trimmed_trim_id (s : jsstring) : trimmed s = true -> trim s = s.
Proof.
  unfold trimmed, trim, trimEnd. intros [H1 H2]%andb_true_iff.
  rewrite (trimStart_clean_id s H1), (trimStart_clean_id (rev s) H2).
  apply rev_involutive.
Qed.

Lemma trim_idempotent (s : jsstring) : trim (trim s) = trim s.
Proof. apply trimmed_trim_id, trim_trimmed. Qed.

Lemma split_nonempty (sep : N) (s : jsstring) : split sep s <> [].
Proof.
  induction s as [|c t IH]; simpl; [discriminate|].
  destruct (c =? sep)%N; [discriminate|].
  destruct (split sep t); [congruence|discriminate].
Qed.

Lemma or_array_left {A} (x y : list A) : or truthy_array x y = x.
Proof. reflexivity. Qed.

End JsFacts.

(** ** The Results page *)
Section ResultsFacts.
Import Js Results.
Variable encodeURIComponent : jsstring -> option jsstring.

Lemma options_effect_truthy (currentResults : option ResultObject) (field : jsstring) :
  best_fit currentResults = Some field -> field <> [] ->
  options_effect currentResults = split comma (trim field).
Proof.
  intros Hf Hne. unfold options_effect. rewrite Hf.
  destruct field; [congruence|]. reflexivity.
Qed.

Lemma options_effect_empty (currentResults : option ResultObject) :
  best_fit currentResults = Some [] -> options_effect currentResults = [].
Proof. intros Hf. unfold options_effect. rewrite Hf. reflexivity. Qed.




End ResultsFacts.


Example options_of_four_roles :
  Results.options_effect (sample_results (Js.lit " Referee, Queuer ,Field Reset,Judge "))
  = [Js.lit "Referee"; Js.lit " Queuer "; Js.lit "Field Reset"; Js.lit "Judge"].
Proof. vm_compute. reflexivity. Qed.

Example labels_of_four_roles :
  Results.label <$>
    Results.render_buttons Some
      (sample_results (Js.lit " Referee, Queuer ,Field Reset,Judge "))
      (Results.options_effect (sample_results (Js.lit " Referee, Queuer ,Field Reset,Judge ")))
  = [Js.lit "Referee"; Js.lit "Queuer"; Js.lit "Field Reset"].
Proof. vm_compute. reflexivity. Qed.


(** C8, as stated, fails: with the empty string as "Best fit roles" the page's
    options are the empty array, not the array holding one empty string, and
    no button is rendered. *)
Lemma results_empty_field_counterexample :
  Results.best_fit (sample_results []) = Some []
  /\ Results.options_effect (sample_results []) = []
  /\ Results.options_effect (sample_results []) <> [[]]
  /\ Results.render_buttons Some (sample_results [])
       (Results.options_effect (sample_results [])) = [].
Proof. repeat split; try reflexivity. discriminate. Qed.

(** C8, amended.  The empty string is falsy, so the guard of the options
    effect sends it to the else branch: the options are the empty array and
    no button is rendered.  Splitting the empty string does give the
    one-element array (and the [|| []] fallback never applies), but the page
    gets there only for a non-empty field that trims to the empty string,
    where it renders exactly one button, its label empty. *)
Theorem results_empty_field :
  forall (encodeURIComponent : Js.jsstring -> option Js.jsstring)
         (currentResults : option Results.ResultObject),
    (Results.best_fit currentResults = Some [] ->
       Results.options_effect currentResults = []
       /\ Results.render_buttons encodeURIComponent currentResults
            (Results.options_effect currentResults) = [])
    /\ (forall field,
          Results.best_fit currentResults = Some field ->
          field <> [] -> Js.trim field = [] ->
          Results.options_effect currentResults = [[]]
          /\ exists b,
               Results.render_buttons encodeURIComponent currentResults
                 (Results.options_effect currentResults) = [b]
               /\ Results.label b = [])
    /\ Js.split Js.comma [] = [[]]
    /\ (forall l : list Js.jsstring, Js.or Js.truthy_array l [] = l).
Proof.
  intros enc cur. split; [|split; [|split]].
  - intros Hf. rewrite (options_effect_empty cur Hf). split; reflexivity.
  - intros field Hf Hne Ht.
    rewrite (options_effect_truthy cur field Hf Hne), Ht. simpl.
    split; [reflexivity|]. eexists. split; reflexivity.
  - reflexivity.
  - intros l. reflexivity.
Qed.

Lemma results_empty_field_witness :
  (Results.best_fit (sample_results []) = Some []
   /\ Results.options_effect (sample_results []) = [])
  /\ (Results.best_fit (sample_results (Js.lit " ")) = Some (Js.lit " ")
      /\ Js.lit " " <> [] /\ Js.trim (Js.lit " ") = []
      /\ Results.options_effect (sample_results (Js.lit " ")) = [[]]).
Proof.
  split.
  - split; [reflexivity|].
    exact (proj1 (proj1 (results_empty_field Some (sample_results [])) eq_refl)).
  - split; [reflexivity|]. split; [discriminate|]. split; [reflexivity|].
    exact (proj1 (proj1 (proj2 (results_empty_field Some (sample_results (Js.lit " "))))
                    (Js.lit " ") eq_refl ltac:(discriminate) eq_refl)).
Defined.

(** ** The completed-questions helpers *)
Section UtilsFacts.
Import QuestionnaireUtils.
Context {K : Type} `{Countable K} {A : Type}.
Implicit Types (m c : gmap K (list A)) (i j : K) (a b : A) (xs ys : list A).

Lemma add_lookup m i a : addCompletedQuestion setState i a m !! i = Some [a].
Proof. unfold addCompletedQuestion, setState. apply lookup_insert_eq. Qed.

Lemma add_add m i a b :
  addCompletedQuestion setState i b (addCompletedQuestion setState i a m)
  = addCompletedQuestion setState i b m.
Proof. unfold addCompletedQuestion, setState. apply insert_insert_eq. Qed.

Lemma multi_lookup m i xs : setCompletedQuestionsMulti setState i xs m !! i = Some xs.
Proof. unfold setCompletedQuestionsMulti, setState. apply lookup_insert_eq. Qed.

Lemma multi_multi m i xs ys :
  setCompletedQuestionsMulti setState i ys (setCompletedQuestionsMulti setState i xs m)
  = setCompletedQuestionsMulti setState i ys m.
Proof. unfold setCompletedQuestionsMulti, setState. apply insert_insert_eq. Qed.

Lemma remove_lookup_ne c m i j :
  j <> i -> removeCompletedQuestion c setState i m !! j = m !! j.
Proof.
  intros Hne. unfold removeCompletedQuestion, setState.
  case_decide; [|reflexivity]. apply lookup_delete_ne. congruence.
Qed.

Lemma remove_absent c m i :
  i ∉ dom m -> removeCompletedQuestion c setState i m = m.
Proof.
  intros Hi. unfold removeCompletedQuestion, setState.
  case_decide; [|reflexivity]. apply delete_id. by apply not_elem_of_dom.
Qed.

Lemma remove_present m i :
  i ∈ dom m -> removeCompletedQuestion m setState i m = delete i m.
Proof.
  intros Hi. unfold removeCompletedQuestion, setState.
  case_decide; [reflexivity|contradiction].
Qed.

End UtilsFacts.

(** C2.  [addCompletedQuestion] binds the question id to the one-element list
    of the answer; a later answer for the same id replaces the earlier one, so
    the map after answering [a] then [b] is the map after answering [b] alone,
    and answering the same [(i, a)] twice is answering it once;
    [setCompletedQuestionsMulti] replaces the whole answer list in the same
    way. *)
Theorem completed_question_replaced :
  forall (K : Type) (EqK : EqDecision K) (CntK : Countable K) (A : Type)
         (m : gmap K (list A)) (i : K) (a b : A) (xs ys : list A),
    let add := QuestionnaireUtils.addCompletedQuestion QuestionnaireUtils.setState in
    let multi := QuestionnaireUtils.setCompletedQuestionsMulti QuestionnaireUtils.setState in
    add i a m !! i = Some [a]
    /\ add i b (add i a m) !! i = add i b m !! i
    /\ add i b (add i a m) = add i b m
    /\ add i a (add i a m) = add i a m
    /\ multi i xs m !! i = Some xs
    /\ multi i ys (multi i xs m) = multi i ys m
    /\ multi i xs (multi i xs m) = multi i xs m.
Proof.
  intros K EqK CntK A m i a b xs ys add multi. subst add multi.
  rewrite !add_add, !multi_multi.
  repeat split; auto using add_lookup, multi_lookup.
Qed.

(** C6.  Adding, multi-setting and removing the entry of question id [i]
    leave the binding of every other question id as it was, and removing is
    the identity on a map that has no entry for [i]. *)
Theorem completed_questions_frame :
  forall (K : Type) (EqK : EqDecision K) (CntK : Countable K) (A : Type)
         (m : gmap K (list A)) (i : K) (a : A) (xs : list A),
    (forall j, j <> i ->
       QuestionnaireUtils.addCompletedQuestion QuestionnaireUtils.setState i a m !! j = m !! j
       /\ QuestionnaireUtils.setCompletedQuestionsMulti QuestionnaireUtils.setState i xs m !! j
          = m !! j
       /\ QuestionnaireUtils.removeCompletedQuestion m QuestionnaireUtils.setState i m !! j
          = m !! j)
    /\ (i ∉ dom m ->
        QuestionnaireUtils.removeCompletedQuestion m QuestionnaireUtils.setState i m = m).
Proof.
  intros K EqK CntK A m i a xs. split.
  - intros j Hne. repeat split.
    + unfold QuestionnaireUtils.addCompletedQuestion, QuestionnaireUtils.setState.
      apply lookup_insert_ne. congruence.
    + unfold QuestionnaireUtils.setCompletedQuestionsMulti, QuestionnaireUtils.setState.
      apply lookup_insert_ne. congruence.
    + by apply remove_lookup_ne.
  - apply remove_absent.
Qed.

Example sample_completed_answer_twice :
  QuestionnaireUtils.addCompletedQuestion QuestionnaireUtils.setState 1
    (Js.PStr (Js.lit "No")) sample_completed !! 1
  = Some [Js.PStr (Js.lit "No")].
Proof. reflexivity. Qed.

Lemma completed_questions_frame_witness :
  (1 <> 2 /\ 2 ∉ dom sample_completed)
  /\ QuestionnaireUtils.addCompletedQuestion QuestionnaireUtils.setState 2
       (Js.PNum 18) sample_completed !! 1 = sample_completed !! 1
  /\ QuestionnaireUtils.removeCompletedQuestion sample_completed
       QuestionnaireUtils.setState 2 sample_completed = sample_completed.
Proof.
  assert (Hne : (1 : Z) <> 2) by lia.
  assert (Hdom : (2 : Z) ∉ dom sample_completed)
    by (apply not_elem_of_dom; reflexivity).
  split; [split; assumption|].
  pose proof (completed_questions_frame Z _ _ Js.prim sample_completed 2
                (Js.PNum 18) []) as [Hframe Hid].
  split.
  - exact (proj1 (Hframe 1 Hne)).
  - exact (Hid Hdom).
Defined.

(** ** Next and Back *)
Section NavigationFacts.
Import Js NavigationMenu.

Lemma handleNextClick_steps {T} (next : Z -> T) (skip : option bool) (q : Z) :
  handleNextClick next skip q
  = next (if (q =? 1) && truthy_flag skip then 3 else 1).
Proof. unfold handleNextClick. destruct ((q =? 1) && truthy_flag skip); reflexivity. Qed.

Lemma handleBackClick_steps {T} (back : Z -> T) (skip : option bool) (q : Z) :
  handleBackClick back skip q
  = back (if (q =? 4) && truthy_flag skip then 3 else 1).
Proof. unfold handleBackClick. destruct ((q =? 4) && truthy_flag skip); reflexivity. Qed.

Lemma clickNext_questionId (s : Questionnaire.State) :
  Questionnaire.questionId (clickNext s)
  = Questionnaire.questionId s
    + (if (Questionnaire.questionId s =? 1)
          && truthy_flag (Questionnaire.skipPhysicalQuestions s)
       then 3 else 1).
Proof. unfold clickNext. rewrite handleNextClick_steps. reflexivity. Qed.

Lemma clickBack_questionId (s : Questionnaire.State) :
  Questionnaire.questionId (clickBack s)
  = Questionnaire.questionId s
    - (if (Questionnaire.questionId s =? 4)
          && truthy_flag (Questionnaire.skipPhysicalQuestions s)
       then 3 else 1).
Proof. unfold clickBack. rewrite handleBackClick_steps. reflexivity. Qed.

Lemma clickNext_skip (s : Questionnaire.State) :
  Questionnaire.skipPhysicalQuestions (clickNext s)
  = Questionnaire.skipPhysicalQuestions s.
Proof. unfold clickNext. rewrite handleNextClick_steps. reflexivity. Qed.

End NavigationFacts.

(** C10.  Next advances [questionId] by 3 exactly when it is 1 and
    [skipPhysicalQuestions] is set, by 1 otherwise; Back goes back by 3 exactly
    when it is 4 and the flag is set, by 1 otherwise.  So Next followed by Back
    restores [questionId] whenever the flag is not set, and, when it is set,
    for every [questionId] other than 3 (from 3 the pair ends on 1). *)
Theorem next_then_back :
  forall s : Questionnaire.State,
    let q := Questionnaire.questionId s in
    let skip := Js.truthy_flag (Questionnaire.skipPhysicalQuestions s) in
    Questionnaire.questionId (NavigationMenu.clickNext s)
      = q + (if (q =? 1) && skip then 3 else 1)
    /\ Questionnaire.questionId (NavigationMenu.clickBack s)
      = q - (if (q =? 4) && skip then 3 else 1)
    /\ (skip = false ->
        Questionnaire.questionId (NavigationMenu.clickBack (NavigationMenu.clickNext s)) = q)
    /\ (skip = true -> q <> 3 ->
        Questionnaire.questionId (NavigationMenu.clickBack (NavigationMenu.clickNext s)) = q)
    /\ (skip = true -> q = 3 ->
        Questionnaire.questionId (NavigationMenu.clickBack (NavigationMenu.clickNext s)) = 1).
Proof.
  intros s q skip.
  split; [apply clickNext_questionId|].
  split; [apply clickBack_questionId|].
  rewrite clickBack_questionId, clickNext_skip, clickNext_questionId.
  fold q skip.
  repeat split; intros Hs; rewrite Hs; try intros Hq.
  - rewrite !andb_false_r. lia.
  - rewrite !andb_true_r.
    destruct (q =? 1) eqn:E1; [apply Z.eqb_eq in E1; rewrite E1; simpl; lia|].
    destruct (q + 1 =? 4) eqn:E4; [apply Z.eqb_eq in E4; lia|lia].
  - rewrite Hq. reflexivity.
Qed.

Example skipping_next_from_1 :
  Questionnaire.questionId (NavigationMenu.clickNext (skipping_at 1)) = 4.
Proof. reflexivity. Qed.

Example skipping_next_back_from_3 :
  Questionnaire.questionId
    (NavigationMenu.clickBack (NavigationMenu.clickNext (skipping_at 3))) = 1.
Proof. reflexivity. Qed.

Lemma next_then_back_witness :
  (Js.truthy_flag (Questionnaire.skipPhysicalQuestions Questionnaire.initial) = false
   /\ Questionnaire.questionId
        (NavigationMenu.clickBack (NavigationMenu.clickNext Questionnaire.initial)) = 0)
  /\ (Js.truthy_flag (Questionnaire.skipPhysicalQuestions (skipping_at 1)) = true
      /\ Questionnaire.questionId (skipping_at 1) <> 3
      /\ Questionnaire.questionId
           (NavigationMenu.clickBack (NavigationMenu.clickNext (skipping_at 1))) = 1)
  /\ (Questionnaire.questionId (skipping_at 3) = 3
      /\ Questionnaire.questionId
           (NavigationMenu.clickBack (NavigationMenu.clickNext (skipping_at 3))) = 1).
Proof.
  split; [|split].
  - split; [reflexivity|].
    exact (proj1 (proj2 (proj2 (next_then_back Questionnaire.initial))) eq_refl).
  - split; [reflexivity|]. split; [discriminate|].
    exact (proj1 (proj2 (proj2 (proj2 (next_then_back (skipping_at 1)))))
             eq_refl ltac:(discriminate)).
  - split; [reflexivity|].
    exact (proj2 (proj2 (proj2 (proj2 (next_then_back (skipping_at 3)))))
             eq_refl eq_refl).
Defined.

(** ** Saving an answer *)
Section SaveAnswerFacts.
Import Js Eff Questionnaire.

(** Whatever the network does, [saveAnswer] completes normally and ends in
    one of three shapes of state. *)
Lemma saveAnswer_cases net sid qid ans question autoSave (s : State) :
  let r := saveAnswer net sid qid ans question autoSave s in
  fst r = Normal tt
  /\ (snd r = s
      \/ snd r = warned s
      \/ exists b n, snd r = setTotalQuestions n (setSkipPhysicalQuestions (Some b) s)).
Proof.
  unfold saveAnswer, try_catch, when, bind, fetch, response_json, get_prop,
    throw, ret, modify.
  destruct (autoSave && truthy_prim sid); simpl; [|auto].
  destruct (net _) as [|resp]; simpl; [auto|].
  destruct (ok resp); simpl; [|auto].
  destruct (body resp) as [j|]; simpl; [|auto].
  destruct (qid =? 1); simpl; [|auto].
  destruct j as [|b|n|str|items|fields]; simpl; auto;
    try destruct (truthy (own_property fields "skip")); simpl; eauto 6.
Qed.

Lemma saveAnswer_failed net sid qid ans question autoSave (s : State) :
  autoSave && truthy_prim sid = true ->
  save_failed (net {| session_id := sid; question_id := qid;
                      answer := ans; question := question |}) ->
  saveAnswer net sid qid ans question autoSave s = (Normal tt, warned s).
Proof.
  intros Hgo Hfail.
  unfold saveAnswer, try_catch, when, bind, fetch, throw, ret, modify.
  rewrite Hgo.
  destruct Hfail as [-> | (r & -> & Hok)]; simpl; [reflexivity|].
  rewrite Hok. reflexivity.
Qed.

End SaveAnswerFacts.

(** C5.  A save that fails -- the request was issued and [fetch] threw or the
    status was not OK -- is caught inside [saveAnswer]: the call returns
    normally, the warning message is set and a timer is queued that clears it
    again, and [questionId], [sessionId], [completedQuestions] (and the skip
    flag and question total) are as before.  Indeed no outcome of the network
    makes [saveAnswer] throw or touch the first three. *)
Theorem saveAnswer_failure_is_recovered :
  forall (net : Questionnaire.SaveRequest -> Eff.FetchOutcome)
         (sessionId : Js.prim) (questionId : Z) (answer question : Js.prim)
         (autoSave : bool) (s : Questionnaire.State),
    let request := {| Questionnaire.session_id := sessionId;
                      Questionnaire.question_id := questionId;
                      Questionnaire.answer := answer;
                      Questionnaire.question := question |} in
    let r := Questionnaire.saveAnswer net sessionId questionId answer question autoSave s in
    (fst r = Eff.Normal tt
     /\ Questionnaire.questionId (snd r) = Questionnaire.questionId s
     /\ Questionnaire.sessionId (snd r) = Questionnaire.sessionId s
     /\ Questionnaire.completedQuestions (snd r) = Questionnaire.completedQuestions s)
    /\ (autoSave && Js.truthy_prim sessionId = true ->
        Questionnaire.save_failed (net request) ->
        Questionnaire.error (snd r) = Some Questionnaire.save_warning
        /\ Questionnaire.timers (snd r)
           = Questionnaire.timers s ++ [(Questionnaire.ClearError, 300)]
        /\ Questionnaire.error (Questionnaire.fire Questionnaire.ClearError (snd r)) = None
        /\ Questionnaire.skipPhysicalQuestions (snd r) = Questionnaire.skipPhysicalQuestions s
        /\ Questionnaire.totalQuestions (snd r) = Questionnaire.totalQuestions s
        /\ Questionnaire.data (snd r) = Questionnaire.data s).
Proof.
  intros net sid qid ans question autoSave s request r. split.
  - destruct (saveAnswer_cases net sid qid ans question autoSave s)
      as (Hc & [Hs | [Hs | (b & n & Hs)]]); fold r in Hc, Hs;
      rewrite Hs; repeat split; assumption.
  - intros Hgo Hfail. subst r.
    rewrite (saveAnswer_failed net sid qid ans question autoSave s Hgo Hfail).
    repeat split.
Qed.

Example save_offline :
  Questionnaire.saveAnswer offline (Js.PStr (Js.lit "3f2a")) 1
    (Js.PStr (Js.lit "Yes")) (Js.PStr (Js.lit "Are you a student?")) true
    Questionnaire.initial
  = (Eff.Normal tt,
     Questionnaire.setTimeout Questionnaire.ClearError 300
       (Questionnaire.setError (Some Questionnaire.save_warning) Questionnaire.initial)).
Proof. reflexivity. Qed.

Lemma saveAnswer_failure_is_recovered_witness :
  (true && Js.truthy_prim (Js.PStr (Js.lit "3f2a")) = true
   /\ Questionnaire.save_failed (server_error
        {| Questionnaire.session_id := Js.PStr (Js.lit "3f2a");
           Questionnaire.question_id := 1;
           Questionnaire.answer := Js.PStr (Js.lit "Yes");
           Questionnaire.question := Js.PStr (Js.lit "Are you a student?") |}))
  /\ Questionnaire.error
       (snd (Questionnaire.saveAnswer server_error (Js.PStr (Js.lit "3f2a")) 1
               (Js.PStr (Js.lit "Yes")) (Js.PStr (Js.lit "Are you a student?")) true
               Questionnaire.initial))
     = Some Questionnaire.save_warning.
Proof.
  assert (Hfail : Questionnaire.save_failed (server_error
        {| Questionnaire.session_id := Js.PStr (Js.lit "3f2a");
           Questionnaire.question_id := 1;
           Questionnaire.answer := Js.PStr (Js.lit "Yes");
           Questionnaire.question := Js.PStr (Js.lit "Are you a student?") |})).
  { right. eexists. split; reflexivity. }
  split; [split; [reflexivity|exact Hfail]|].
  exact (proj1 (proj2 (saveAnswer_failure_is_recovered server_error
                         (Js.PStr (Js.lit "3f2a")) 1 (Js.PStr (Js.lit "Yes"))
                         (Js.PStr (Js.lit "Are you a student?")) true
                         Questionnaire.initial) eq_refl Hfail)).
Defined.

(** ** Loading the role links *)
Section RoleLinksFacts.
Import Js Eff Page.

Lemma getRoleLinks_rejected net roleName (s : State) :
  net roleName = Rejected ->
  getRoleLinks net roleName s = (Normal tt, load_failed s).
Proof.
  intros Hn. unfold getRoleLinks, try_finally, try_catch, bind, modify, fetch, throw.
  rewrite Hn. reflexivity.
Qed.

Lemma getRoleLinks_not_ok net roleName r (s : State) :
  net roleName = Resolved r -> ok r = false ->
  getRoleLinks net roleName s = (Normal tt, load_failed s).
Proof.
  intros Hn Hok.
  unfold getRoleLinks, try_finally, try_catch, bind, modify, fetch, when, throw, ret.
  rewrite Hn. simpl. rewrite Hok. reflexivity.
Qed.

Lemma getRoleLinks_object net roleName r fields (s : State) :
  net roleName = Resolved r -> ok r = true -> body r = Some (JObj fields) ->
  getRoleLinks net roleName s
  = (Normal tt,
     load_succeeded (own_property fields "express_link")
       (own_property fields "desc_link") (own_property fields "video_link") s).
Proof.
  intros Hn Hok Hb.
  unfold getRoleLinks, try_finally, try_catch, bind, modify, fetch, when,
    response_json, get_prop, throw, ret.
  rewrite Hn. simpl. rewrite Hok. simpl. rewrite Hb. reflexivity.
Qed.

Lemma getRoleLinks_completes net roleName (s : State) :
  fst (getRoleLinks net roleName s) = Normal tt
  /\ loading (snd (getRoleLinks net roleName s)) = false.
Proof.
  unfold getRoleLinks, try_finally, try_catch, bind, modify, fetch, when,
    response_json, get_prop, throw, ret.
  destruct (net roleName) as [|r]; simpl; [auto|].
  destruct (ok r); simpl; [|auto].
  destruct (body r) as [j|]; simpl; [|auto].
  destruct j; simpl; auto.
Qed.

End RoleLinksFacts.

(** C7.  For every role name, [getRoleLinks] either succeeds -- the response
    is OK and carries an object -- and sets the three link states from its
    fields "express_link", "desc_link" and "video_link"; or, on a rejected
    fetch or a non-OK status, sets the error message "Failed to load role
    links. Please try again." and leaves the three link states as they were
    (null on first load).  Either way, and whatever else the network does, it
    completes without throwing and with [loading] false. *)
Theorem getRoleLinks_outcomes :
  forall (net : Js.jsstring -> Eff.FetchOutcome) (roleName : Js.jsstring)
         (s : Page.State),
    let r := Page.getRoleLinks net roleName s in
    (fst r = Eff.Normal tt /\ Page.loading (snd r) = false)
    /\ (forall resp fields,
          net roleName = Eff.Resolved resp -> Eff.ok resp = true ->
          Eff.body resp = Some (Js.JObj fields) ->
          Page.expressLink (snd r) = Js.own_property fields "express_link"
          /\ Page.descLink (snd r) = Js.own_property fields "desc_link"
          /\ Page.videoLink (snd r) = Js.own_property fields "video_link"
          /\ Page.error (snd r) = None)
    /\ (net roleName = Eff.Rejected
        \/ (exists resp, net roleName = Eff.Resolved resp /\ Eff.ok resp = false) ->
        Page.error (snd r)
          = Some "Failed to load role links. Please try again."%string
        /\ Page.expressLink (snd r) = Page.expressLink s
        /\ Page.descLink (snd r) = Page.descLink s
        /\ Page.videoLink (snd r) = Page.videoLink s
        /\ (s = Page.initial ->
            Page.expressLink (snd r) = Js.null
            /\ Page.descLink (snd r) = Js.null
            /\ Page.videoLink (snd r) = Js.null)).
Proof.
  intros net roleName s r. split; [apply getRoleLinks_completes|]. split.
  - intros resp fields Hn Hok Hb. subst r.
    rewrite (getRoleLinks_object net roleName resp fields s Hn Hok Hb).
    repeat split.
  - intros Hfail.
    assert (Hr : r = (Eff.Normal tt, Page.load_failed s)).
    { destruct Hfail as [Hn | (resp & Hn & Hok)].
      - apply getRoleLinks_rejected; assumption.
      - eapply getRoleLinks_not_ok; eassumption. }
    rewrite Hr. repeat split; subst s; reflexivity.
Qed.

Example links_loaded :
  Page.getRoleLinks links_service (Js.lit "Referee") Page.initial
  = (Eff.Normal tt,
     {| Page.expressLink := Js.Json (Js.JStr (Js.lit "https://example.org/signup"));
        Page.descLink := Js.Json (Js.JStr (Js.lit "https://example.org/referee"));
        Page.videoLink := Js.Json (Js.JStr (Js.lit "https://youtu.be/abc"));
        Page.loading := false; Page.error := None; Page.videoPlayed := false |}).
Proof. vm_compute. reflexivity. Qed.

Example links_not_found :
  Page.getRoleLinks links_service (Js.lit "Queuer") Page.initial
  = (Eff.Normal tt,
     {| Page.expressLink := Js.null; Page.descLink := Js.null;
        Page.videoLink := Js.null; Page.loading := false;
        Page.error := Some Page.load_failure; Page.videoPlayed := false |}).
Proof. vm_compute. reflexivity. Qed.

Lemma getRoleLinks_outcomes_witness :
  (links_service (Js.lit "Referee")
     = Eff.Resolved {| Eff.ok := true; Eff.status := 200;
                       Eff.body := Some (Js.JObj referee_links) |}
   /\ Page.videoLink (snd (Page.getRoleLinks links_service (Js.lit "Referee") Page.initial))
      = Js.own_property referee_links "video_link")
  /\ ((exists resp, links_service (Js.lit "Queuer") = Eff.Resolved resp
                    /\ Eff.ok resp = false)
      /\ Page.error (snd (Page.getRoleLinks links_service (Js.lit "Queuer") Page.initial))
         = Some "Failed to load role links. Please try again."%string).
Proof.
  split.
  - split; [reflexivity|].
    exact (proj1 (proj2 (proj2
             (proj1 (proj2 (getRoleLinks_outcomes links_service (Js.lit "Referee")
                              Page.initial))
                _ referee_links eq_refl eq_refl eq_refl)))).
  - assert (Hfail : exists resp, links_service (Js.lit "Queuer") = Eff.Resolved resp
                                 /\ Eff.ok resp = false)
      by (eexists; split; reflexivity).
    split; [exact Hfail|].
    exact (proj1 (proj2 (proj2 (getRoleLinks_outcomes links_service (Js.lit "Queuer")
                                  Page.initial))
                    (or_intror Hfail))).
Defined.

(** ** Selecting and deselecting an option *)
Section ButtonFacts.
Import Js QuestionnaireUtils CreateNumButtons.
Context {K : Type} `{Countable K}.

(** The deselect branch never reaches the [saveAnswer] prop: any two handlers
    that differ only in that prop do the same. *)
Lemma deselect_ignores_saveAnswer {W : Type}
    (setCQ : (gmap K (list prim) -> gmap K (list prim)) -> W -> W)
    (save1 save2 : prim -> K -> prim -> prim -> W -> W)
    (setSelected : prim -> W -> W)
    (data : Data K) (cq : gmap K (list prim)) (sid selected : prim) (index : nat) (w : W) :
  default PUndefined (options data !! index) = selected ->
  handleButtonClick setCQ save1 setSelected data cq sid selected index w
  = handleButtonClick setCQ save2 setSelected data cq sid selected index w.
Proof.
  intros Heq. unfold handleButtonClick. case_decide; [reflexivity|contradiction].
Qed.

Lemma click_deselect {B : Type} (server : SaveCall K -> B -> B)
    (data : Data K) (sid : prim) (index : nat) (w : World K B) :
  default PUndefined (options data !! index) = selectedButton w ->
  click server data sid index w
  = {| completedQuestions := delete (id data) (completedQuestions w);
       selectedButton := PNull;
       saveCalls := saveCalls w;
       backend := backend w |}.
Proof.
  intros Heq. unfold click, handleButtonClick.
  case_decide; [|contradiction].
  unfold removeCompletedQuestion. case_decide; [reflexivity|].
  unfold world_setSelectedButton. simpl.
  rewrite delete_id; [reflexivity|]. by apply not_elem_of_dom.
Qed.

Lemma click_select {B : Type} (server : SaveCall K -> B -> B)
    (data : Data K) (sid : prim) (index : nat) (w : World K B) :
  let optionKey := default PUndefined (options data !! index) in
  let call := {| call_sessionId := sid; call_questionId := id data;
                 call_answer := optionKey; call_question := question data |} in
  optionKey <> selectedButton w ->
  click server data sid index w
  = {| completedQuestions := <[id data := [optionKey]]> (completedQuestions w);
       selectedButton := optionKey;
       saveCalls := saveCalls w ++ [call];
       backend := server call (backend w) |}.
Proof.
  intros optionKey call Hne. unfold click, handleButtonClick.
  case_decide; [contradiction|]. reflexivity.
Qed.

End ButtonFacts.

(** C9.  A click on the option that is already selected deselects it: the
    selection becomes null and the entry of [data.id] leaves the local
    [completedQuestions] map, while [saveAnswer] is not called -- the calls
    made so far and the answers the back end holds are what they were.  A
    click on any other option selects it, binds [data.id] to it and calls
    [saveAnswer] once; so [saveAnswer] is called on the selection branch
    only. *)
Theorem deselect_sends_no_save :
  forall (K : Type) (EqK : EqDecision K) (CntK : Countable K) (B : Type)
         (server : CreateNumButtons.SaveCall K -> B -> B)
         (data : CreateNumButtons.Data K) (sessionId : Js.prim) (index : nat)
         (w : CreateNumButtons.World K B),
    let optionKey := default Js.PUndefined (CreateNumButtons.options data !! index) in
    let call := {| CreateNumButtons.call_sessionId := sessionId;
                   CreateNumButtons.call_questionId := CreateNumButtons.id data;
                   CreateNumButtons.call_answer := optionKey;
                   CreateNumButtons.call_question := CreateNumButtons.question data |} in
    let w' := CreateNumButtons.click server data sessionId index w in
    (optionKey = CreateNumButtons.selectedButton w ->
       CreateNumButtons.selectedButton w' = Js.PNull
       /\ CreateNumButtons.completedQuestions w'
          = delete (CreateNumButtons.id data) (CreateNumButtons.completedQuestions w)
       /\ CreateNumButtons.completedQuestions w' !! CreateNumButtons.id data = None
       /\ CreateNumButtons.saveCalls w' = CreateNumButtons.saveCalls w
       /\ CreateNumButtons.backend w' = CreateNumButtons.backend w)
    /\ (optionKey <> CreateNumButtons.selectedButton w ->
       CreateNumButtons.selectedButton w' = optionKey
       /\ CreateNumButtons.completedQuestions w'
          = <[CreateNumButtons.id data := [optionKey]]> (CreateNumButtons.completedQuestions w)
       /\ CreateNumButtons.saveCalls w' = CreateNumButtons.saveCalls w ++ [call]
       /\ CreateNumButtons.backend w' = server call (CreateNumButtons.backend w))
    /\ (CreateNumButtons.saveCalls w' <> CreateNumButtons.saveCalls w ->
        optionKey <> CreateNumButtons.selectedButton w).
Proof.
  intros K EqK CntK B server data sid index w optionKey call w'.
  split; [|split].
  - intros Heq. subst w'. rewrite (click_deselect server data sid index w Heq).
    simpl. repeat split. apply lookup_delete_eq.
  - intros Hne. subst w'. rewrite (click_select server data sid index w Hne).
    repeat split.
  - intros Hcalls Heq. apply Hcalls. subst w'.
    rewrite (click_deselect server data sid index w Heq). reflexivity.
Qed.

Example deselect_keeps_backend_answer :
  CreateNumButtons.backend
    (CreateNumButtons.click last_answer_store sample_question Js.PNull 1 sample_world) !! 3
  = Some (Js.PStr (Js.lit "2"))
  /\ CreateNumButtons.completedQuestions
       (CreateNumButtons.click last_answer_store sample_question Js.PNull 1 sample_world) !! 3
     = None.
Proof. split; reflexivity. Qed.

Lemma deselect_sends_no_save_witness :
  (default Js.PUndefined (CreateNumButtons.options sample_question !! 1%nat)
     = CreateNumButtons.selectedButton sample_world
   /\ CreateNumButtons.saveCalls
        (CreateNumButtons.click last_answer_store sample_question Js.PNull 1 sample_world)
      = CreateNumButtons.saveCalls sample_world)
  /\ (default Js.PUndefined (CreateNumButtons.options sample_question !! 0%nat)
        <> CreateNumButtons.selectedButton sample_world
      /\ CreateNumButtons.selectedButton
           (CreateNumButtons.click last_answer_store sample_question Js.PNull 0 sample_world)
         = Js.PStr (Js.lit "1")).
Proof.
  split.
  - split; [reflexivity|].
    exact (proj1 (proj2 (proj2 (proj2
             (proj1 (deselect_sends_no_save Z _ _ (gmap Z Js.prim) last_answer_store
                       sample_question Js.PNull 1 sample_world) eq_refl))))).
  - assert (Hne : default Js.PUndefined (CreateNumButtons.options sample_question !! 0%nat)
                  <> CreateNumButtons.selectedButton sample_world) by discriminate.
    split; [exact Hne|].
    exact (proj1 (proj1 (proj2 (deselect_sends_no_save Z _ _ (gmap Z Js.prim)
                                  last_answer_store sample_question Js.PNull 0
                                  sample_world)) Hne)).
Defined.

(* ===================================================================== *)
(** * Part III -- further properties of the sources *)
(* ===================================================================== *)

(** ** The navigation menu over a whole visit *)
Section NavigationButtonFacts.
Import Js NavigationMenu NavigationButtons.

Lemma clickBack_skip (s : Questionnaire.State) :
  Questionnaire.skipPhysicalQuestions (clickBack s)
  = Questionnaire.skipPhysicalQuestions s.
Proof. unfold clickBack. rewrite handleBackClick_steps. reflexivity. Qed.

Lemma press_skip b (s : Questionnaire.State) :
  Questionnaire.skipPhysicalQuestions (press b s)
  = Questionnaire.skipPhysicalQuestions s.
Proof.
  destruct b; simpl.
  - destruct (showsNext _); [apply clickNext_skip|reflexivity].
  - destruct (showsBack _); [apply clickBack_skip|reflexivity].
Qed.

Lemma press_questionId b (s : Questionnaire.State) :
  let q := Questionnaire.questionId s in
  let skip := truthy_flag (Questionnaire.skipPhysicalQuestions s) in
  Questionnaire.questionId (press b s)
  = match b with
    | Next => if q <? 11 then q + (if (q =? 1) && skip then 3 else 1) else q
    | Back => if 0 <? q then q - (if (q =? 4) && skip then 3 else 1) else q
    end.
Proof.
  intros q skip. destruct b; unfold press, showsNext, showsBack, totalQuestions;
    fold q.
  - change (12 - 1) with 11.
    destruct (q <? 11); [apply clickNext_questionId|reflexivity].
  - destruct (0 <? q); [apply clickBack_questionId|reflexivity].
Qed.

Lemma press_in_range b (s : Questionnaire.State) :
  0 <= Questionnaire.questionId s <= 11 ->
  0 <= Questionnaire.questionId (press b s) <= 11.
Proof.
  intros Hq. rewrite press_questionId.
  destruct b.
  - destruct (Z.ltb_spec (Questionnaire.questionId s) 11); [|lia].
    destruct (Z.eqb_spec (Questionnaire.questionId s) 1); simpl;
      [destruct (truthy_flag _)|]; lia.
  - destruct (Z.ltb_spec 0 (Questionnaire.questionId s)); [|lia].
    destruct (Z.eqb_spec (Questionnaire.questionId s) 4); simpl;
      [destruct (truthy_flag _)|]; lia.
Qed.

Lemma press_avoids_skipped b (s : Questionnaire.State) :
  truthy_flag (Questionnaire.skipPhysicalQuestions s) = true ->
  Questionnaire.questionId s <> 2 -> Questionnaire.questionId s <> 3 ->
  Questionnaire.questionId (press b s) <> 2
  /\ Questionnaire.questionId (press b s) <> 3.
Proof.
  intros Hskip H2 H3. rewrite press_questionId, Hskip.
  destruct b.
  - destruct (Z.ltb_spec (Questionnaire.questionId s) 11); [|lia].
    destruct (Z.eqb_spec (Questionnaire.questionId s) 1); simpl; lia.
  - destruct (Z.ltb_spec 0 (Questionnaire.questionId s)); [|lia].
    destruct (Z.eqb_spec (Questionnaire.questionId s) 4); simpl; lia.
Qed.

End NavigationButtonFacts.

(** X1.  Whatever series of Next and Back buttons the user clicks, each on
    the menu as rendered at that moment, a [questionId] that is between 0 and
    11 stays between 0 and 11 -- for every value of the skip flag: the
    questionnaire never leaves its twelve questions. *)
Theorem navigation_stays_in_range :
  forall (bs : list NavigationButtons.Button) (s : Questionnaire.State),
    0 <= Questionnaire.questionId s <= 11 ->
    0 <= Questionnaire.questionId (NavigationButtons.presses bs s) <= 11.
Proof.
  intros bs. unfold NavigationButtons.presses.
  induction bs as [|b bs IH]; intros s Hq; simpl; [exact Hq|].
  apply IH, press_in_range, Hq.
Qed.

Lemma navigation_stays_in_range_witness :
  0 <= Questionnaire.questionId Questionnaire.initial <= 11
  /\ 0 <= Questionnaire.questionId
            (NavigationButtons.presses
               [NavigationButtons.Back; NavigationButtons.Next; NavigationButtons.Next]
               Questionnaire.initial) <= 11.
Proof.
  assert (H0 : 0 <= Questionnaire.questionId Questionnaire.initial <= 11)
    by (simpl; lia).
  split; [exact H0|].
  exact (navigation_stays_in_range
           [NavigationButtons.Back; NavigationButtons.Next; NavigationButtons.Next]
           Questionnaire.initial H0).
Defined.

(** X2.  While the skip flag is set, no series of clicks on the rendered Next
    and Back buttons brings up question 2 or question 3 (the physical-ability
    questions), provided the questionnaire is not already on one of them. *)
Theorem skipped_questions_stay_hidden :
  forall (bs : list NavigationButtons.Button) (s : Questionnaire.State),
    Js.truthy_flag (Questionnaire.skipPhysicalQuestions s) = true ->
    Questionnaire.questionId s <> 2 ->
    Questionnaire.questionId s <> 3 ->
    Questionnaire.questionId (NavigationButtons.presses bs s) <> 2
    /\ Questionnaire.questionId (NavigationButtons.presses bs s) <> 3.
Proof.
  intros bs. unfold NavigationButtons.presses.
  induction bs as [|b bs IH]; intros s Hskip H2 H3; simpl; [split; assumption|].
  destruct (press_avoids_skipped b s Hskip H2 H3) as [H2' H3'].
  apply IH; [|assumption|assumption].
  rewrite press_skip. exact Hskip.
Qed.

Lemma skipped_questions_stay_hidden_witness :
  (Js.truthy_flag (Questionnaire.skipPhysicalQuestions (skipping_at 1)) = true
   /\ Questionnaire.questionId (skipping_at 1) <> 2
   /\ Questionnaire.questionId (skipping_at 1) <> 3)
  /\ Questionnaire.questionId
       (NavigationButtons.presses
          [NavigationButtons.Next; NavigationButtons.Back; NavigationButtons.Next;
           NavigationButtons.Next] (skipping_at 1)) <> 2.
Proof.
  assert (H2 : Questionnaire.questionId (skipping_at 1) <> 2) by discriminate.
  assert (H3 : Questionnaire.questionId (skipping_at 1) <> 3) by discriminate.
  split; [split; [reflexivity|split; assumption]|].
  exact (proj1 (skipped_questions_stay_hidden
                  [NavigationButtons.Next; NavigationButtons.Back;
                   NavigationButtons.Next; NavigationButtons.Next]
                  (skipping_at 1) eq_refl H2 H3)).
Defined.

(** X3.  Back followed by Next restores [questionId] whenever the skip flag is
    not set, and, when it is set, for every [questionId] other than 2: from
    question 2 Back leads to 1 and Next from there to 4. *)
Theorem back_then_next :
  forall s : Questionnaire.State,
    let q := Questionnaire.questionId s in
    let skip := Js.truthy_flag (Questionnaire.skipPhysicalQuestions s) in
    (skip = false ->
     Questionnaire.questionId (NavigationMenu.clickNext (NavigationMenu.clickBack s)) = q)
    /\ (skip = true -> q <> 2 ->
        Questionnaire.questionId (NavigationMenu.clickNext (NavigationMenu.clickBack s)) = q)
    /\ (skip = true -> q = 2 ->
        Questionnaire.questionId (NavigationMenu.clickNext (NavigationMenu.clickBack s)) = 4).
Proof.
  intros s q skip.
  rewrite clickNext_questionId, clickBack_skip, clickBack_questionId.
  fold q skip.
  repeat split; intros Hs; rewrite Hs; try intros Hq.
  - rewrite !andb_false_r. lia.
  - rewrite !andb_true_r.
    destruct (Z.eqb_spec q 4) as [->|H4]; [reflexivity|].
    destruct (Z.eqb_spec (q - 1) 1); lia.
  - rewrite Hq. reflexivity.
Qed.

Lemma back_then_next_witness :
  (Js.truthy_flag (Questionnaire.skipPhysicalQuestions (skipping_at 4)) = true
   /\ Questionnaire.questionId (skipping_at 4) <> 2
   /\ Questionnaire.questionId
        (NavigationMenu.clickNext (NavigationMenu.clickBack (skipping_at 4))) = 4)
  /\ (Questionnaire.questionId (skipping_at 2) = 2
      /\ Questionnaire.questionId
           (NavigationMenu.clickNext (NavigationMenu.clickBack (skipping_at 2))) = 4).
Proof.
  split.
  - split; [reflexivity|]. split; [discriminate|].
    exact (proj1 (proj2 (back_then_next (skipping_at 4))) eq_refl ltac:(discriminate)).
  - split; [reflexivity|].
    exact (proj2 (proj2 (back_then_next (skipping_at 2))) eq_refl eq_refl).
Defined.

(** ** Selection buttons: the selection and the answers agree *)
Section SyncFacts.
Import Js QuestionnaireUtils CreateNumButtons CreateNumButtonsSync.
Context {K : Type} `{Countable K} {B : Type}.
Variable server : SaveCall K -> B -> B.

Lemma sync_effect_deselected (data : Data K) (w : World K B) :
  completedQuestions w !! id data = None -> selectedButton w = PNull ->
  sync_effect data w = w.
Proof.
  intros Hcq Hsel. unfold sync_effect. rewrite Hcq.
  destruct w; simpl in *. subst. reflexivity.
Qed.

Lemma sync_effect_selected (data : Data K) (w : World K B) v rest :
  completedQuestions w !! id data = Some (v :: rest) -> selectedButton w = v ->
  sync_effect data w = w.
Proof.
  intros Hcq Hsel. unfold sync_effect. rewrite Hcq.
  destruct w; simpl in *. subst. reflexivity.
Qed.

End SyncFacts.

(** X4.  After every click on an option button the effect that follows
    [completedQuestions] finds nothing to change: the selected button is the
    answer stored for the question, or null when none is stored.  Selection
    and stored answer never disagree after a click, whatever the state
    before. *)
Theorem selection_agrees_after_click :
  forall (K : Type) (EqK : EqDecision K) (CntK : Countable K) (B : Type)
         (server : CreateNumButtons.SaveCall K -> B -> B)
         (data : CreateNumButtons.Data K) (sessionId : Js.prim) (index : nat)
         (w : CreateNumButtons.World K B),
    let w' := CreateNumButtons.click server data sessionId index w in
    CreateNumButtonsSync.sync_effect data w' = w'
    /\ (CreateNumButtons.selectedButton w' = Js.PNull
        /\ CreateNumButtons.completedQuestions w' !! CreateNumButtons.id data = None
        \/ CreateNumButtons.completedQuestions w' !! CreateNumButtons.id data
           = Some [CreateNumButtons.selectedButton w']).
Proof.
  intros K EqK CntK B server data sid index w w'. subst w'.
  destruct (Js.prim_eq_dec
              (default Js.PUndefined (CreateNumButtons.options data !! index))
              (CreateNumButtons.selectedButton w)) as [Heq|Hne].
  - rewrite (click_deselect server data sid index w Heq). split.
    + apply sync_effect_deselected; simpl; [apply lookup_delete_eq|reflexivity].
    + left. simpl. split; [reflexivity|apply lookup_delete_eq].
  - rewrite (click_select server data sid index w Hne). split.
    + eapply sync_effect_selected; simpl; [apply lookup_insert_eq|reflexivity].
    + right. simpl. apply lookup_insert_eq.
Qed.

(** X5.  Selecting an option and clicking it again leaves the local
    [completedQuestions] map without an entry for the question and nothing
    selected, while the one save call of the selection stands: the back end
    keeps an answer that the page no longer shows. *)
Theorem select_then_deselect :
  forall (K : Type) (EqK : EqDecision K) (CntK : Countable K) (B : Type)
         (server : CreateNumButtons.SaveCall K -> B -> B)
         (data : CreateNumButtons.Data K) (sessionId : Js.prim) (index : nat)
         (w : CreateNumButtons.World K B),
    let optionKey := default Js.PUndefined (CreateNumButtons.options data !! index) in
    let call := {| CreateNumButtons.call_sessionId := sessionId;
                   CreateNumButtons.call_questionId := CreateNumButtons.id data;
                   CreateNumButtons.call_answer := optionKey;
                   CreateNumButtons.call_question := CreateNumButtons.question data |} in
    let w2 := CreateNumButtons.click server data sessionId index
                (CreateNumButtons.click server data sessionId index w) in
    optionKey <> CreateNumButtons.selectedButton w ->
    CreateNumButtons.selectedButton w2 = Js.PNull
    /\ CreateNumButtons.completedQuestions w2
       = delete (CreateNumButtons.id data) (CreateNumButtons.completedQuestions w)
    /\ CreateNumButtons.saveCalls w2 = CreateNumButtons.saveCalls w ++ [call]
    /\ CreateNumButtons.backend w2 = server call (CreateNumButtons.backend w).
Proof.
  intros K EqK CntK B server data sid index w optionKey call w2 Hne. subst w2.
  rewrite (click_select server data sid index w Hne).
  rewrite click_deselect by reflexivity. simpl.
  repeat split. apply delete_insert_eq.
Qed.

Lemma select_then_deselect_witness :
  default Js.PUndefined (CreateNumButtons.options sample_question !! 0%nat)
    <> CreateNumButtons.selectedButton sample_world
  /\ CreateNumButtons.backend
       (CreateNumButtons.click last_answer_store sample_question Js.PNull 0
          (CreateNumButtons.click last_answer_store sample_question Js.PNull 0
             sample_world))
     = last_answer_store
         {| CreateNumButtons.call_sessionId := Js.PNull;
            CreateNumButtons.call_questionId := CreateNumButtons.id sample_question;
            CreateNumButtons.call_answer :=
              default Js.PUndefined (CreateNumButtons.options sample_question !! 0%nat);
            CreateNumButtons.call_question := CreateNumButtons.question sample_question |}
         (CreateNumButtons.backend sample_world).
Proof.
  assert (Hne : default Js.PUndefined (CreateNumButtons.options sample_question !! 0%nat)
                <> CreateNumButtons.selectedButton sample_world) by discriminate.
  split; [exact Hne|].
  exact (proj2 (proj2 (proj2 (select_then_deselect Z _ _ (gmap Z Js.prim)
                                last_answer_store sample_question Js.PNull 0
                                sample_world Hne)))).
Defined.

(** ** The dropdowns *)
Section DropDownFacts.
Import Js QuestionnaireUtils CustomDropDown.
Context {K : Type} `{Countable K} {B : Type}.
Variable server : CreateNumButtons.SaveCall K -> B -> B.

Lemma pick_world (data : CreateNumButtons.Data K) (sid option : prim) (w : World K B) :
  pick server data sid option w
  = {| completedQuestions :=
         <[CreateNumButtons.id data := [option]]> (completedQuestions w);
       choice := option;
       isOpen := false;
       saveCalls :=
         saveCalls w
         ++ [{| CreateNumButtons.call_sessionId := sid;
                CreateNumButtons.call_questionId := CreateNumButtons.id data;
                CreateNumButtons.call_answer := option;
                CreateNumButtons.call_question := CreateNumButtons.question data |}];
       backend :=
         server {| CreateNumButtons.call_sessionId := sid;
                   CreateNumButtons.call_questionId := CreateNumButtons.id data;
                   CreateNumButtons.call_answer := option;
                   CreateNumButtons.call_question := CreateNumButtons.question data |}
                (backend w) |}.
Proof. reflexivity. Qed.

Lemma ages_spec (n : Z) : PNum n ∈ ages <-> 13 <= n <= 100.
Proof.
  unfold ages. rewrite list_elem_of_fmap. split.
  - intros (i & [= ->] & Hi). apply list_elem_of_In, in_seq in Hi. lia.
  - intros Hn. exists (Z.to_nat (n - 13)). split; [f_equal; lia|].
    apply list_elem_of_In, in_seq. lia.
Qed.

End DropDownFacts.

(** X6.  A choice made in a dropdown survives leaving and re-entering the
    question: [handleChoice] binds the question to the one chosen option,
    closes the list and sends one save call, and when the component is mounted
    again its load effect shows that same option as the choice. *)
Theorem dropdown_choice_round_trip :
  forall (K : Type) (EqK : EqDecision K) (CntK : Countable K) (B : Type)
         (server : CreateNumButtons.SaveCall K -> B -> B)
         (data : CreateNumButtons.Data K) (sessionId option : Js.prim)
         (w : CustomDropDown.World K B),
    let w1 := CustomDropDown.pick server data sessionId option w in
    CustomDropDown.completedQuestions w1 !! CreateNumButtons.id data = Some [option]
    /\ CustomDropDown.isOpen w1 = false
    /\ length (CustomDropDown.saveCalls w1) = S (length (CustomDropDown.saveCalls w))
    /\ CustomDropDown.choice (CustomDropDown.remount data w1) = option
    /\ CustomDropDown.completedQuestions (CustomDropDown.remount data w1)
       = CustomDropDown.completedQuestions w1.
Proof.
  intros K EqK CntK B server data sid option w w1. subst w1.
  rewrite pick_world. unfold CustomDropDown.remount, CustomDropDown.load_effect. simpl.
  rewrite lookup_insert_eq. simpl.
  repeat split. rewrite length_app. simpl. lia.
Qed.

(** X7.  The age dropdown lists exactly the ages 13 to 100, and whichever
    listed option the user picks, the answer stored for the question and the
    answer handed to [saveAnswer] are that one number between 13 and 100. *)
Theorem age_answers_in_range :
  forall (K : Type) (EqK : EqDecision K) (CntK : Countable K) (B : Type)
         (server : CreateNumButtons.SaveCall K -> B -> B)
         (data : CreateNumButtons.Data K) (sessionId option : Js.prim)
         (w : CustomDropDown.World K B),
    (forall n : Z,
        Js.PNum n ∈ CustomDropDown.listed (Some CustomDropDown.ages) data
        <-> 13 <= n <= 100)
    /\ (option ∈ CustomDropDown.listed (Some CustomDropDown.ages) data ->
        exists n : Z,
          13 <= n <= 100
          /\ option = Js.PNum n
          /\ CustomDropDown.completedQuestions
               (CustomDropDown.pick server data sessionId option w)
               !! CreateNumButtons.id data = Some [Js.PNum n]
          /\ CreateNumButtons.call_answer
               <$> last (CustomDropDown.saveCalls
                           (CustomDropDown.pick server data sessionId option w))
             = Some (Js.PNum n)).
Proof.
  intros K EqK CntK B server data sid option w. split; [apply ages_spec|].
  intros Hin. unfold CustomDropDown.listed in Hin.
  assert (Hn : exists n : Z, option = Js.PNum n).
  { unfold CustomDropDown.ages in Hin.
    apply list_elem_of_fmap in Hin as (i & -> & _). eauto. }
  destruct Hn as [n ->]. exists n.
  split; [apply ages_spec, Hin|]. split; [reflexivity|].
  rewrite pick_world. simpl. split; [apply lookup_insert_eq|].
  rewrite last_snoc. reflexivity.
Qed.

Lemma age_answers_in_range_witness :
  Js.PNum 16 ∈ CustomDropDown.listed (Some CustomDropDown.ages) sample_question
  /\ exists n : Z,
       13 <= n <= 100
       /\ Js.PNum 16 = Js.PNum n
       /\ CustomDropDown.completedQuestions
            (CustomDropDown.pick last_answer_store sample_question Js.PNull
               (Js.PNum 16) sample_dropdown)
            !! CreateNumButtons.id sample_question = Some [Js.PNum n]
       /\ CreateNumButtons.call_answer
            <$> last (CustomDropDown.saveCalls
                        (CustomDropDown.pick last_answer_store sample_question Js.PNull
                           (Js.PNum 16) sample_dropdown))
          = Some (Js.PNum n).
Proof.
  assert (Hin : Js.PNum 16
                ∈ CustomDropDown.listed (Some CustomDropDown.ages) sample_question).
  { apply (proj1 (age_answers_in_range Z _ _ (gmap Z Js.prim) last_answer_store
                    sample_question Js.PNull (Js.PNum 16) sample_dropdown) 16). lia. }
  split; [exact Hin|].
  exact (proj2 (age_answers_in_range Z _ _ (gmap Z Js.prim) last_answer_store
                  sample_question Js.PNull (Js.PNum 16) sample_dropdown) Hin).
Defined.

(** ** A visit's saves *)
Section VisitFacts.
Import Js Eff Questionnaire QuestionnairePage.

(** The four shapes of state a call of [saveAnswer] can end in. *)
Lemma saveAnswer_shapes net sid qid ans question autoSave (s : State) :
  let s' := snd (saveAnswer net sid qid ans question autoSave s) in
  s' = s
  \/ s' = warned s
  \/ s' = setTotalQuestions 10 (setSkipPhysicalQuestions (Some true) s)
  \/ s' = setTotalQuestions 12 (setSkipPhysicalQuestions (Some false) s).
Proof.
  unfold saveAnswer, try_catch, when, bind, fetch, response_json, get_prop,
    throw, ret, modify.
  destruct (autoSave && truthy_prim sid); simpl; [|auto].
  destruct (net _) as [|resp]; simpl; [auto|].
  destruct (ok resp); simpl; [|auto].
  destruct (body resp) as [j|]; simpl; [|auto].
  destruct (qid =? 1); simpl; [|auto].
  destruct j as [|b|n|str|items|fields]; simpl; auto;
    try destruct (truthy (own_property fields "skip")); simpl; auto.
Qed.

Lemma run_save_keeps (s : State) (c : Save) :
  totals_agree s ->
  totals_agree (run_save s c)
  /\ questionId (run_save s c) = questionId s
  /\ sessionId (run_save s c) = sessionId s
  /\ completedQuestions (run_save s c) = completedQuestions s.
Proof.
  intros Hs. unfold run_save.
  destruct (saveAnswer_shapes (save_net c) (save_sessionId c) (save_questionId c)
              (save_answer c) (save_question c) (save_autoSave c) s)
    as [-> | [-> | [-> | ->]]]; simpl; repeat split; auto;
    unfold totals_agree; simpl; auto.
Qed.

Lemma saveAnswer_skipped net sid qid ans question autoSave (s : State) :
  autoSave && truthy_prim sid = false ->
  saveAnswer net sid qid ans question autoSave s = (Normal tt, s).
Proof.
  intros Hgo. unfold saveAnswer, try_catch, when. rewrite Hgo. reflexivity.
Qed.

Lemma saveAnswer_question_1 net sid ans question (s : State) resp fields :
  truthy_prim sid = true ->
  net {| session_id := sid; question_id := 1; answer := ans; question := question |}
    = Resolved resp ->
  ok resp = true -> body resp = Some (JObj fields) ->
  saveAnswer net sid 1 ans question true s
  = (Normal tt,
     if truthy (own_property fields "skip")
     then setTotalQuestions 10 (setSkipPhysicalQuestions (Some true) s)
     else setTotalQuestions 12 (setSkipPhysicalQuestions (Some false) s)).
Proof.
  intros Hsid Hnet Hok Hbody.
  unfold saveAnswer, try_catch, when, bind, fetch, response_json, get_prop,
    throw, ret, modify.
  rewrite Hsid, Hnet. simpl. rewrite Hok. simpl. rewrite Hbody. simpl.
  destruct (truthy (own_property fields "skip")); reflexivity.
Qed.

End VisitFacts.

(** X8.  Over any series of [saveAnswer] calls, whatever the network answers,
    the skip flag and the question total stay in step -- unset with 11,
    skipping with 10, not skipping with 12 -- so the total is never 0 (the
    progress bar's division is always the branch taken), and [questionId],
    [sessionId] and [completedQuestions] are never touched. *)
Theorem question_total_follows_skip_flag :
  forall (cs : list QuestionnairePage.Save) (s : Questionnaire.State),
    QuestionnairePage.totals_agree s ->
    let s' := QuestionnairePage.run_saves cs s in
    QuestionnairePage.totals_agree s'
    /\ 0 < Questionnaire.totalQuestions s'
    /\ Questionnaire.questionId s' = Questionnaire.questionId s
    /\ Questionnaire.sessionId s' = Questionnaire.sessionId s
    /\ Questionnaire.completedQuestions s' = Questionnaire.completedQuestions s.
Proof.
  intros cs. unfold QuestionnairePage.run_saves.
  induction cs as [|c cs IH]; intros s Hs; simpl.
  - repeat split; try assumption.
    destruct Hs as [[_ ->] | [[_ ->] | [_ ->]]]; lia.
  - destruct (run_save_keeps s c Hs) as (Hs' & Hq & Hsid & Hcq).
    destruct (IH _ Hs') as (H1 & H2 & H3 & H4 & H5).
    repeat split; try assumption; congruence.
Qed.

Lemma question_total_follows_skip_flag_witness :
  QuestionnairePage.totals_agree Questionnaire.initial
  /\ 0 < Questionnaire.totalQuestions
           (QuestionnairePage.run_saves [sample_save_1; sample_save_offline]
              Questionnaire.initial).
Proof.
  assert (H0 : QuestionnairePage.totals_agree Questionnaire.initial)
    by (left; split; reflexivity).
  split; [exact H0|].
  exact (proj1 (proj2 (question_total_follows_skip_flag
                         [sample_save_1; sample_save_offline]
                         Questionnaire.initial H0))).
Defined.

(** X9.  When the save of question 1 succeeds, the back end's [skip] field
    decides the route: if it is truthy the flag is set, the total becomes 10
    and Next from question 1 leads to question 4; otherwise the flag is
    cleared, the total becomes 12 and Next leads to question 2. *)
Theorem skip_answer_routes_next :
  forall (net : Questionnaire.SaveRequest -> Eff.FetchOutcome)
         (sessionId answer question : Js.prim) (s : Questionnaire.State)
         (resp : Eff.Response) (fields : list (string * Js.json)),
    Js.truthy_prim sessionId = true ->
    net {| Questionnaire.session_id := sessionId; Questionnaire.question_id := 1;
           Questionnaire.answer := answer; Questionnaire.question := question |}
      = Eff.Resolved resp ->
    Eff.ok resp = true ->
    Eff.body resp = Some (Js.JObj fields) ->
    Questionnaire.questionId s = 1 ->
    let skip := Js.truthy (Js.own_property fields "skip") in
    let s' := snd (Questionnaire.saveAnswer net sessionId 1 answer question true s) in
    Questionnaire.skipPhysicalQuestions s' = Some skip
    /\ Questionnaire.totalQuestions s' = (if skip then 10 else 12)
    /\ Questionnaire.error s' = Questionnaire.error s
    /\ Questionnaire.questionId (NavigationMenu.clickNext s') = (if skip then 4 else 2).
Proof.
  intros net sid ans question s resp fields Hsid Hnet Hok Hbody Hq skip s'.
  subst s'.
  rewrite (saveAnswer_question_1 net sid ans question s resp fields Hsid Hnet Hok Hbody).
  fold skip. simpl. rewrite clickNext_questionId.
  destruct skip; simpl; rewrite Hq; repeat split.
Qed.

Lemma skip_answer_routes_next_witness :
  Js.truthy_prim (Js.PStr (Js.lit "3f2a")) = true
  /\ Questionnaire.questionId (skipping_at 1) = 1
  /\ Questionnaire.questionId
       (NavigationMenu.clickNext
          (snd (Questionnaire.saveAnswer says_skip (Js.PStr (Js.lit "3f2a")) 1
                  (Js.PStr (Js.lit "No")) (Js.PStr (Js.lit "Can you stand?")) true
                  (skipping_at 1))))
     = 4.
Proof.
  split; [reflexivity|]. split; [reflexivity|].
  exact (proj2 (proj2 (proj2
           (skip_answer_routes_next says_skip (Js.PStr (Js.lit "3f2a"))
              (Js.PStr (Js.lit "No")) (Js.PStr (Js.lit "Can you stand?"))
              (skipping_at 1) _ [("skip"%string, Js.JBool true)]
              eq_refl eq_refl eq_refl eq_refl eq_refl)))).
Defined.

(** X10.  Without a session id (it is null until a session has started), or
    with auto-save off, answers are dropped in silence: a whole visit's saves
    leave the page's state exactly as it was -- no warning is shown --
    whatever the network would have answered. *)
Theorem saves_without_session_do_nothing :
  forall (cs : list QuestionnairePage.Save) (s : Questionnaire.State),
    Forall (fun c => QuestionnairePage.save_autoSave c
                     && Js.truthy_prim (QuestionnairePage.save_sessionId c) = false) cs ->
    QuestionnairePage.run_saves cs s = s.
Proof.
  intros cs s Hcs. unfold QuestionnairePage.run_saves.
  induction Hcs as [|c cs Hc _ IH]; simpl; [reflexivity|].
  unfold QuestionnairePage.run_save at 2.
  rewrite saveAnswer_skipped by exact Hc. exact IH.
Qed.

Lemma saves_without_session_do_nothing_witness :
  Forall (fun c => QuestionnairePage.save_autoSave c
                   && Js.truthy_prim (QuestionnairePage.save_sessionId c) = false)
         [sample_save_no_session]
  /\ QuestionnairePage.run_saves [sample_save_no_session] Questionnaire.initial
     = Questionnaire.initial.
Proof.
  assert (H : Forall (fun c => QuestionnairePage.save_autoSave c
                   && Js.truthy_prim (QuestionnairePage.save_sessionId c) = false)
                [sample_save_no_session])
    by (repeat constructor).
  split; [exact H|].
  exact (saves_without_session_do_nothing [sample_save_no_session]
           Questionnaire.initial H).
Defined.

(** ** Submit *)
Section SubmitFacts.
Import Js Eff Questionnaire QuestionnairePage.

Lemma handleSubmit_no_session net (p : Page) :
  truthy_prim (sessionId (cells p)) = false ->
  handleSubmit net p = (Normal tt, alert no_session p).
Proof. intros Hs. unfold handleSubmit. rewrite Hs. reflexivity. Qed.

Lemma handleSubmit_done net (p : Page) resp j :
  truthy_prim (sessionId (cells p)) = true ->
  net (sessionId (cells p)) = Resolved resp -> ok resp = true -> body resp = Some j ->
  handleSubmit net p = (Normal tt, navigate "/results" j p).
Proof.
  intros Hs Hn Hok Hb.
  unfold handleSubmit, try_catch, when, bind, fetch, response_json, throw, ret, modify.
  rewrite Hs, Hn. simpl. rewrite Hok. simpl. rewrite Hb. reflexivity.
Qed.

Lemma handleSubmit_failed net (p : Page) :
  truthy_prim (sessionId (cells p)) = true ->
  submit_fails (net (sessionId (cells p))) ->
  handleSubmit net p = (Normal tt, alert submit_failed p).
Proof.
  intros Hs Hf.
  unfold handleSubmit, try_catch, when, bind, fetch, response_json, throw, ret, modify.
  rewrite Hs. simpl.
  destruct Hf as [-> | (r & -> & Hr)]; simpl; [reflexivity|].
  destruct (ok r) eqn:Hok; simpl; [|reflexivity].
  destruct Hr as [Hr | Hr]; [discriminate|]. rewrite Hr. reflexivity.
Qed.

Lemma submit_fails_or_not (o : FetchOutcome) :
  submit_fails o \/ exists r j, o = Resolved r /\ ok r = true /\ body r = Some j.
Proof.
  destruct o as [|r]; [left; left; reflexivity|].
  destruct (ok r) eqn:Hok; [|left; right; eauto].
  destruct (body r) as [j|] eqn:Hb; [right; eauto|left; right; eauto].
Qed.

End SubmitFacts.

(** X11.  A click on Submit never throws and leaves the state cells alone; it
    ends in exactly one of three ways.  Without a session id it raises the "No
    active session" alert and sends nothing; with one, a response that is OK
    and parses takes the user to [/results] carrying the parsed result; and a
    rejected fetch, a non-OK status or an unparsable body raises the "Failed
    to submit" alert, the user staying on the questionnaire. *)
Theorem submit_outcomes :
  forall (net : Js.prim -> Eff.FetchOutcome) (p : QuestionnairePage.Page),
    let sessionId := Questionnaire.sessionId (QuestionnairePage.cells p) in
    let r := QuestionnairePage.handleSubmit net p in
    (fst r = Eff.Normal tt
     /\ QuestionnairePage.cells (snd r) = QuestionnairePage.cells p
     /\ (length (QuestionnairePage.alerts (snd r))
         + length (QuestionnairePage.navigations (snd r))
         = S (length (QuestionnairePage.alerts p)
              + length (QuestionnairePage.navigations p)))%nat)
    /\ (Js.truthy_prim sessionId = false ->
        forall net', QuestionnairePage.handleSubmit net' p
                     = (Eff.Normal tt,
                        QuestionnairePage.alert QuestionnairePage.no_session p))
    /\ (Js.truthy_prim sessionId = true ->
        forall resp j,
          net sessionId = Eff.Resolved resp -> Eff.ok resp = true ->
          Eff.body resp = Some j ->
          snd r = QuestionnairePage.navigate "/results" j p)
    /\ (Js.truthy_prim sessionId = true ->
        QuestionnairePage.submit_fails (net sessionId) ->
        snd r = QuestionnairePage.alert QuestionnairePage.submit_failed p).
Proof.
  intros net p sessionId r. subst r.
  split; [|split; [|split]].
  - destruct (Js.truthy_prim sessionId) eqn:Hs.
    + destruct (submit_fails_or_not (net sessionId)) as [Hf | (resp & j & Hn & Hok & Hb)].
      * rewrite (handleSubmit_failed net p Hs Hf). simpl.
        repeat split. rewrite length_app. simpl. lia.
      * rewrite (handleSubmit_done net p resp j Hs Hn Hok Hb). simpl.
        repeat split. rewrite length_app. simpl. lia.
    + rewrite (handleSubmit_no_session net p Hs). simpl.
      repeat split. rewrite length_app. simpl. lia.
  - intros Hs net'. apply handleSubmit_no_session, Hs.
  - intros Hs resp j Hn Hok Hb.
    rewrite (handleSubmit_done net p resp j Hs Hn Hok Hb). reflexivity.
  - intros Hs Hf. rewrite (handleSubmit_failed net p Hs Hf). reflexivity.
Qed.

Lemma submit_outcomes_witness :
  (Js.truthy_prim (Questionnaire.sessionId (QuestionnairePage.cells sample_page)) = true
   /\ QuestionnairePage.submit_fails
        (submit_down (Questionnaire.sessionId (QuestionnairePage.cells sample_page))))
  /\ snd (QuestionnairePage.handleSubmit submit_down sample_page)
     = QuestionnairePage.alert QuestionnairePage.submit_failed sample_page.
Proof.
  assert (Hf : QuestionnairePage.submit_fails
        (submit_down (Questionnaire.sessionId (QuestionnairePage.cells sample_page))))
    by (left; reflexivity).
  split; [split; [reflexivity|exact Hf]|].
  exact (proj2 (proj2 (proj2 (submit_outcomes submit_down sample_page))) eq_refl Hf).
Defined.

(** ** Regular expressions: [test] decides the pattern's strings *)
Section RegexFacts.
Import Js Regex.

Lemma Matches_Seq (r1 r2 : regex) (s : jsstring) :
  Matches (Seq r1 r2) s
  <-> exists s1 s2, s = s1 ++ s2 /\ Matches r1 s1 /\ Matches r2 s2.
Proof.
  split.
  - intros Hm. inversion Hm; subst. eauto.
  - intros (s1 & s2 & -> & H1 & H2). constructor; assumption.
Qed.

Lemma nullable_Matches (r : regex) : nullable r = true <-> Matches r [].
Proof.
  induction r as [| |p|r1 IH1 r2 IH2|r1 IH1 r2 IH2|r IH]; simpl.
  - split; [discriminate|]. intros Hm. inversion Hm.
  - split; [constructor|reflexivity].
  - split; [discriminate|]. intros Hm. inversion Hm.
  - rewrite andb_true_iff, IH1, IH2. split.
    + intros [H1 H2]. change (@nil N) with (@nil N ++ []). constructor; assumption.
    + intros Hm. apply Matches_Seq in Hm as (s1 & s2 & Heq & H1 & H2).
      symmetry in Heq. apply app_eq_nil in Heq as [-> ->]. split; assumption.
  - rewrite orb_true_iff, IH1, IH2. split.
    + intros [H1|H2]; [apply MatchesAltL|apply MatchesAltR]; assumption.
    + intros Hm. inversion Hm; subst; auto.
  - split; [constructor|reflexivity].
Qed.

Lemma Matches_derive (c : N) (r : regex) (s : jsstring) :
  Matches (derive c r) s -> Matches r (c :: s).
Proof.
  revert s. induction r as [| |p|r1 IH1 r2 IH2|r1 IH1 r2 IH2|r IH]; simpl; intros s Hm.
  - inversion Hm.
  - inversion Hm.
  - destruct (p c) eqn:Hp; inversion Hm; subst. constructor. exact Hp.
  - assert (Hseq : forall t, Matches (Seq (derive c r1) r2) t ->
                             Matches (Seq r1 r2) (c :: t)).
    { intros t Ht. apply Matches_Seq in Ht as (s1 & s2 & -> & H1 & H2).
      change (c :: s1 ++ s2) with ((c :: s1) ++ s2). constructor; auto. }
    destruct (nullable r1) eqn:Hn; [|auto].
    inversion Hm; subst; [auto|].
    change (c :: s) with ([] ++ c :: s). constructor; [|auto].
    apply nullable_Matches, Hn.
  - inversion Hm; subst; [apply MatchesAltL|apply MatchesAltR]; auto.
  - apply Matches_Seq in Hm as (s1 & s2 & -> & H1 & H2).
    change (c :: s1 ++ s2) with ((c :: s1) ++ s2). constructor; auto.
Qed.

Lemma derive_Matches (r : regex) (t : jsstring) :
  Matches r t -> forall c u, t = c :: u -> Matches (derive c r) u.
Proof.
  induction 1 as [|p c0 Hp|r1 r2 s1 s2 H1 IH1 H2 IH2|r1 r2 s0 H0 IH|r1 r2 s0 H0 IH
                  |r|r s1 s2 H1 IH1 H2 IH2]; intros c u Heq; simpl.
  - discriminate.
  - injection Heq as -> <-. rewrite Hp. constructor.
  - destruct s1 as [|c1 s1]; simpl in Heq.
    + assert (Hn : nullable r1 = true) by (apply nullable_Matches, H1).
      rewrite Hn. apply MatchesAltR. apply IH2, Heq.
    + injection Heq as -> <-.
      assert (Hs : Matches (Seq (derive c r1) r2) (s1 ++ s2))
        by (constructor; [apply IH1; reflexivity|exact H2]).
      destruct (nullable r1); [apply MatchesAltL|]; exact Hs.
  - apply MatchesAltL. apply IH, Heq.
  - apply MatchesAltR. apply IH, Heq.
  - discriminate.
  - destruct s1 as [|c1 s1]; simpl in Heq.
    + apply (IH2 c u Heq).
    + injection Heq as -> <-. constructor; [apply IH1; reflexivity|exact H2].
Qed.

(** The matcher accepts exactly the strings of the pattern. *)
Lemma test_Matches (r : regex) (s : jsstring) : test r s = true <-> Matches r s.
Proof.
  unfold test. revert r. induction s as [|c s IH]; intros r; simpl.
  - apply nullable_Matches.
  - rewrite IH. split; [apply Matches_derive|].
    intros Hm. eapply derive_Matches; [exact Hm|reflexivity].
Qed.

Lemma Matches_Class (p : N -> bool) (s : jsstring) :
  Matches (Class p) s <-> exists c, s = [c] /\ p c = true.
Proof.
  split.
  - intros Hm. inversion Hm; subst. eauto.
  - intros (c & -> & Hp). constructor. exact Hp.
Qed.

Lemma Matches_Literal (c : N) (s : jsstring) : Matches (Literal c) s <-> s = [c].
Proof.
  unfold Literal. rewrite Matches_Class. split.
  - intros (x & -> & Hx). apply N.eqb_eq in Hx. congruence.
  - intros ->. exists c. split; [reflexivity|apply N.eqb_refl].
Qed.

Lemma Matches_Star_Class (p : N -> bool) (s : jsstring) :
  Matches (Star (Class p)) s <-> forallb p s = true.
Proof.
  split.
  - intros Hm. remember (Star (Class p)) as r eqn:Hr.
    induction Hm as [| | | | | |r0 s1 s2 H1 _ H2 IH2]; try discriminate.
    + reflexivity.
    + injection Hr as ->. rewrite forallb_app. apply andb_true_iff. split; [|auto].
      apply Matches_Class in H1 as (c & -> & Hp). simpl. rewrite Hp. reflexivity.
  - induction s as [|c s IH]; simpl; [constructor|].
    intros [Hc Hs]%andb_true_iff.
    change (c :: s) with ([c] ++ s). constructor; [constructor; exact Hc|auto].
Qed.

Lemma Matches_Plus_Class (p : N -> bool) (s : jsstring) :
  Matches (Plus (Class p)) s <-> s <> [] /\ forallb p s = true.
Proof.
  unfold Plus. rewrite Matches_Seq. split.
  - intros (s1 & s2 & -> & H1 & H2).
    apply Matches_Class in H1 as (c & -> & Hp). apply Matches_Star_Class in H2.
    simpl. rewrite Hp, H2. split; [discriminate|reflexivity].
  - intros [Hne Hall]. destruct s as [|c s]; [congruence|]. simpl in Hall.
    apply andb_true_iff in Hall as [Hc Hs].
    exists [c], s. split; [reflexivity|]. split.
    + constructor. exact Hc.
    + apply Matches_Star_Class, Hs.
Qed.

Lemma Matches_Times_Class (n : nat) (p : N -> bool) (s : jsstring) :
  Matches (Times n (Class p)) s <-> length s = n /\ forallb p s = true.
Proof.
  revert s. induction n as [|n IH]; intros s; simpl.
  - split.
    + intros Hm. inversion Hm. split; reflexivity.
    + intros [Hl _]. destruct s; [constructor|discriminate].
  - rewrite Matches_Seq. split.
    + intros (s1 & s2 & -> & H1 & H2).
      apply Matches_Class in H1 as (c & -> & Hp). apply IH in H2 as [Hl Hall].
      simpl. rewrite Hp, Hall, Hl. split; reflexivity.
    + intros [Hl Hall]. destruct s as [|c s]; [discriminate|]. simpl in Hl, Hall.
      apply andb_true_iff in Hall as [Hc Hs].
      exists [c], s. split; [reflexivity|]. split; [constructor; exact Hc|].
      apply IH. split; [lia|exact Hs].
Qed.

End RegexFacts.

(** ** The user-information form *)
Section FormFacts.
Import Js Eff Regex UserInfoForm.

Lemma not_space_or_at_spec (c : N) :
  not_space_or_at c = true <-> isWhiteSpace c = false /\ c <> 64%N.
Proof.
  unfold not_space_or_at, space. rewrite andb_true_iff, !negb_true_iff, N.eqb_neq.
  reflexivity.
Qed.

Lemma digit_not_space (c : N) : digit c = true -> isWhiteSpace c = false.
Proof.
  unfold digit. intros [H1 H2]%andb_true_iff.
  apply N.leb_le in H1, H2. unfold isWhiteSpace.
  repeat match goal with
         | |- context [(?a <=? ?b)%N] => destruct (N.leb_spec a b); try lia
         | |- context [(?a =? ?b)%N] => destruct (N.eqb_spec a b); try lia
         end; reflexivity.
Qed.

Lemma no_space_trim (s : jsstring) :
  forallb (fun c => negb (isWhiteSpace c)) s = true -> trim s = s.
Proof.
  intros Hs. apply trimmed_trim_id. unfold trimmed. apply andb_true_iff.
  assert (Hclean : forall t, forallb (fun c => negb (isWhiteSpace c)) t = true ->
                             starts_clean t = true).
  { intros [|c t]; simpl; [reflexivity|]. intros [Hc _]%andb_true_iff. exact Hc. }
  split; [apply Hclean, Hs|]. apply Hclean.
  rewrite forallb_forall in *. intros c Hc. apply Hs, in_rev, Hc.
Qed.

Lemma zipcode_Matches (z : jsstring) :
  validateZipcode z = true
  <-> (length z = 5%nat /\ forallb digit z = true)
      \/ exists a b, z = a ++ 45%N :: b
                     /\ length a = 5%nat /\ length b = 4%nat
                     /\ forallb digit a = true /\ forallb digit b = true.
Proof.
  unfold validateZipcode, zipcodeRegex, Optional. rewrite test_Matches, Matches_Seq.
  split.
  - intros (a & t & -> & Ha & Ht).
    apply (Matches_Times_Class 5 digit a) in Ha as [Hla Hda].
    inversion Ht as [| | |? ? ? Hl|? ? ? Hr| |]; subst.
    + apply Matches_Seq in Hl as (d & b & -> & Hd & Hb).
      apply Matches_Literal in Hd as ->.
      apply (Matches_Times_Class 4 digit b) in Hb as [Hlb Hdb].
      right. exists a, b. auto.
    + inversion Hr; subst. rewrite app_nil_r. left. auto.
  - intros [[Hl Hd] | (a & b & -> & Hla & Hlb & Hda & Hdb)].
    + exists z, []. rewrite app_nil_r. split; [reflexivity|]. split.
      * apply (Matches_Times_Class 5 digit z). auto.
      * apply MatchesAltR. constructor.
    + exists a, (45%N :: b). split; [reflexivity|]. split.
      * apply (Matches_Times_Class 5 digit a). auto.
      * apply MatchesAltL. apply Matches_Seq. exists [45%N], b.
        split; [reflexivity|]. split; [apply Matches_Literal; reflexivity|].
        apply (Matches_Times_Class 4 digit b). auto.
Qed.

Lemma email_Matches (e : jsstring) :
  validateEmail e = true
  <-> exists l d t,
        e = l ++ 64%N :: d ++ 46%N :: t
        /\ l <> [] /\ d <> [] /\ t <> []
        /\ forallb not_space_or_at l = true
        /\ forallb not_space_or_at d = true
        /\ forallb not_space_or_at t = true.
Proof.
  unfold validateEmail, emailRegex. rewrite test_Matches. split.
  - intros Hm.
    apply Matches_Seq in Hm as (l & x1 & -> & Hl & Hm).
    apply Matches_Seq in Hm as (a & x2 & -> & Ha & Hm).
    apply Matches_Seq in Hm as (d & x3 & -> & Hd & Hm).
    apply Matches_Seq in Hm as (b & t & -> & Hb & Ht).
    apply Matches_Literal in Ha as ->. apply Matches_Literal in Hb as ->.
    apply Matches_Plus_Class in Hl as [? ?], Hd as [? ?], Ht as [? ?].
    exists l, d, t. simpl. auto 10.
  - intros (l & d & t & -> & Hl & Hd & Ht & Hal & Had & Hat).
    apply Matches_Seq. exists l, (64%N :: d ++ 46%N :: t).
    split; [reflexivity|]. split; [apply Matches_Plus_Class; auto|].
    apply Matches_Seq. exists [64%N], (d ++ 46%N :: t).
    split; [reflexivity|]. split; [apply Matches_Literal; reflexivity|].
    apply Matches_Seq. exists d, (46%N :: t).
    split; [reflexivity|]. split; [apply Matches_Plus_Class; auto|].
    apply Matches_Seq. exists [46%N], t.
    split; [reflexivity|]. split; [apply Matches_Literal; reflexivity|].
    apply Matches_Plus_Class; auto.
Qed.

Lemma not_space_or_at_all (s : jsstring) :
  forallb not_space_or_at s = true ->
  forallb (fun c => negb (isWhiteSpace c)) s = true
  /\ List.filter (fun c => (c =? 64)%N) s = [].
Proof.
  induction s as [|c s IH]; simpl; [auto|].
  intros [Hc Hs]%andb_true_iff. destruct (IH Hs) as [H1 H2].
  apply not_space_or_at_spec in Hc as [Hw Hat].
  rewrite Hw, H1. apply N.eqb_neq in Hat. rewrite Hat. auto.
Qed.

Lemma email_no_space (e : jsstring) :
  validateEmail e = true ->
  forallb (fun c => negb (isWhiteSpace c)) e = true
  /\ length (List.filter (fun c => (c =? 64)%N) e) = 1%nat
  /\ e <> [].
Proof.
  intros (l & d & t & -> & Hl & _ & _ & Hal & Had & Hat)%email_Matches.
  destruct (not_space_or_at_all l Hal) as [Wl Fl].
  destruct (not_space_or_at_all d Had) as [Wd Fd].
  destruct (not_space_or_at_all t Hat) as [Wt Ft].
  split; [|split].
  - rewrite forallb_app. simpl. rewrite forallb_app. simpl.
    rewrite Wl, Wd, Wt. reflexivity.
  - rewrite List.filter_app. simpl. rewrite List.filter_app. simpl.
    rewrite Fl, Fd, Ft.
    reflexivity.
  - destruct l; [congruence|discriminate].
Qed.

Lemma zipcode_no_space (z : jsstring) :
  validateZipcode z = true ->
  forallb (fun c => negb (isWhiteSpace c)) z = true /\ z <> [].
Proof.
  assert (Hd : forall s, forallb digit s = true ->
                         forallb (fun c => negb (isWhiteSpace c)) s = true).
  { induction s as [|c s IH]; simpl; [auto|]. intros [Hc Hs]%andb_true_iff.
    rewrite (digit_not_space c Hc), (IH Hs). reflexivity. }
  intros [[Hl Hz] | (a & b & -> & Hla & Hlb & Hda & Hdb)]%zipcode_Matches.
  - split; [apply Hd, Hz|]. destruct z; [discriminate|discriminate].
  - split; [|destruct a; discriminate].
    rewrite forallb_app. simpl. rewrite (Hd a Hda), (Hd b Hdb). reflexivity.
Qed.

Lemma valid_trim_truthy (s : jsstring) :
  forallb (fun c => negb (isWhiteSpace c)) s = true -> s <> [] ->
  trim s = s /\ truthy_string (trim s) = true.
Proof.
  intros Hs Hne. rewrite (no_space_trim s Hs). split; [reflexivity|].
  destruct s; [congruence|reflexivity].
Qed.

(** What [validateForm] finds on a form holding what the user typed. *)
Lemma validateForm_typed (s : State) (n e z : jsstring) :
  formData s = {| name := str n; email := str e; zipcode := str z |} ->
  exists errs,
    validateForm s
    = (Normal (truthy_string (trim n) && validateEmail e && validateZipcode z),
       setErrors (fun _ => errs) s)
    /\ shown (name_error errs) = negb (truthy_string (trim n))
    /\ shown (email_error errs) = negb (validateEmail e)
    /\ shown (zipcode_error errs) = negb (validateZipcode z).
Proof.
  intros Hform.
  assert (He : validateEmail e = true -> truthy_string (trim e) = true).
  { intros Hv. destruct (email_no_space e Hv) as (Hw & _ & Hne).
    apply valid_trim_truthy; assumption. }
  assert (Hz : validateZipcode z = true -> truthy_string (trim z) = true).
  { intros Hv. destruct (zipcode_no_space z Hv) as (Hw & Hne).
    apply valid_trim_truthy; assumption. }
  unfold validateForm, bind, trim_of, ret, modify. rewrite Hform. simpl.
  destruct (truthy_string (trim n)); simpl;
    destruct (validateEmail e); simpl;
    try (rewrite (He eq_refl); simpl);
    try (destruct (truthy_string (trim e)); simpl);
    destruct (validateZipcode z); simpl;
    try (rewrite (Hz eq_refl); simpl);
    try (destruct (truthy_string (trim z)); simpl);
    eexists; (split; [reflexivity|]); simpl; auto.
Qed.

End FormFacts.

Section FormSubmitFacts.
Import Js Eff Regex QuestionnaireUtils UserInfoForm.
Context {K : Type} `{Countable K}.

(** What [handleSubmit] does on a form holding what the user typed. *)
Lemma handleSubmit_typed (id : K) (question sid : prim) (w : World K)
    (n e z : jsstring) :
  formData (component w) = {| name := str n; email := str e; zipcode := str z |} ->
  exists errs,
    handleSubmit id question sid w
    = (Normal tt,
       if truthy_string (trim n) && validateEmail e && validateZipcode z
       then
         {| component := setIsSubmitted true (setErrors (fun _ => errs) (component w));
            completedQuestions :=
              <[id := [JArr [answerData (trim n) (trim e) (trim z)]]]>
                (completedQuestions w);
            saveCalls :=
              saveCalls w
              ++ [{| call_sessionId := sid; call_questionId := id;
                     call_answer := answerData (trim n) (trim e) (trim z);
                     call_question := question |}] |}
       else on_component (setErrors (fun _ => errs)) w).
Proof.
  intros Hform.
  destruct (validateForm_typed (component w) n e z Hform) as (errs & Hv & _).
  exists errs.
  unfold handleSubmit, bind, world_validateForm, when. rewrite Hv.
  destruct (truthy_string (trim n) && validateEmail e && validateZipcode z);
    [|reflexivity].
  unfold modify, on_component, trim_of, ret. simpl.
  rewrite Hform. simpl. rewrite Hform. simpl. rewrite Hform. reflexivity.
Qed.

Lemma handleSubmit_valid (id : K) (question sid : prim) (w : World K)
    (n e z : jsstring) :
  formData (component w) = {| name := str n; email := str e; zipcode := str z |} ->
  truthy_string (trim n) && validateEmail e && validateZipcode z = true ->
  exists errs,
    handleSubmit id question sid w
    = (Normal tt,
       {| component := setIsSubmitted true (setErrors (fun _ => errs) (component w));
          completedQuestions :=
            <[id := [JArr [answerData (trim n) e z]]]> (completedQuestions w);
          saveCalls :=
            saveCalls w
            ++ [{| call_sessionId := sid; call_questionId := id;
                   call_answer := answerData (trim n) e z;
                   call_question := question |}] |}).
Proof.
  intros Hform Hvalid.
  destruct (handleSubmit_typed id question sid w n e z Hform) as (errs & Hr).
  exists errs. rewrite Hr, Hvalid.
  apply andb_true_iff in Hvalid as [[_ He]%andb_true_iff Hz].
  destruct (email_no_space e He) as (Hwe & _).
  destruct (zipcode_no_space z Hz) as (Hwz & _).
  rewrite (no_space_trim e Hwe), (no_space_trim z Hwz). reflexivity.
Qed.

Lemma remount_wrapped (id : K) (w : World K) (answer : json) rest :
  completedQuestions w !! id = Some (JArr [answer] :: rest) ->
  remount id w = (Normal tt, on_component (fun _ => initial) w).
Proof.
  intros Hcq. unfold remount, load_effect. simpl. rewrite Hcq. reflexivity.
Qed.

End FormSubmitFacts.

(** X12.  [validateZipcode] accepts exactly five digits, optionally followed
    by a hyphen and four more digits; so an accepted zipcode has 5 or 10
    characters and no white space. *)
Theorem zipcode_format :
  forall z : Js.jsstring,
    (UserInfoForm.validateZipcode z = true
     <-> (length z = 5%nat /\ forallb Regex.digit z = true)
         \/ exists a b, z = a ++ 45%N :: b
                        /\ length a = 5%nat /\ length b = 4%nat
                        /\ forallb Regex.digit a = true
                        /\ forallb Regex.digit b = true)
    /\ (UserInfoForm.validateZipcode z = true ->
        (length z = 5%nat \/ length z = 10%nat) /\ Js.trim z = z).
Proof.
  intros z. split; [apply zipcode_Matches|].
  intros Hv. split.
  - apply zipcode_Matches in Hv as [[Hl _] | (a & b & -> & Hla & Hlb & _)];
      [left; exact Hl|right].
    rewrite length_app. simpl. lia.
  - destruct (zipcode_no_space z Hv) as [Hw _]. apply no_space_trim, Hw.
Qed.

Lemma zipcode_format_witness :
  UserInfoForm.validateZipcode (Js.lit "12345-6789") = true
  /\ (length (Js.lit "12345-6789") = 5%nat \/ length (Js.lit "12345-6789") = 10%nat)
  /\ UserInfoForm.validateZipcode (Js.lit "1234") = false.
Proof.
  split; [reflexivity|]. split; [|reflexivity].
  exact (proj1 (proj2 (zipcode_format (Js.lit "12345-6789")) eq_refl)).
Defined.

(** X13.  [validateEmail] accepts exactly the strings of the form
    local@domain.tail whose three parts are non-empty and contain neither
    white space nor an at-sign (the domain and tail may contain further
    dots); so an accepted address has exactly one at-sign, no white space,
    and is unchanged by trimming. *)
Theorem email_format :
  forall e : Js.jsstring,
    (UserInfoForm.validateEmail e = true
     <-> exists l d t,
           e = l ++ 64%N :: d ++ 46%N :: t
           /\ l <> [] /\ d <> [] /\ t <> []
           /\ forallb UserInfoForm.not_space_or_at l = true
           /\ forallb UserInfoForm.not_space_or_at d = true
           /\ forallb UserInfoForm.not_space_or_at t = true)
    /\ (UserInfoForm.validateEmail e = true ->
        forallb (fun c => negb (Js.isWhiteSpace c)) e = true
        /\ length (List.filter (fun c => (c =? 64)%N) e) = 1%nat
        /\ Js.trim e = e).
Proof.
  intros e. split; [apply email_Matches|].
  intros Hv. destruct (email_no_space e Hv) as (Hw & Hat & _).
  split; [exact Hw|]. split; [exact Hat|]. apply no_space_trim, Hw.
Qed.

Lemma email_format_witness :
  UserInfoForm.validateEmail (Js.lit "ada@example.org") = true
  /\ length (List.filter (fun c => (c =? 64)%N) (Js.lit "ada@example.org")) = 1%nat
  /\ UserInfoForm.validateEmail (Js.lit "ada@example") = false
  /\ UserInfoForm.validateEmail (Js.lit " ada@example.org") = false.
Proof.
  split; [reflexivity|]. split; [|split; reflexivity].
  exact (proj1 (proj2 (proj2 (email_format (Js.lit "ada@example.org")) eq_refl))).
Defined.

(** X14.  On a form holding what the user typed, [validateForm] does not
    throw and returns true exactly when the trimmed name is non-empty, the
    email as typed passes [validateEmail] and the zipcode as typed passes
    [validateZipcode]; the errors it sets show a message for exactly the
    fields that fail, and leave the typed data alone. *)
Theorem form_validation :
  forall (s : UserInfoForm.State) (n e z : Js.jsstring),
    UserInfoForm.formData s
    = {| UserInfoForm.name := UserInfoForm.str n;
         UserInfoForm.email := UserInfoForm.str e;
         UserInfoForm.zipcode := UserInfoForm.str z |} ->
    exists errs,
      UserInfoForm.validateForm s
      = (Eff.Normal (Js.truthy_string (Js.trim n) && UserInfoForm.validateEmail e
                     && UserInfoForm.validateZipcode z),
         UserInfoForm.setErrors (fun _ => errs) s)
      /\ UserInfoForm.shown (UserInfoForm.name_error errs)
         = negb (Js.truthy_string (Js.trim n))
      /\ UserInfoForm.shown (UserInfoForm.email_error errs)
         = negb (UserInfoForm.validateEmail e)
      /\ UserInfoForm.shown (UserInfoForm.zipcode_error errs)
         = negb (UserInfoForm.validateZipcode z).
Proof. intros s n e z Hform. apply validateForm_typed, Hform. Qed.

Lemma form_validation_witness :
  UserInfoForm.formData sample_form
  = {| UserInfoForm.name := UserInfoForm.str (Js.lit " Ada ");
       UserInfoForm.email := UserInfoForm.str (Js.lit "ada@example.org");
       UserInfoForm.zipcode := UserInfoForm.str (Js.lit "1234") |}
  /\ exists errs,
       UserInfoForm.validateForm sample_form
       = (Eff.Normal (Js.truthy_string (Js.trim (Js.lit " Ada "))
                      && UserInfoForm.validateEmail (Js.lit "ada@example.org")
                      && UserInfoForm.validateZipcode (Js.lit "1234")),
          UserInfoForm.setErrors (fun _ => errs) sample_form)
       /\ UserInfoForm.shown (UserInfoForm.name_error errs)
          = negb (Js.truthy_string (Js.trim (Js.lit " Ada ")))
       /\ UserInfoForm.shown (UserInfoForm.email_error errs)
          = negb (UserInfoForm.validateEmail (Js.lit "ada@example.org"))
       /\ UserInfoForm.shown (UserInfoForm.zipcode_error errs)
          = negb (UserInfoForm.validateZipcode (Js.lit "1234")).
Proof.
  split; [reflexivity|].
  exact (form_validation sample_form (Js.lit " Ada ") (Js.lit "ada@example.org")
           (Js.lit "1234") eq_refl).
Defined.

(** X15.  Submitting a form that holds what the user typed never throws.  If
    the form is invalid nothing is stored and [saveAnswer] is not called; if
    it is valid, the question is bound to a one-element list holding the
    array of the answer object -- name trimmed, email and zipcode exactly as
    typed -- [saveAnswer] is called once with that object, and the form is
    marked submitted. *)
Theorem form_submit :
  forall (K : Type) (EqK : EqDecision K) (CntK : Countable K)
         (id : K) (question sessionId : Js.prim) (w : UserInfoForm.World K)
         (n e z : Js.jsstring),
    UserInfoForm.formData (UserInfoForm.component w)
    = {| UserInfoForm.name := UserInfoForm.str n;
         UserInfoForm.email := UserInfoForm.str e;
         UserInfoForm.zipcode := UserInfoForm.str z |} ->
    let valid := Js.truthy_string (Js.trim n) && UserInfoForm.validateEmail e
                 && UserInfoForm.validateZipcode z in
    let r := UserInfoForm.handleSubmit id question sessionId w in
    let answer := UserInfoForm.answerData (Js.trim n) e z in
    fst r = Eff.Normal tt
    /\ UserInfoForm.formData (UserInfoForm.component (snd r))
       = UserInfoForm.formData (UserInfoForm.component w)
    /\ (valid = false ->
        UserInfoForm.completedQuestions (snd r) = UserInfoForm.completedQuestions w
        /\ UserInfoForm.saveCalls (snd r) = UserInfoForm.saveCalls w
        /\ UserInfoForm.isSubmitted (UserInfoForm.component (snd r))
           = UserInfoForm.isSubmitted (UserInfoForm.component w))
    /\ (valid = true ->
        UserInfoForm.completedQuestions (snd r)
        = <[id := [Js.JArr [answer]]]> (UserInfoForm.completedQuestions w)
        /\ UserInfoForm.saveCalls (snd r)
           = UserInfoForm.saveCalls w
             ++ [{| UserInfoForm.call_sessionId := sessionId;
                    UserInfoForm.call_questionId := id;
                    UserInfoForm.call_answer := answer;
                    UserInfoForm.call_question := question |}]
        /\ UserInfoForm.isSubmitted (UserInfoForm.component (snd r)) = true).
Proof.
  intros K EqK CntK id question sid w n e z Hform valid r answer.
  subst r answer. destruct valid eqn:Hvalid; subst valid.
  - destruct (handleSubmit_valid id question sid w n e z Hform Hvalid) as (errs & ->).
    simpl. repeat split; discriminate.
  - destruct (handleSubmit_typed id question sid w n e z Hform) as (errs & ->).
    rewrite Hvalid. simpl. repeat split; discriminate.
Qed.

Lemma form_submit_witness :
  UserInfoForm.formData (UserInfoForm.component sample_form_world)
  = {| UserInfoForm.name := UserInfoForm.str (Js.lit " Ada ");
       UserInfoForm.email := UserInfoForm.str (Js.lit "ada@example.org");
       UserInfoForm.zipcode := UserInfoForm.str (Js.lit "12345") |}
  /\ Js.truthy_string (Js.trim (Js.lit " Ada "))
     && UserInfoForm.validateEmail (Js.lit "ada@example.org")
     && UserInfoForm.validateZipcode (Js.lit "12345") = true
  /\ UserInfoForm.completedQuestions
       (snd (UserInfoForm.handleSubmit 0 (Js.PStr (Js.lit "Who are you?"))
               (Js.PStr (Js.lit "3f2a")) sample_form_world))
     = <[0 := [Js.JArr [UserInfoForm.answerData (Js.trim (Js.lit " Ada "))
                          (Js.lit "ada@example.org") (Js.lit "12345")]]]>
         (UserInfoForm.completedQuestions sample_form_world).
Proof.
  split; [reflexivity|]. split; [reflexivity|].
  exact (proj1 (proj2 (proj2 (proj2
           (form_submit Z _ _ 0 (Js.PStr (Js.lit "Who are you?"))
              (Js.PStr (Js.lit "3f2a")) sample_form_world (Js.lit " Ada ")
              (Js.lit "ada@example.org") (Js.lit "12345") eq_refl))) eq_refl)).
Defined.

(** X16.  A submitted form is not restored.  [handleSubmit] stores the answer
    object wrapped in an array, and the load effect looks for a [name]
    property on what is stored, which an array does not have: when the
    component is mounted again after a valid submit, the effect changes
    nothing, so the form is empty and not marked submitted although the
    answer is still stored. *)
Theorem submitted_form_is_not_restored :
  forall (K : Type) (EqK : EqDecision K) (CntK : Countable K)
         (id : K) (question sessionId : Js.prim) (w : UserInfoForm.World K)
         (n e z : Js.jsstring),
    UserInfoForm.formData (UserInfoForm.component w)
    = {| UserInfoForm.name := UserInfoForm.str n;
         UserInfoForm.email := UserInfoForm.str e;
         UserInfoForm.zipcode := UserInfoForm.str z |} ->
    Js.truthy_string (Js.trim n) && UserInfoForm.validateEmail e
    && UserInfoForm.validateZipcode z = true ->
    let w1 := snd (UserInfoForm.handleSubmit id question sessionId w) in
    let r := UserInfoForm.remount id w1 in
    fst r = Eff.Normal tt
    /\ UserInfoForm.component (snd r) = UserInfoForm.initial
    /\ UserInfoForm.isSubmitted (UserInfoForm.component (snd r)) = false
    /\ UserInfoForm.completedQuestions (snd r) !! id
       = Some [Js.JArr [UserInfoForm.answerData (Js.trim n) e z]].
Proof.
  intros K EqK CntK id question sid w n e z Hform Hvalid w1 r.
  subst r w1.
  destruct (handleSubmit_valid id question sid w n e z Hform Hvalid) as (errs & ->).
  simpl.
  erewrite remount_wrapped by (simpl; apply lookup_insert_eq).
  simpl. repeat split. apply lookup_insert_eq.
Qed.

Lemma submitted_form_is_not_restored_witness :
  (UserInfoForm.formData (UserInfoForm.component sample_form_world)
   = {| UserInfoForm.name := UserInfoForm.str (Js.lit " Ada ");
        UserInfoForm.email := UserInfoForm.str (Js.lit "ada@example.org");
        UserInfoForm.zipcode := UserInfoForm.str (Js.lit "12345") |}
   /\ Js.truthy_string (Js.trim (Js.lit " Ada "))
      && UserInfoForm.validateEmail (Js.lit "ada@example.org")
      && UserInfoForm.validateZipcode (Js.lit "12345") = true)
  /\ UserInfoForm.component
       (snd (UserInfoForm.remount 0
               (snd (UserInfoForm.handleSubmit 0 (Js.PStr (Js.lit "Who are you?"))
                       (Js.PStr (Js.lit "3f2a")) sample_form_world))))
     = UserInfoForm.initial.
Proof.
  split; [split; reflexivity|].
  exact (proj1 (proj2 (submitted_form_is_not_restored Z _ _ 0
                         (Js.PStr (Js.lit "Who are you?")) (Js.PStr (Js.lit "3f2a"))
                         sample_form_world (Js.lit " Ada ")
                         (Js.lit "ada@example.org") (Js.lit "12345")
                         eq_refl eq_refl))).
Defined.

(** The shape the load effect does restore: the answer object itself as the
    first element. *)
Example unwrapped_form_is_restored :
  UserInfoForm.formData
    (UserInfoForm.component
       (snd (UserInfoForm.remount 0
               {| UserInfoForm.component := UserInfoForm.initial;
                  UserInfoForm.completedQuestions :=
                    {[ 0 := [UserInfoForm.answerData (Js.lit "Ada")
                               (Js.lit "ada@example.org") (Js.lit "12345")] ]};
                  UserInfoForm.saveCalls := [] |})))
  = {| UserInfoForm.name := UserInfoForm.str (Js.lit "Ada");
       UserInfoForm.email := UserInfoForm.str (Js.lit "ada@example.org");
       UserInfoForm.zipcode := UserInfoForm.str (Js.lit "12345") |}.
Proof. vm_compute. reflexivity. Qed.

(** ** Numbers written and read back *)
Section NumberFacts.
Import Js JsText.

Lemma digit_value_decimal (d : N) :
  (d < 10)%N -> digit_value 10 (48 + d) = Some (Z.of_N d).
Proof.
  intros Hd. unfold digit_value.
  destruct (N.leb_spec 48 (48 + d)); [|lia].
  destruct (N.leb_spec (48 + d) 57); [|lia]. simpl.
  destruct (Z.ltb_spec (Z.of_N (48 + d) - 48) 10); [|lia].
  f_equal. lia.
Qed.

Lemma parse_digits_of (fuel : nat) (n : N) (acc : jsstring) :
  (n < 10 ^ N.of_nat (S fuel))%N ->
  parse_digits 10 (digits_of fuel n acc) None
  = parse_digits 10 acc (Some (Z.of_N n)).
Proof.
  revert n acc. induction fuel as [|fuel IH]; intros n acc Hn.
  - simpl in *. assert (Hlt : (n < 10)%N) by lia.
    rewrite N.mod_small by exact Hlt. rewrite digit_value_decimal by exact Hlt.
    simpl. reflexivity.
  - cbn [digits_of]. destruct (N.ltb_spec n 10) as [Hlt|Hge].
    + cbn [parse_digits]. rewrite N.mod_small by exact Hlt.
      rewrite digit_value_decimal by exact Hlt. simpl. reflexivity.
    + rewrite IH.
      * cbn [parse_digits].
        rewrite digit_value_decimal by (apply N.mod_lt; lia).
        simpl. do 2 f_equal.
        pose proof (N.div_mod n 10 ltac:(lia)). lia.
      * apply N.Div0.div_lt_upper_bound.
        replace (N.of_nat (S (S fuel))) with (N.succ (N.of_nat (S fuel))) in Hn by lia.
        rewrite N.pow_succ_r' in Hn. exact Hn.
Qed.

Lemma digits_of_decimal (fuel : nat) (n : N) (acc : jsstring) :
  Forall (fun c => (48 <= c <= 57)%N) acc ->
  Forall (fun c => (48 <= c <= 57)%N) (digits_of fuel n acc).
Proof.
  revert n acc. induction fuel as [|fuel IH]; intros n acc Hacc; cbn [digits_of].
  - constructor; [|exact Hacc]. pose proof (N.mod_lt n 10 ltac:(lia)) as Hlt.
    clear Hacc. revert Hlt. generalize (n mod 10)%N. intros d Hlt. lia.
  - assert (Hd : Forall (fun c => (48 <= c <= 57)%N) ((48 + n mod 10)%N :: acc)).
    { constructor; [|exact Hacc]. pose proof (N.mod_lt n 10 ltac:(lia)) as Hlt.
      clear Hacc. revert Hlt. generalize (n mod 10)%N. intros d Hlt. lia. }
    destruct (n <? 10)%N; [exact Hd|]. apply IH, Hd.
Qed.

Lemma digits_of_nonempty (fuel : nat) (n : N) (acc : jsstring) :
  digits_of fuel n acc <> [].
Proof.
  revert n acc. induction fuel as [|fuel IH]; intros n acc; cbn [digits_of].
  - discriminate.
  - destruct (n <? 10)%N; [discriminate|apply IH].
Qed.

Lemma log2_fuel (n : N) : (n < 10 ^ N.of_nat (S (N.to_nat (N.log2 n))))%N.
Proof.
  replace (N.of_nat (S (N.to_nat (N.log2 n)))) with (N.succ (N.log2 n)) by lia.
  destruct (N.eq_dec n 0) as [->|Hn]; [reflexivity|].
  apply N.lt_le_trans with (2 ^ N.succ (N.log2 n))%N.
  - apply N.log2_spec. lia.
  - apply N.pow_le_mono_l. lia.
Qed.

(** Reading a string of decimal digits. *)
Lemma parseInt_decimal (s : jsstring) :
  s <> [] -> Forall (fun c => (48 <= c <= 57)%N) s ->
  parseInt s = parse_digits 10 s None.
Proof.
  intros Hne Hs. destruct s as [|c t]; [congruence|].
  apply Forall_cons in Hs as [Hc Ht].
  assert (Hw : isWhiteSpace c = false).
  { apply digit_not_space. unfold Regex.digit.
    apply andb_true_iff. split; apply N.leb_le; lia. }
  unfold parseInt. cbn [trimStart]. rewrite Hw. unfold strip_sign.
  destruct (N.eqb_spec c 45); [lia|]. destruct (N.eqb_spec c 43); [lia|].
  unfold strip_hex_prefix.
  destruct t as [|x t].
  - destruct (parse_digits 10 [c] None); simpl; [f_equal; lia|reflexivity].
  - apply Forall_cons in Ht as [Hx _].
    destruct (N.eqb_spec x 120); [lia|]. destruct (N.eqb_spec x 88); [lia|].
    rewrite andb_false_r.
    destruct (parse_digits 10 (c :: x :: t) None); simpl; [f_equal; lia|reflexivity].
Qed.

Lemma parseInt_N_toString (n : N) : parseInt (N_toString n) = Some (Z.of_N n).
Proof.
  unfold N_toString. rewrite parseInt_decimal.
  - rewrite parse_digits_of by apply log2_fuel. reflexivity.
  - apply digits_of_nonempty.
  - apply digits_of_decimal. constructor.
Qed.

(** [parseInt(n.toString())] is [n]. *)
Lemma parseInt_number_toString (z : Z) : parseInt (number_toString z) = Some z.
Proof.
  destruct z as [|p|p]; unfold number_toString.
  - apply parseInt_N_toString.
  - apply parseInt_N_toString.
  - pose proof (parseInt_N_toString (Npos p)) as Hp.
    unfold N_toString in *.
    assert (Hd := digits_of_decimal (N.to_nat (N.log2 (N.pos p))) (N.pos p) []
                    ltac:(constructor)).
    assert (Hne := digits_of_nonempty (N.to_nat (N.log2 (N.pos p))) (N.pos p) []).
    rewrite (parseInt_decimal _ Hne Hd) in Hp.
    destruct (digits_of _ _ _) as [|c t] eqn:E; [congruence|].
    apply Forall_cons in Hd as [Hc Ht].
    unfold parseInt. cbn [trimStart]. change (isWhiteSpace 45) with false.
    cbn [strip_sign]. change ((45 =? 45)%N) with true. cbv iota.
    unfold strip_hex_prefix.
    destruct t as [|x t].
    + rewrite Hp. reflexivity.
    + apply Forall_cons in Ht as [Hx _].
      destruct (N.eqb_spec x 120); [lia|]. destruct (N.eqb_spec x 88); [lia|].
      rewrite andb_false_r. rewrite Hp. reflexivity.
Qed.

Lemma number_toString_truthy (z : Z) : truthy_string (number_toString z) = true.
Proof.
  destruct z as [|p|p]; unfold number_toString, N_toString; try reflexivity.
  - destruct (digits_of _ _ _) eqn:E; [|reflexivity].
    exfalso. eapply digits_of_nonempty, E.
Qed.

End NumberFacts.


(** ** The Results page and [localStorage] *)
Section StorageFacts.
Import Js JsText Results ResultsStorage.
Variable JSON_stringify : ResultObject -> jsstring.
Variable JSON_parse : jsstring -> option (option ResultObject).
Variable accepts : gmap string jsstring -> string -> jsstring -> bool.

#[local] Abbreviation save := (saveResultsToStorage JSON_stringify accepts).
#[local] Abbreviation load := (loadResultsFromStorage JSON_parse).

Lemma keys_differ : assessmentResults <> resultsTimestamp.
Proof. discriminate. Qed.

(** What is stored once both writes went through. *)
Lemma save_accepted (now : Z) (r : ResultObject) (items : gmap string jsstring) :
  accepts items assessmentResults (JSON_stringify r) = true ->
  accepts (<[assessmentResults := JSON_stringify r]> items) resultsTimestamp
    (number_toString now) = true ->
  save now r items
  = <[resultsTimestamp := number_toString now]>
      (<[assessmentResults := JSON_stringify r]> items).
Proof.
  intros H1 H2. unfold saveResultsToStorage, setItem. rewrite H1, H2. reflexivity.
Qed.

(** What is stored when the time stamp is refused. *)
Lemma save_without_timestamp (now : Z) (r : ResultObject)
    (items : gmap string jsstring) :
  accepts items assessmentResults (JSON_stringify r) = true ->
  accepts (<[assessmentResults := JSON_stringify r]> items) resultsTimestamp
    (number_toString now) = false ->
  save now r items = <[assessmentResults := JSON_stringify r]> items.
Proof.
  intros H1 H2. unfold saveResultsToStorage, setItem. rewrite H1, H2. reflexivity.
Qed.

Lemma too_old_written (now written : Z) :
  too_old now (Some (number_toString written)) = (MAX_AGE <? now - written).
Proof.
  unfold too_old. rewrite number_toString_truthy, parseInt_number_toString.
  reflexivity.
Qed.

Lemma load_recent (now : Z) (items : gmap string jsstring) (text : jsstring)
    (parsed : option ResultObject) :
  too_old now (items !! resultsTimestamp) = false ->
  items !! assessmentResults = Some text -> truthy_string text = true ->
  JSON_parse text = Some parsed ->
  load now items = (parsed, items).
Proof.
  intros Hold Htext Htruthy Hparse. unfold loadResultsFromStorage.
  rewrite Hold, Htext, Htruthy, Hparse. reflexivity.
Qed.

Lemma load_old (now : Z) (items : gmap string jsstring) :
  too_old now (items !! resultsTimestamp) = true ->
  load now items = (None, clearResultsFromStorage items).
Proof. intros Hold. unfold loadResultsFromStorage. rewrite Hold. reflexivity. Qed.

Lemma clear_written (items : gmap string jsstring) (text stamp : jsstring) :
  clearResultsFromStorage
    (<[resultsTimestamp := stamp]> (<[assessmentResults := text]> items))
  = delete resultsTimestamp (delete assessmentResults items).
Proof.
  unfold clearResultsFromStorage.
  rewrite (delete_insert_ne _ assessmentResults resultsTimestamp)
    by (intros E; apply keys_differ; congruence).
  rewrite !delete_insert_eq. reflexivity.
Qed.

End StorageFacts.


(** X17.  Results that arrived with the navigation are shown again when the
    page is opened without them within 24 hours: if both writes to
    [localStorage] went through and [JSON.parse] reads back what
    [JSON.stringify] wrote, the page mounted anew at most [MAX_AGE]
    milliseconds later shows the same results and leaves the store as it
    was. *)
Theorem results_survive_reload :
  forall (JSON_stringify : Results.ResultObject -> Js.jsstring)
         (JSON_parse : Js.jsstring -> option (option Results.ResultObject))
         (accepts : gmap string Js.jsstring -> string -> Js.jsstring -> bool)
         (now1 now2 : Z) (r : Results.ResultObject) (p : ResultsStorage.Page),
    let first := ResultsStorage.load_effect JSON_stringify JSON_parse accepts
                   now1 (Some r) p in
    accepts (ResultsStorage.storage p) ResultsStorage.assessmentResults
      (JSON_stringify r) = true ->
    accepts (<[ResultsStorage.assessmentResults := JSON_stringify r]>
               (ResultsStorage.storage p))
      ResultsStorage.resultsTimestamp (JsText.number_toString now1) = true ->
    Js.truthy_string (JSON_stringify r) = true ->
    JSON_parse (JSON_stringify r) = Some (Some r) ->
    now2 - now1 <= ResultsStorage.MAX_AGE ->
    ResultsStorage.load_effect JSON_stringify JSON_parse accepts now2 None
      (ResultsStorage.fresh (ResultsStorage.storage first))
    = {| ResultsStorage.currentResults := Some r;
         ResultsStorage.storage := ResultsStorage.storage first |}.
Proof.
  intros stringify parse accepts now1 now2 r p first H1 H2 Htruthy Hparse Hage.
  subst first. unfold ResultsStorage.load_effect at 1. cbn [ResultsStorage.fresh
    ResultsStorage.storage ResultsStorage.load_effect].
  rewrite (save_accepted stringify accepts now1 r _ H1 H2).
  rewrite (load_recent parse now2 _ (stringify r) (Some r));
    [reflexivity| | | |exact Hparse].
  - rewrite lookup_insert_eq, too_old_written. apply Z.ltb_ge, Hage.
  - rewrite lookup_insert_ne by (intros E; apply keys_differ; congruence).
    apply lookup_insert_eq.
  - exact Htruthy.
Qed.

Lemma results_survive_reload_witness :
  ResultsStorage.load_effect sample_stringify sample_parse roomy
    (sample_now + 3600000) None
    (ResultsStorage.fresh
       (ResultsStorage.storage
          (ResultsStorage.load_effect sample_stringify sample_parse roomy
             sample_now (Some sample_stored) (ResultsStorage.fresh ∅))))
  = {| ResultsStorage.currentResults := Some sample_stored;
       ResultsStorage.storage :=
         ResultsStorage.storage
           (ResultsStorage.load_effect sample_stringify sample_parse roomy
              sample_now (Some sample_stored) (ResultsStorage.fresh ∅)) |}.
Proof.
  exact (results_survive_reload sample_stringify sample_parse roomy
           sample_now (sample_now + 3600000) sample_stored (ResultsStorage.fresh ∅)
           eq_refl eq_refl eq_refl eq_refl ltac:(vm_compute; discriminate)).
Defined.

(** X18.  Stored results older than 24 hours are purged: when the page is
    opened without results more than [MAX_AGE] milliseconds after they were
    stored, it shows none, and the store is the one from before the results
    came, less the two keys. *)
Theorem old_results_are_purged :
  forall (JSON_stringify : Results.ResultObject -> Js.jsstring)
         (JSON_parse : Js.jsstring -> option (option Results.ResultObject))
         (accepts : gmap string Js.jsstring -> string -> Js.jsstring -> bool)
         (now1 now2 : Z) (r : Results.ResultObject) (p : ResultsStorage.Page),
    let first := ResultsStorage.load_effect JSON_stringify JSON_parse accepts
                   now1 (Some r) p in
    accepts (ResultsStorage.storage p) ResultsStorage.assessmentResults
      (JSON_stringify r) = true ->
    accepts (<[ResultsStorage.assessmentResults := JSON_stringify r]>
               (ResultsStorage.storage p))
      ResultsStorage.resultsTimestamp (JsText.number_toString now1) = true ->
    ResultsStorage.MAX_AGE < now2 - now1 ->
    ResultsStorage.load_effect JSON_stringify JSON_parse accepts now2 None
      (ResultsStorage.fresh (ResultsStorage.storage first))
    = {| ResultsStorage.currentResults := None;
         ResultsStorage.storage :=
           delete ResultsStorage.resultsTimestamp
             (delete ResultsStorage.assessmentResults (ResultsStorage.storage p)) |}.
Proof.
  intros stringify parse accepts now1 now2 r p first H1 H2 Hage.
  subst first. unfold ResultsStorage.load_effect at 1. cbn [ResultsStorage.fresh
    ResultsStorage.storage ResultsStorage.load_effect].
  rewrite (save_accepted stringify accepts now1 r _ H1 H2).
  rewrite load_old.
  - rewrite clear_written. reflexivity.
  - rewrite lookup_insert_eq, too_old_written. apply Z.ltb_lt, Hage.
Qed.

Lemma old_results_are_purged_witness :
  ResultsStorage.load_effect sample_stringify sample_parse roomy
    (sample_now + 90000000) None
    (ResultsStorage.fresh
       (ResultsStorage.storage
          (ResultsStorage.load_effect sample_stringify sample_parse roomy
             sample_now (Some sample_stored) (ResultsStorage.fresh ∅))))
  = {| ResultsStorage.currentResults := None;
       ResultsStorage.storage :=
         delete ResultsStorage.resultsTimestamp
           (delete ResultsStorage.assessmentResults
              (ResultsStorage.storage (ResultsStorage.fresh ∅))) |}.
Proof.
  exact (old_results_are_purged sample_stringify sample_parse roomy
           sample_now (sample_now + 90000000) sample_stored (ResultsStorage.fresh ∅)
           eq_refl eq_refl eq_refl).
Defined.

(** X19.  Results stored without a time stamp never expire: when the write of
    the results goes through but the write of the time stamp is refused, on a
    store that held no time stamp, the page opened without results shows the
    stored ones however much later. *)
Theorem results_without_timestamp_never_expire :
  forall (JSON_stringify : Results.ResultObject -> Js.jsstring)
         (JSON_parse : Js.jsstring -> option (option Results.ResultObject))
         (accepts : gmap string Js.jsstring -> string -> Js.jsstring -> bool)
         (now1 now2 : Z) (r : Results.ResultObject) (p : ResultsStorage.Page),
    let first := ResultsStorage.load_effect JSON_stringify JSON_parse accepts
                   now1 (Some r) p in
    accepts (ResultsStorage.storage p) ResultsStorage.assessmentResults
      (JSON_stringify r) = true ->
    accepts (<[ResultsStorage.assessmentResults := JSON_stringify r]>
               (ResultsStorage.storage p))
      ResultsStorage.resultsTimestamp (JsText.number_toString now1) = false ->
    ResultsStorage.storage p !! ResultsStorage.resultsTimestamp = None ->
    Js.truthy_string (JSON_stringify r) = true ->
    JSON_parse (JSON_stringify r) = Some (Some r) ->
    ResultsStorage.load_effect JSON_stringify JSON_parse accepts now2 None
      (ResultsStorage.fresh (ResultsStorage.storage first))
    = {| ResultsStorage.currentResults := Some r;
         ResultsStorage.storage := ResultsStorage.storage first |}.
Proof.
  intros stringify parse accepts now1 now2 r p first H1 H2 Hnone Htruthy Hparse.
  subst first. unfold ResultsStorage.load_effect at 1. cbn [ResultsStorage.fresh
    ResultsStorage.storage ResultsStorage.load_effect].
  rewrite (save_without_timestamp stringify accepts now1 r _ H1 H2).
  rewrite (load_recent parse now2 _ (stringify r) (Some r));
    [reflexivity| | | |exact Hparse].
  - rewrite lookup_insert_ne by (intros E; apply keys_differ; congruence).
    rewrite Hnone. reflexivity.
  - apply lookup_insert_eq.
  - exact Htruthy.
Qed.

Lemma results_without_timestamp_never_expire_witness :
  ResultsStorage.load_effect sample_stringify sample_parse full_after_results
    (sample_now + 90000000) None
    (ResultsStorage.fresh
       (ResultsStorage.storage
          (ResultsStorage.load_effect sample_stringify sample_parse
             full_after_results sample_now (Some sample_stored)
             (ResultsStorage.fresh ∅))))
  = {| ResultsStorage.currentResults := Some sample_stored;
       ResultsStorage.storage :=
         ResultsStorage.storage
           (ResultsStorage.load_effect sample_stringify sample_parse
              full_after_results sample_now (Some sample_stored)
              (ResultsStorage.fresh ∅)) |}.
Proof.
  exact (results_without_timestamp_never_expire sample_stringify sample_parse
           full_after_results sample_now (sample_now + 90000000) sample_stored
           (ResultsStorage.fresh ∅) eq_refl eq_refl eq_refl eq_refl eq_refl).
Defined.


(** ** Role names through [split] and [trim] *)
Section RoleNameFacts.
Import Js JsText Results RoleNames.





Lemma trimStart_white_space (pad s : jsstring) :
  all_white_space pad = true -> trimStart (pad ++ s) = trimStart s.
Proof.
  induction pad as [|c t IH]; simpl; [reflexivity|].
  intros [Hc Ht]%andb_true_iff. rewrite Hc. apply IH, Ht.
Qed.









End RoleNameFacts.




(** ** The multiple-choice dropdown *)
Section MultiChoiceFacts.
Import Js JsText Regex QuestionnaireUtils CreateNumButtons MultiChoiceDropDown.
Context {K : Type} `{Countable K}.
Variable Number_toString : Z -> jsstring.

Lemma trimStart_nil (x : jsstring) : trimStart x = [] <-> all_white_space x = true.
Proof.
  induction x as [|c t IH]; simpl; [tauto|].
  destruct (isWhiteSpace c); simpl; [exact IH|]. split; discriminate.
Qed.

Lemma trimStart_app (x y : jsstring) :
  trimStart x <> [] -> trimStart (x ++ y) = trimStart x ++ y.
Proof.
  induction x as [|c t IH]; simpl; [congruence|].
  destruct (isWhiteSpace c); [exact IH|reflexivity].
Qed.

Lemma trimEnd_white_space (s w : jsstring) :
  all_white_space w = true -> trimEnd (s ++ w) = trimEnd s.
Proof.
  intros Hw. unfold trimEnd. rewrite rev_app_distr.
  rewrite trimStart_white_space by (apply all_white_space_rev, Hw). reflexivity.
Qed.

Lemma trimEnd_cons (c : N) (t : jsstring) :
  trimEnd (c :: t) = if all_white_space (c :: t) then [] else c :: trimEnd t.
Proof.
  unfold trimEnd. cbn [rev].
  destruct (trimStart (rev t)) as [|d u] eqn:E.
  - assert (Hrev : all_white_space (rev t) = true) by (apply trimStart_nil, E).
    assert (Ht : all_white_space t = true).
    { rewrite <- (rev_involutive t). apply all_white_space_rev, Hrev. }
    rewrite trimStart_white_space by exact Hrev.
    cbn [all_white_space forallb]. fold (all_white_space t). rewrite Ht, andb_true_r.
    simpl. destruct (isWhiteSpace c); reflexivity.
  - rewrite trimStart_app by (rewrite E; discriminate). rewrite E.
    rewrite rev_app_distr. cbn [rev app].
    destruct (all_white_space (c :: t)) eqn:Hw; [|reflexivity].
    exfalso. cbn [all_white_space forallb] in Hw.
    apply andb_true_iff in Hw as [_ Hw]. fold (all_white_space t) in Hw.
    apply all_white_space_rev, trimStart_nil in Hw. congruence.
Qed.

Lemma trimEnd_strips (s : jsstring) :
  exists w, s = trimEnd s ++ w /\ all_white_space w = true.
Proof.
  unfold trimEnd. destruct (trimStart_strips (rev s)) as (w & Hs & Hw).
  exists (rev w). split; [|apply all_white_space_rev, Hw].
  rewrite <- rev_app_distr, <- Hs, rev_involutive. reflexivity.
Qed.

Lemma trim_trimEnd (s : jsstring) : trim (trimEnd s) = trim s.
Proof.
  destruct (trimEnd_strips s) as (w & Hs & Hw). unfold trim.
  rewrite Hs at 2.
  destruct (trimStart (trimEnd s)) as [|d u] eqn:E.
  - apply trimStart_nil in E.
    assert (Hall : all_white_space (trimEnd s ++ w) = true).
    { unfold all_white_space in *. rewrite forallb_app, E, Hw. reflexivity. }
    apply trimStart_nil in Hall. rewrite Hall. reflexivity.
  - rewrite trimStart_app by (rewrite E; discriminate). rewrite E.
    symmetry. apply trimEnd_white_space, Hw.
Qed.

Lemma mark_Matches (x : jsstring) :
  Matches remove_mark x
  <-> exists w1 w2, x = w1 ++ times_sign :: w2
                    /\ all_white_space w1 = true /\ all_white_space w2 = true.
Proof.
  unfold remove_mark. rewrite Matches_Seq. split.
  - intros (w1 & rest & -> & H1 & H2).
    apply Matches_Seq in H2 as (m & w2 & -> & Hm & H2).
    apply Matches_Literal in Hm as ->.
    apply Matches_Star_Class in H1. apply Matches_Star_Class in H2.
    exists w1, w2. auto.
  - intros (w1 & w2 & -> & H1 & H2).
    exists w1, (times_sign :: w2). split; [reflexivity|].
    split; [apply Matches_Star_Class, H1|].
    apply Matches_Seq. exists [times_sign], w2. split; [reflexivity|].
    split; [apply Matches_Literal; reflexivity|apply Matches_Star_Class, H2].
Qed.

(** The mark is not white space, so a text has at most one place where the
    mark is followed by white space only. *)
Lemma mark_position (a b c d : jsstring) :
  a ++ times_sign :: b = c ++ times_sign :: d ->
  all_white_space b = true -> all_white_space d = true -> a = c /\ b = d.
Proof.
  assert (Hno : forall x y : jsstring,
            all_white_space (x ++ times_sign :: y) = true -> False).
  { intros x y Hw. unfold all_white_space in Hw. rewrite forallb_app in Hw.
    apply andb_true_iff in Hw as [_ Hw]. discriminate Hw. }
  revert c. induction a as [|x a IH]; intros c Heq Hb Hd.
  - destruct c as [|y c]; [injection Heq as ->; auto|].
    injection Heq as _ Heq. subst b. exfalso. exact (Hno _ _ Hb).
  - destruct c as [|y c].
    + injection Heq as _ Heq. subst d. exfalso. exact (Hno _ _ Hd).
    + injection Heq as -> Heq. destruct (IH c Heq Hb Hd) as [-> ->]. auto.
Qed.

Lemma test_mark_span (s : jsstring) :
  test remove_mark (s ++ [32; 32; times_sign; 32]%N) = all_white_space s.
Proof.
  apply Bool.eq_iff_eq_true. rewrite test_Matches, mark_Matches. split.
  - intros (w1 & w2 & Heq & H1 & H2).
    change (s ++ [32; 32; times_sign; 32]%N)
      with (s ++ [32; 32]%N ++ times_sign :: [32%N]) in Heq.
    rewrite app_assoc in Heq.
    destruct (mark_position _ _ _ _ Heq eq_refl H2) as [Hw1 _].
    rewrite <- Hw1 in H1. unfold all_white_space in *. rewrite forallb_app in H1.
    apply andb_true_iff in H1 as [H1 _]. exact H1.
  - intros Hs. exists (s ++ [32; 32]%N), [32%N].
    split; [rewrite <- app_assoc; reflexivity|].
    split; [|reflexivity]. unfold all_white_space in *.
    rewrite forallb_app, Hs. reflexivity.
Qed.

(** Cutting the mark off a span's text leaves the item's text without the
    white space at its end. *)
Lemma replace_mark_span (s : jsstring) :
  replace_at_end remove_mark (s ++ [32; 32; times_sign; 32]%N) = trimEnd s.
Proof.
  induction s as [|c t IH].
  - reflexivity.
  - rewrite trimEnd_cons. rewrite <- IH.
    change ((c :: t) ++ [32; 32; times_sign; 32]%N)
      with (c :: (t ++ [32; 32; times_sign; 32]%N)).
    cbn [replace_at_end].
    change (c :: (t ++ [32; 32; times_sign; 32]%N))
      with ((c :: t) ++ [32; 32; times_sign; 32]%N).
    rewrite test_mark_span. reflexivity.
Qed.

Lemma clicked_text (item : prim) :
  trim (replace_at_end remove_mark (span_text Number_toString item))
  = trim (toString Number_toString item).
Proof. unfold span_text. rewrite replace_mark_span. apply trim_trimEnd. Qed.

(** What the two effects leave after [choice] changed. *)
Lemma settle_selected (data : Data K) (sid : prim) (w : World K) :
  choice w <> [] ->
  settle Number_toString data sid w
  = {| completedQuestions := <[id data := choice w]> (completedQuestions w);
       choice := choice w;
       isOpen := isOpen w;
       saveCalls :=
         saveCalls w
         ++ [{| call_sessionId := sid; call_questionId := id data;
                call_answer :=
                  PStr (join_values Number_toString (lit ", ") (choice w));
                call_question := question data |}] |}.
Proof.
  intros Hne. unfold settle, choice_effect.
  destruct (choice w) as [|v rest] eqn:E; [congruence|].
  unfold load_effect, setCompletedQuestionsMulti, world_saveAnswer,
    world_setCompletedQuestions, world_setChoice.
  cbn [completedQuestions choice isOpen saveCalls].
  rewrite lookup_insert_eq. reflexivity.
Qed.

Lemma settle_emptied (data : Data K) (sid : prim) (w : World K) :
  choice w = [] ->
  settle Number_toString data sid w
  = {| completedQuestions := delete (id data) (completedQuestions w);
       choice := [];
       isOpen := isOpen w;
       saveCalls := saveCalls w |}.
Proof.
  intros E. unfold settle, choice_effect. rewrite E.
  unfold removeCompletedQuestion, load_effect.
  destruct (decide (id data ∈ dom (completedQuestions w))) as [Hin|Hout].
  - unfold world_setCompletedQuestions.
    cbn [completedQuestions choice isOpen saveCalls].
    rewrite lookup_delete_eq, E. reflexivity.
  - apply not_elem_of_dom in Hout. rewrite Hout.
    rewrite delete_id by exact Hout. destruct w; simpl in *. congruence.
Qed.

Lemma settle_entry (data : Data K) (sid : prim) (w : World K) :
  completedQuestions (settle Number_toString data sid w) !! id data
  = match choice (settle Number_toString data sid w) with
    | [] => None
    | _ :: _ => Some (choice (settle Number_toString data sid w))
    end
  /\ forall k, k <> id data ->
       completedQuestions (settle Number_toString data sid w) !! k
       = completedQuestions w !! k.
Proof.
  destruct (choice w) as [|v rest] eqn:E.
  - rewrite (settle_emptied data sid w E).
    cbn [completedQuestions choice]. split; [apply lookup_delete_eq|].
    intros k Hk. apply lookup_delete_ne. congruence.
  - rewrite (settle_selected data sid w) by (rewrite E; discriminate).
    cbn [completedQuestions choice]. rewrite E. split; [apply lookup_insert_eq|].
    intros k Hk. apply lookup_insert_ne. congruence.
Qed.

Lemma click_entry (data : Data K) (sid : prim) (c : Click) (w : World K) :
  completedQuestions (click Number_toString data sid c w) !! id data
  = match choice (click Number_toString data sid c w) with
    | [] => None
    | _ :: _ => Some (choice (click Number_toString data sid c w))
    end
  /\ forall k, k <> id data ->
       completedQuestions (click Number_toString data sid c w) !! k
       = completedQuestions w !! k.
Proof.
  destruct c as [option|item]; cbn [click].
  - exact (settle_entry data sid (handleOptionClick world_setChoice option w)).
  - exact (settle_entry data sid
             (handleSpanClick Number_toString world_setChoice world_setIsOpen
                (choice w) item w)).
Qed.

Lemma click_remove_choice (data : Data K) (sid : prim) (item : prim) (w : World K) :
  choice (click Number_toString data sid (Remove item) w)
  = remaining (trim (toString Number_toString item)) (choice w).
Proof.
  cbn [click]. set (w1 := handleSpanClick _ _ _ _ _ _).
  assert (Hw1 : choice w1
                = remaining (trim (toString Number_toString item)) (choice w)).
  { subst w1. unfold handleSpanClick, handleRemoveOnClick. rewrite clicked_text.
    reflexivity. }
  destruct (choice w1) as [|v rest] eqn:E.
  - rewrite (settle_emptied data sid w1 E). cbn [choice]. exact Hw1.
  - rewrite (settle_selected data sid w1) by (rewrite E; discriminate).
    cbn [choice]. rewrite E. exact Hw1.
Qed.

End MultiChoiceFacts.

Section MultiChoiceClickFacts.
Import Js MultiChoiceDropDown.
Context {K : Type} `{Countable K}.
Variable Number_toString : Z -> jsstring.

Lemma clicks_frame (data : CreateNumButtons.Data K) (sid : prim) (cs : list Click)
    (w : World K) (k : K) :
  k <> CreateNumButtons.id data ->
  completedQuestions (clicks Number_toString data sid cs w) !! k
  = completedQuestions w !! k.
Proof.
  intros Hk. unfold clicks. revert w. induction cs as [|c cs IH]; intros w.
  - reflexivity.
  - cbn [fold_left]. rewrite IH.
    apply (click_entry Number_toString data sid c w), Hk.
Qed.

End MultiChoiceClickFacts.

(** X21.  A click on a listed option of the multiple-choice dropdown appends
    the option to the selection, whether or not it is selected already; the
    whole selection is then stored under the question and sent in one save,
    joined by a comma and a space.  Numbers among the items are written as
    [Number.prototype.toString] writes them, whatever that is. *)
Theorem picked_option_is_appended :
  forall (Number_toString : Z -> Js.jsstring)
         (data : CreateNumButtons.Data Z) (sid option : Js.prim)
         (w : MultiChoiceDropDown.World Z),
    MultiChoiceDropDown.click Number_toString data sid
      (MultiChoiceDropDown.Pick option) w
    = {| MultiChoiceDropDown.completedQuestions :=
           <[CreateNumButtons.id data := MultiChoiceDropDown.choice w ++ [option]]>
             (MultiChoiceDropDown.completedQuestions w);
         MultiChoiceDropDown.choice := MultiChoiceDropDown.choice w ++ [option];
         MultiChoiceDropDown.isOpen := MultiChoiceDropDown.isOpen w;
         MultiChoiceDropDown.saveCalls :=
           MultiChoiceDropDown.saveCalls w
           ++ [{| CreateNumButtons.call_sessionId := sid;
                  CreateNumButtons.call_questionId := CreateNumButtons.id data;
                  CreateNumButtons.call_answer :=
                    Js.PStr (MultiChoiceDropDown.join_values Number_toString
                               (Js.lit ", ")
                               (MultiChoiceDropDown.choice w ++ [option]));
                  CreateNumButtons.call_question :=
                    CreateNumButtons.question data |}] |}.
Proof.
  intros Number_toString data sid option w. cbn [MultiChoiceDropDown.click].
  rewrite settle_selected; [reflexivity|].
  unfold MultiChoiceDropDown.handleOptionClick, MultiChoiceDropDown.world_setChoice.
  cbn [MultiChoiceDropDown.choice]. intros E. apply app_eq_nil in E as [_ E].
  discriminate E.
Qed.

(** X22.  A click on the mark of a selected item keeps the items that differ
    from the item's trimmed text.  When none is left the question's entry is
    deleted and no save is sent; otherwise what is left is stored and sent in
    one save.  The list is closed either way.  Numbers among the items are
    written as [Number.prototype.toString] writes them, whatever that is. *)
Theorem removing_the_last_item_sends_no_save :
  forall (Number_toString : Z -> Js.jsstring)
         (data : CreateNumButtons.Data Z) (sid item : Js.prim)
         (w : MultiChoiceDropDown.World Z),
    let left := MultiChoiceDropDown.remaining
                  (Js.trim (MultiChoiceDropDown.toString Number_toString item))
                  (MultiChoiceDropDown.choice w) in
    MultiChoiceDropDown.click Number_toString data sid
      (MultiChoiceDropDown.Remove item) w
    = match left with
      | [] =>
          {| MultiChoiceDropDown.completedQuestions :=
               delete (CreateNumButtons.id data)
                 (MultiChoiceDropDown.completedQuestions w);
             MultiChoiceDropDown.choice := [];
             MultiChoiceDropDown.isOpen := false;
             MultiChoiceDropDown.saveCalls := MultiChoiceDropDown.saveCalls w |}
      | _ :: _ =>
          {| MultiChoiceDropDown.completedQuestions :=
               <[CreateNumButtons.id data := left]>
                 (MultiChoiceDropDown.completedQuestions w);
             MultiChoiceDropDown.choice := left;
             MultiChoiceDropDown.isOpen := false;
             MultiChoiceDropDown.saveCalls :=
               MultiChoiceDropDown.saveCalls w
               ++ [{| CreateNumButtons.call_sessionId := sid;
                      CreateNumButtons.call_questionId := CreateNumButtons.id data;
                      CreateNumButtons.call_answer :=
                        Js.PStr (MultiChoiceDropDown.join_values Number_toString
                                   (Js.lit ", ") left);
                      CreateNumButtons.call_question :=
                        CreateNumButtons.question data |}] |}
      end.
Proof.
  intros Number_toString data sid item w left. cbn [MultiChoiceDropDown.click].
  set (w1 := MultiChoiceDropDown.handleSpanClick _ _ _ _ _ _).
  assert (Hw1 : MultiChoiceDropDown.choice w1 = left).
  { subst w1 left. unfold MultiChoiceDropDown.handleSpanClick,
      MultiChoiceDropDown.handleRemoveOnClick.
    rewrite clicked_text. reflexivity. }
  destruct left as [|v rest].
  - rewrite (settle_emptied Number_toString data sid w1 Hw1). reflexivity.
  - rewrite (settle_selected Number_toString data sid w1)
      by (rewrite Hw1; discriminate).
    rewrite Hw1. reflexivity.
Qed.

(** X23.  The mark of a selected item removes the item exactly when the item
    is a string without white space at its ends: any other item stays
    selected after the click. *)
Theorem mark_removes_trimmed_strings_only :
  forall (Number_toString : Z -> Js.jsstring)
         (data : CreateNumButtons.Data Z) (sid item : Js.prim)
         (w : MultiChoiceDropDown.World Z),
    item ∈ MultiChoiceDropDown.choice w ->
    (item ∉ MultiChoiceDropDown.choice
              (MultiChoiceDropDown.click Number_toString data sid
                 (MultiChoiceDropDown.Remove item) w)
     <-> item = Js.PStr (Js.trim (MultiChoiceDropDown.toString Number_toString item))).
Proof.
  intros Number_toString data sid item w Hin. rewrite click_remove_choice.
  unfold MultiChoiceDropDown.remaining. rewrite list_elem_of_filter. split.
  - intros Hout.
    destruct (Js.prim_eq_dec item
                (Js.PStr (Js.trim (MultiChoiceDropDown.toString Number_toString item))))
      as [Heq|Hne]; [exact Heq|].
    exfalso. apply Hout. split; [exact Hne|exact Hin].
  - intros Heq [Hne _]. apply Hne, Heq.
Qed.

Lemma mark_removes_trimmed_strings_only_witness :
  Js.PStr (Js.lit "Friday")
  ∉ MultiChoiceDropDown.choice
      (MultiChoiceDropDown.click JsText.number_toString sample_multi_data
         (Js.PStr (Js.lit "3f2a"))
         (MultiChoiceDropDown.Remove (Js.PStr (Js.lit "Friday"))) sample_multi).
Proof.
  exact (proj2 (mark_removes_trimmed_strings_only JsText.number_toString
                  sample_multi_data
                  (Js.PStr (Js.lit "3f2a")) (Js.PStr (Js.lit "Friday"))
                  sample_multi ltac:(constructor))
           eq_refl).
Defined.

(** X24.  After any click on the multiple-choice dropdown, or any series of
    clicks, the question's entry in [completedQuestions] is the selection
    shown, and is absent when nothing is selected; the entries of the other
    questions are as before. *)
Theorem entry_follows_selection :
  forall (Number_toString : Z -> Js.jsstring)
         (data : CreateNumButtons.Data Z) (sid : Js.prim)
         (cs : list MultiChoiceDropDown.Click) (w : MultiChoiceDropDown.World Z),
    let after := MultiChoiceDropDown.clicks Number_toString data sid cs w in
    cs <> [] ->
    MultiChoiceDropDown.completedQuestions after !! CreateNumButtons.id data
    = match MultiChoiceDropDown.choice after with
      | [] => None
      | _ :: _ => Some (MultiChoiceDropDown.choice after)
      end
    /\ forall k : Z, k <> CreateNumButtons.id data ->
         MultiChoiceDropDown.completedQuestions after !! k
         = MultiChoiceDropDown.completedQuestions w !! k.
Proof.
  intros Number_toString data sid cs w after Hne. subst after. split.
  - destruct (exists_last Hne) as (front & c & ->).
    unfold MultiChoiceDropDown.clicks. rewrite fold_left_app. cbn [fold_left].
    apply click_entry.
  - intros k Hk. apply clicks_frame, Hk.
Qed.

Lemma entry_follows_selection_witness :
  MultiChoiceDropDown.completedQuestions
    (MultiChoiceDropDown.clicks JsText.number_toString sample_multi_data
       (Js.PStr (Js.lit "3f2a"))
       [MultiChoiceDropDown.Pick (Js.PStr (Js.lit "Saturday"));
        MultiChoiceDropDown.Remove (Js.PStr (Js.lit "Friday"))] sample_multi)
    !! 7
  = match MultiChoiceDropDown.choice
            (MultiChoiceDropDown.clicks JsText.number_toString sample_multi_data
               (Js.PStr (Js.lit "3f2a"))
               [MultiChoiceDropDown.Pick (Js.PStr (Js.lit "Saturday"));
                MultiChoiceDropDown.Remove (Js.PStr (Js.lit "Friday"))] sample_multi)
    with
    | [] => None
    | _ :: _ =>
        Some (MultiChoiceDropDown.choice
                (MultiChoiceDropDown.clicks JsText.number_toString
                   sample_multi_data (Js.PStr (Js.lit "3f2a"))
                   [MultiChoiceDropDown.Pick (Js.PStr (Js.lit "Saturday"));
                    MultiChoiceDropDown.Remove (Js.PStr (Js.lit "Friday"))]
                   sample_multi))
    end.
Proof.
  exact (proj1 (entry_follows_selection JsText.number_toString sample_multi_data
                  (Js.PStr (Js.lit "3f2a"))
                  [MultiChoiceDropDown.Pick (Js.PStr (Js.lit "Saturday"));
                   MultiChoiceDropDown.Remove (Js.PStr (Js.lit "Friday"))]
                  sample_multi ltac:(discriminate))).
Defined.

Example friday_sunday_then_saturday_less_friday :
  MultiChoiceDropDown.choice
    (MultiChoiceDropDown.clicks JsText.number_toString sample_multi_data
       (Js.PStr (Js.lit "3f2a"))
       [MultiChoiceDropDown.Pick (Js.PStr (Js.lit "Saturday"));
        MultiChoiceDropDown.Remove (Js.PStr (Js.lit "Friday"))] sample_multi)
  = [Js.PStr (Js.lit "Sunday"); Js.PStr (Js.lit "Saturday")].
Proof. vm_compute. reflexivity. Qed.

Example picking_friday_again_saves_it_twice :
  CreateNumButtons.call_answer
    <$> MultiChoiceDropDown.saveCalls
          (MultiChoiceDropDown.click JsText.number_toString sample_multi_data
             (Js.PStr (Js.lit "3f2a"))
             (MultiChoiceDropDown.Pick (Js.PStr (Js.lit "Friday"))) sample_multi)
  = [Js.PStr (Js.lit "Friday, Sunday, Friday")].
Proof. vm_compute. reflexivity. Qed.

(** ** The admin page *)
Section AdminFacts.
Import Js Eff AdminUpload.

Lemma kinds_differ : match_data <> role_links.
Proof. discriminate. Qed.

Lemma log_line_prefix String_ (fileType : jsstring) (data : json) (k : string)
    (s : State) :
  data <> JNull ->
  exists line,
    setResponse (log_line String_ fileType data k) s
    = setResponse (fun prev => Normal (prev ++ [10; 32]%N ++ fileType ++ line)) s.
Proof.
  intros Hdata. unfold setResponse, log_line, read.
  destruct data; try congruence; simpl; eexists; reflexivity.
Qed.

End AdminFacts.

(** X25.  [handleLogin] never throws and always ends with [loading] false and
    the picked files untouched.  It logs in only on an OK response whose body
    parses to something other than [null]: the token and expiry are then the
    body's [session_token] and [expires_at], whatever they are, the password
    is cleared and no alert is shown.  In every other case the token, expiry,
    password and log are unchanged and exactly one alert is shown: the
    body's [error], or "Login failed" when that is falsy, for a refusal; the
    bare "Login failed: " when the request fails, the body does not parse or
    is [null]. *)
Theorem login_outcomes :
  forall (net : Js.jsstring -> Eff.FetchOutcome) (s : AdminUpload.State),
    let r := AdminUpload.handleLogin net s in
    let alerted message :=
      {| AdminUpload.password := AdminUpload.password s;
         AdminUpload.sessionToken := AdminUpload.sessionToken s;
         AdminUpload.sessionExpires := AdminUpload.sessionExpires s;
         AdminUpload.matchFile := AdminUpload.matchFile s;
         AdminUpload.roleFile := AdminUpload.roleFile s;
         AdminUpload.response := AdminUpload.response s;
         AdminUpload.loading := false;
         AdminUpload.alerts := AdminUpload.alerts s ++ [message];
         AdminUpload.renderError := AdminUpload.renderError s |} in
    fst r = Eff.Normal tt
    /\ ((exists res data session_token expires_at,
            net (AdminUpload.password s) = Eff.Resolved res
            /\ Eff.ok res = true /\ Eff.body res = Some data
            /\ AdminUpload.read data "session_token" = Eff.Normal session_token
            /\ AdminUpload.read data "expires_at" = Eff.Normal expires_at
            /\ snd r
               = {| AdminUpload.password := [];
                    AdminUpload.sessionToken := session_token;
                    AdminUpload.sessionExpires := expires_at;
                    AdminUpload.matchFile := AdminUpload.matchFile s;
                    AdminUpload.roleFile := AdminUpload.roleFile s;
                    AdminUpload.response := Js.lit "Login successful!";
                    AdminUpload.loading := false;
                    AdminUpload.alerts := AdminUpload.alerts s;
                    AdminUpload.renderError := AdminUpload.renderError s |})
        \/ (exists res data error,
              net (AdminUpload.password s) = Eff.Resolved res
              /\ Eff.ok res = false /\ Eff.body res = Some data
              /\ AdminUpload.read data "error" = Eff.Normal error
              /\ snd r = alerted (Js.or Js.truthy error
                                    (AdminUpload.text "Login failed")))
        \/ ((net (AdminUpload.password s) = Eff.Rejected
             \/ exists res, net (AdminUpload.password s) = Eff.Resolved res
                            /\ (Eff.body res = None \/ Eff.body res = Some Js.JNull))
            /\ snd r = alerted (AdminUpload.text "Login failed: "))).
Proof.
  intros net s r alerted. subst r alerted. unfold AdminUpload.handleLogin.
  destruct (net (AdminUpload.password s)) as [|[okb st [data|]]] eqn:Hnet.
  - split; [reflexivity|]. right. right. split; [left; reflexivity|reflexivity].
  - destruct okb.
    + destruct data;
        try (split; [reflexivity|]; left; do 4 eexists;
             repeat (split; [reflexivity|]); reflexivity).
      split; [reflexivity|]. right. right.
      split; [right; eexists; split; [reflexivity|right; reflexivity]|reflexivity].
    + destruct data;
        try (split; [reflexivity|]; right; left; do 3 eexists;
             repeat (split; [reflexivity|]); reflexivity).
      split; [reflexivity|]. right. right.
      split; [right; eexists; split; [reflexivity|right; reflexivity]|reflexivity].
  - split; [reflexivity|]. right. right.
    split; [right; eexists; split; [reflexivity|left; reflexivity]|reflexivity].
Qed.


Section UploadFacts.
Import Js Eff AdminUpload.
Variable String_ : value -> jsstring.
Variable message : exn -> jsstring.
Variable net : UploadRequest -> FetchOutcome.

(** The selection of [kind] cleared. *)
#[local] Abbreviation cleared kind s :=
  (match kind with
   | MatchData => setMatchFile None s
   | RoleLinks => setRoleFile None s
   end).

Lemma upload_not_csv (kind : Kind) (s : State) (f : File) :
  selected kind s = Some f -> endsWith (lit ".csv") (file_name f) = false ->
  clickUpload String_ message net kind s
  = (Normal tt, alert (text "Only CSV files are allowed") s).
Proof.
  intros Hsel Hcsv. unfold clickUpload, uploadFile. rewrite Hsel, Hcsv. reflexivity.
Qed.

Lemma upload_accepted (kind : Kind) (s : State) (f : File) res data :
  selected kind s = Some f -> endsWith (lit ".csv") (file_name f) = true ->
  net (upload_request kind f s) = Resolved res -> ok res = true ->
  body res = Some data ->
  clickUpload String_ message net kind s
  = (Normal tt,
     setLoading false
       (cleared kind
          (setResponse (log_line String_ (kind_name kind) data "message")
             (setLoading true s)))).
Proof.
  intros Hsel Hcsv Hnet Hok Hbody. unfold clickUpload, uploadFile.
  rewrite Hsel, Hcsv. unfold upload_request in Hnet.
  unfold bind, try_finally, try_catch, modify, fetch at 1. cbn [negb].
  cbn [sessionToken setLoading]. rewrite Hnet.
  unfold ret, response_json. rewrite Hbody, Hok.
  destruct kind; cbn [kind_name];
    rewrite ?(bool_decide_eq_true_2 _ (eq_refl match_data)),
      ?(bool_decide_eq_true_2 _ (eq_refl role_links)),
      ?(bool_decide_eq_false_2 _ kinds_differ),
      ?(bool_decide_eq_false_2 _ (not_eq_sym kinds_differ));
    reflexivity.
Qed.

Lemma upload_refused (kind : Kind) (s : State) (f : File) res data :
  selected kind s = Some f -> endsWith (lit ".csv") (file_name f) = true ->
  net (upload_request kind f s) = Resolved res -> ok res = false ->
  body res = Some data ->
  clickUpload String_ message net kind s
  = (Normal tt,
     setLoading false
       (setResponse (log_line String_ (kind_name kind) data "error")
          (setLoading true s))).
Proof.
  intros Hsel Hcsv Hnet Hok Hbody. unfold clickUpload, uploadFile.
  rewrite Hsel, Hcsv. unfold upload_request in Hnet.
  unfold bind, try_finally, try_catch, modify, fetch at 1. cbn [negb].
  cbn [sessionToken setLoading]. rewrite Hnet.
  unfold ret, response_json. rewrite Hbody, Hok. reflexivity.
Qed.

Lemma upload_failed (kind : Kind) (s : State) (f : File) :
  selected kind s = Some f -> endsWith (lit ".csv") (file_name f) = true ->
  (net (upload_request kind f s) = Rejected
   \/ exists res, net (upload_request kind f s) = Resolved res /\ body res = None) ->
  exists err,
    clickUpload String_ message net kind s
    = (Normal tt,
       setLoading false
         (setResponse (failure_line message (kind_name kind) err)
            (setLoading true s))).
Proof.
  intros Hsel Hcsv Hnet. unfold clickUpload, uploadFile.
  rewrite Hsel, Hcsv. unfold upload_request in Hnet.
  unfold bind, try_finally, try_catch, modify, fetch at 1. cbn [negb].
  cbn [sessionToken setLoading].
  destruct Hnet as [Hnet|(res & Hnet & Hbody)]; rewrite Hnet.
  - exists NetworkError. reflexivity.
  - exists SyntaxError. unfold ret, response_json. rewrite Hbody. reflexivity.
Qed.

End UploadFacts.


(** X26.  A click on an enabled upload button never throws, leaves the
    session, the password and the other button's file alone, and ends with
    [loading] false.  The picked file is cleared exactly when its name ends in
    [.csv] and the server answers OK with a body that parses; any other
    outcome keeps it picked.  A name without that ending sends nothing and
    only shows one alert.  Otherwise no alert is shown and the log grows by
    one line behind what it held -- unless the body is [null], where the log
    line cannot be built and the next render fails with a [TypeError]. *)
Theorem upload_outcomes :
  forall (String_ : Js.value -> Js.jsstring) (message : Eff.exn -> Js.jsstring)
         (net : AdminUpload.UploadRequest -> Eff.FetchOutcome)
         (kind : AdminUpload.Kind) (s : AdminUpload.State) (f : AdminUpload.File),
    AdminUpload.selected kind s = Some f ->
    AdminUpload.loading s = false ->
    let r := AdminUpload.clickUpload String_ message net kind s in
    let csv := AdminUpload.endsWith (Js.lit ".csv") (AdminUpload.file_name f) in
    let answer := net (AdminUpload.upload_request kind f s) in
    fst r = Eff.Normal tt
    /\ AdminUpload.password (snd r) = AdminUpload.password s
    /\ AdminUpload.sessionToken (snd r) = AdminUpload.sessionToken s
    /\ AdminUpload.sessionExpires (snd r) = AdminUpload.sessionExpires s
    /\ AdminUpload.loading (snd r) = false
    /\ (forall other, other <> kind ->
          AdminUpload.selected other (snd r) = AdminUpload.selected other s)
    /\ (AdminUpload.selected kind (snd r) = None
        <-> csv = true
            /\ exists res data,
                 answer = Eff.Resolved res /\ Eff.ok res = true
                 /\ Eff.body res = Some data)
    /\ (csv = false ->
        snd r = AdminUpload.alert (AdminUpload.text "Only CSV files are allowed") s)
    /\ (csv = true ->
        AdminUpload.alerts (snd r) = AdminUpload.alerts s
        /\ ((exists line,
               AdminUpload.response (snd r)
               = AdminUpload.response s ++ [10; 32]%N
                 ++ AdminUpload.kind_name kind ++ line
               /\ AdminUpload.renderError (snd r) = AdminUpload.renderError s)
            \/ (exists res,
                  answer = Eff.Resolved res /\ Eff.body res = Some Js.JNull
                  /\ AdminUpload.response (snd r) = AdminUpload.response s
                  /\ AdminUpload.renderError (snd r) = Some Eff.TypeError))).
Proof.
  intros String_ message net kind s f Hsel Hload r csv answer.
  subst r csv answer.
  assert (Hkept : forall t : AdminUpload.State,
            AdminUpload.matchFile t = AdminUpload.matchFile s ->
            AdminUpload.roleFile t = AdminUpload.roleFile s ->
            AdminUpload.selected kind t <> None).
  { intros t Hm Hr. destruct kind; simpl in *; congruence. }
  destruct (AdminUpload.endsWith (Js.lit ".csv") (AdminUpload.file_name f)) eqn:Hcsv.
  2:{ rewrite (upload_not_csv String_ message net kind s f Hsel Hcsv).
      cbn [fst snd]. do 5 (split; [first [reflexivity|exact Hload]|]).
      split; [intros other _; destruct other; reflexivity|].
      split; [|split; [reflexivity|discriminate]].
      split; [intros E; exfalso; revert E; apply Hkept; reflexivity|].
      intros [E _]. discriminate E. }
  destruct (net (AdminUpload.upload_request kind f s)) as [|[okb st [data|]]] eqn:Hnet.
  - destruct (upload_failed String_ message net kind s f Hsel Hcsv
                (or_introl Hnet)) as [err ->].
    cbn [fst snd]. do 5 (split; [reflexivity|]).
    split; [intros other _; destruct other; reflexivity|].
    split; [|split; [discriminate|intros _; split; [reflexivity|]]].
    + split; [intros E; exfalso; revert E; apply Hkept; reflexivity|].
      intros (_ & res & data & E & _). discriminate E.
    + left. eexists. split; reflexivity.
  - destruct okb.
    + rewrite (upload_accepted String_ message net kind s f _ data Hsel Hcsv Hnet
                 eq_refl eq_refl).
      cbn [fst snd].
      assert (Hdata : data = Js.JNull \/ data <> Js.JNull)
        by (destruct data; auto; right; discriminate).
      split; [reflexivity|].
      destruct Hdata as [->|Hdata].
      * do 4 (split; [destruct kind; reflexivity|]).
        split; [intros other Ho; destruct other, kind; simpl; congruence|].
        split; [|split; [discriminate|intros _; split; [destruct kind; reflexivity|]]].
        -- split; [intros _; split; [reflexivity|do 2 eexists; repeat split; reflexivity]|].
           intros _. destruct kind; reflexivity.
        -- right. eexists. split; [reflexivity|]. split; [reflexivity|].
           destruct kind; split; reflexivity.
      * destruct (log_line_prefix String_ (AdminUpload.kind_name kind) data "message"
                    (AdminUpload.setLoading true s) Hdata) as [line ->].
        do 4 (split; [destruct kind; reflexivity|]).
        split; [intros other Ho; destruct other, kind; simpl; congruence|].
        split; [|split; [discriminate|intros _; split; [destruct kind; reflexivity|]]].
        -- split; [intros _; split; [reflexivity|do 2 eexists; repeat split; reflexivity]|].
           intros _. destruct kind; reflexivity.
        -- left. exists line. destruct kind; split; reflexivity.
    + rewrite (upload_refused String_ message net kind s f _ data Hsel Hcsv Hnet
                 eq_refl eq_refl).
      cbn [fst snd].
      assert (Hdata : data = Js.JNull \/ data <> Js.JNull)
        by (destruct data; auto; right; discriminate).
      split; [reflexivity|].
      assert (Hiff : forall t : AdminUpload.State,
                AdminUpload.matchFile t = AdminUpload.matchFile s ->
                AdminUpload.roleFile t = AdminUpload.roleFile s ->
                AdminUpload.selected kind t = None
                <-> true = true
                    /\ exists res d,
                         Eff.Resolved {| Eff.ok := false; Eff.status := st;
                                         Eff.body := Some data |} = Eff.Resolved res
                         /\ Eff.ok res = true /\ Eff.body res = Some d).
      { intros t Hm Hr. split; [intros E; exfalso; revert E; apply Hkept; assumption|].
        intros (_ & res & d & E & Hok & _). injection E as <-. discriminate Hok. }
      destruct Hdata as [->|Hdata].
      * do 4 (split; [reflexivity|]).
        split; [intros other Ho; destruct other; reflexivity|].
        split; [apply Hiff; reflexivity|].
        split; [discriminate|intros _; split; [reflexivity|]].
        right. eexists. repeat split; reflexivity.
      * destruct (log_line_prefix String_ (AdminUpload.kind_name kind) data "error"
                    (AdminUpload.setLoading true s) Hdata) as [line ->].
        do 4 (split; [reflexivity|]).
        split; [intros other Ho; destruct other; reflexivity|].
        split; [apply Hiff; reflexivity|].
        split; [discriminate|intros _; split; [reflexivity|]].
        left. exists line. split; reflexivity.
  - destruct (upload_failed String_ message net kind s f Hsel Hcsv
                (or_intror (ex_intro _ _ (conj Hnet eq_refl)))) as [err ->].
    cbn [fst snd]. do 5 (split; [reflexivity|]).
    split; [intros other _; destruct other; reflexivity|].
    split; [|split; [discriminate|intros _; split; [reflexivity|]]].
    + split; [intros E; exfalso; revert E; apply Hkept; reflexivity|].
      intros (_ & res & data & E & _ & Hbody). injection E as <-. discriminate Hbody.
    + left. eexists. split; reflexivity.
Qed.

Lemma upload_outcomes_witness :
  AdminUpload.selected AdminUpload.MatchData
    (snd (AdminUpload.clickUpload sample_String sample_message upload_taken
            AdminUpload.MatchData sample_admin))
  = None.
Proof.
  exact (proj2 (proj1 (proj2 (proj2 (proj2 (proj2 (proj2 (proj2
           (upload_outcomes sample_String sample_message upload_taken
              AdminUpload.MatchData sample_admin
              {| AdminUpload.file_name := Js.lit "matches.csv" |}
              eq_refl eq_refl))))))))
           (conj eq_refl
              (ex_intro _ _ (ex_intro _ _ (conj eq_refl (conj eq_refl eq_refl)))))).
Defined.

Example upload_logs_the_message :
  AdminUpload.response
    (snd (AdminUpload.clickUpload sample_String sample_message upload_taken
            AdminUpload.MatchData sample_admin))
  = [10; 32]%N ++ Js.lit "Match Data: 12 rows loaded".
Proof. vm_compute. reflexivity. Qed.


(** ** Loading the question *)
Section FetchFacts.
Import Js Eff Questionnaire QuestionnaireData.

(** The two ways a call of [fetchData] ends. *)
Lemma fetchData_cases (net : Z -> FetchOutcome) (s : State) :
  (fetch_fails (net (questionId s))
   /\ fetchData net s = (Normal tt, setError (Some fetch_failure) s))
  \/ (exists result, fetchData net s = (Normal tt, setData (Json result) s)).
Proof.
  unfold fetchData, fetch_fails.
  destruct (net (questionId s)) as [|[okb st [result|]]] eqn:Hnet.
  - left. split; [left; reflexivity|]. unfold try_catch, bind, fetch. simpl.
    reflexivity.
  - destruct okb.
    + right. exists result. reflexivity.
    + left. split; [right; eexists; split; [reflexivity|left; reflexivity]|].
      reflexivity.
  - left. split; [right; eexists; split; [reflexivity|right; reflexivity]|].
    destruct okb; reflexivity.
Qed.

Lemma fetchData_failed (net : Z -> FetchOutcome) (s : State) :
  fetch_fails (net (questionId s)) ->
  fetchData net s = (Normal tt, setError (Some fetch_failure) s).
Proof.
  intros Hfail. unfold fetchData.
  destruct Hfail as [->|(r & -> & [Hok|Hbody])].
  - reflexivity.
  - destruct r as [okb st bd]. simpl in Hok. subst okb. reflexivity.
  - destruct r as [okb st bd]. simpl in Hbody. subst bd. destruct okb; reflexivity.
Qed.

Lemma press_error b (s : State) : error (NavigationButtons.press b s) = error s.
Proof.
  destruct b; simpl.
  - destruct (NavigationButtons.showsNext (questionId s)); [|reflexivity].
    unfold NavigationMenu.clickNext, NavigationMenu.handleNextClick.
    destruct (_ && _); reflexivity.
  - destruct (NavigationButtons.showsBack (questionId s)); [|reflexivity].
    unfold NavigationMenu.clickBack, NavigationMenu.handleBackClick.
    destruct (_ && _); reflexivity.
Qed.

Lemma press_data b (s : State) : data (NavigationButtons.press b s) = data s.
Proof.
  destruct b; simpl.
  - destruct (NavigationButtons.showsNext (questionId s)); [|reflexivity].
    unfold NavigationMenu.clickNext, NavigationMenu.handleNextClick.
    destruct (_ && _); reflexivity.
  - destruct (NavigationButtons.showsBack (questionId s)); [|reflexivity].
    unfold NavigationMenu.clickBack, NavigationMenu.handleBackClick.
    destruct (_ && _); reflexivity.
Qed.

End FetchFacts.

(** X27.  When a click on Next or Back moves to another question and the
    call of [fetchData] for that question fails, the call completes normally
    and leaves [questionId] at the new question, [data] at the question shown
    before, and the error message set.  The call of [fetchData] that the
    next click brings does not take the message away, whatever the network
    answers: it completes normally and none of the state updates it makes
    resets [error]. *)
Theorem failed_fetch_keeps_the_old_question :
  forall (net : Z -> Eff.FetchOutcome) (b : NavigationButtons.Button)
         (s : Questionnaire.State),
    let moved := NavigationButtons.press b s in
    let r := QuestionnaireData.fetchData net moved in
    Questionnaire.questionId moved <> Questionnaire.questionId s ->
    QuestionnaireData.fetch_fails (net (Questionnaire.questionId moved)) ->
    fst r = Eff.Normal tt
    /\ Questionnaire.questionId (snd r) = Questionnaire.questionId moved
    /\ Questionnaire.data (snd r) = Questionnaire.data s
    /\ Questionnaire.error (snd r) = Some QuestionnaireData.fetch_failure
    /\ forall (later : Z -> Eff.FetchOutcome) (next : NavigationButtons.Button),
         let again :=
           QuestionnaireData.fetchData later (NavigationButtons.press next (snd r)) in
         fst again = Eff.Normal tt
         /\ Questionnaire.error (snd again) = Some QuestionnaireData.fetch_failure.
Proof.
  intros net b s moved r _ Hfail. subst moved r.
  rewrite (fetchData_failed net _ Hfail). cbn [fst snd].
  split; [reflexivity|]. split; [reflexivity|]. split; [apply press_data|].
  split; [reflexivity|]. intros later next.
  set (s1 := Questionnaire.setError (Some QuestionnaireData.fetch_failure)
               (NavigationButtons.press b s)).
  destruct (fetchData_cases later (NavigationButtons.press next s1))
    as [[_ ->]|[result ->]]; cbn [fst snd].
  - split; reflexivity.
  - split; [reflexivity|]. cbn [QuestionnaireData.setData Questionnaire.error].
    rewrite press_error. reflexivity.
Qed.

Lemma failed_fetch_keeps_the_old_question_witness :
  Questionnaire.questionId
    (snd (QuestionnaireData.fetchData questions_down
            (NavigationButtons.press NavigationButtons.Next Questionnaire.initial)))
  = 1
  /\ Questionnaire.data
       (snd (QuestionnaireData.fetchData questions_down
               (NavigationButtons.press NavigationButtons.Next Questionnaire.initial)))
     = Js.null
  /\ Questionnaire.error
       (snd (QuestionnaireData.fetchData questions_down
               (NavigationButtons.press NavigationButtons.Next Questionnaire.initial)))
     = Some QuestionnaireData.fetch_failure.
Proof.
  pose proof (failed_fetch_keeps_the_old_question questions_down NavigationButtons.Next
                Questionnaire.initial ltac:(discriminate) (or_introl eq_refl))
    as (_ & H1 & H2 & H3 & _).
  exact (conj H1 (conj H2 H3)).
Defined.

(** ** The video link *)
Section VideoFacts.
Import Js PageVideo.

Lemma run_id (id rest : jsstring) :
  forallb id_char id = true ->
  match rest with [] => true | c :: _ => negb (id_char c) end = true ->
  run (id ++ rest) = id.
Proof.
  intros Hid Hrest. induction id as [|c t IH]; simpl in *.
  - destruct rest as [|c t]; [reflexivity|]. simpl.
    apply negb_true_iff in Hrest. rewrite Hrest. reflexivity.
  - apply andb_true_iff in Hid as [Hc Ht]. rewrite Hc, (IH Ht). reflexivity.
Qed.

Lemma includes_app (needle pre s : jsstring) :
  includes needle s = true -> includes needle (pre ++ s) = true.
Proof.
  intros Hs. induction pre as [|c t IH]; [exact Hs|].
  simpl. rewrite IH. apply orb_true_r.
Qed.

Lemma starts_with_app (p s : jsstring) : starts_with p (p ++ s) = true.
Proof. induction p as [|c t IH]; simpl; [reflexivity|]. rewrite N.eqb_refl. exact IH. Qed.

Lemma includes_here (needle s : jsstring) : includes needle (needle ++ s) = true.
Proof.
  destruct (needle ++ s) eqn:E; simpl; rewrite <- E, starts_with_app; reflexivity.
Qed.

(** A literal found where the search stands, with an id behind it. *)
Lemma capture_after_here (literal id rest : jsstring) :
  id <> [] -> run (id ++ rest) = id ->
  capture_after literal (literal ++ id ++ rest) = Some id.
Proof.
  intros Hne Hrun. unfold capture_after.
  rewrite starts_with_app, drop_app_length, Hrun.
  destruct id; [congruence|reflexivity].
Qed.

(** No literal of the patterns begins at a code unit other than [y]. *)
Lemma capture_here_elsewhere (literals : list jsstring) (c : N) (t : jsstring) :
  Forall (fun literal => head literal = Some 121%N) literals -> c <> 121%N ->
  capture_here literals (c :: t) = None.
Proof.
  intros Hls Hc. induction Hls as [|literal others Hl _ IH]; [reflexivity|].
  cbn [capture_here]. unfold capture_after.
  destruct literal as [|y literal]; [discriminate|]. injection Hl as ->.
  cbn [starts_with]. destruct (N.eqb_spec 121 c); [congruence|]. exact IH.
Qed.

Lemma capture_skips (literals : list jsstring) (pre s : jsstring) :
  Forall (fun literal => head literal = Some 121%N) literals ->
  Forall (fun c => c <> 121%N) pre ->
  capture literals (pre ++ s) = capture literals s.
Proof.
  intros Hls Hpre. induction Hpre as [|c t Hc _ IH]; [reflexivity|].
  cbn [app capture]. rewrite (capture_here_elsewhere literals c _ Hls Hc). exact IH.
Qed.

Lemma capture_found (literals : list jsstring) (s : jsstring) (id : jsstring) :
  capture_here literals s = Some id -> capture literals s = Some id.
Proof. intros Hhere. destruct s; cbn [capture]; rewrite Hhere; reflexivity. Qed.

End VideoFacts.

(** X28.  For a video link [https://www.youtube.com/watch?v=ID] or
    [https://youtu.be/ID], where ID is a non-empty run of code units other
    than [&], line feed, [?] and [#] and is followed by nothing or by one of
    those four, the page takes the link for a YouTube link and embeds
    [https://www.youtube.com/embed/ID]. *)
Theorem youtube_links_are_embedded :
  forall (id rest : Js.jsstring),
    id <> [] ->
    forallb PageVideo.id_char id = true ->
    match rest with [] => true | c :: _ => negb (PageVideo.id_char c) end = true ->
    let watch := Js.lit "https://www.youtube.com/watch?v=" ++ id ++ rest in
    let short := Js.lit "https://youtu.be/" ++ id ++ rest in
    PageVideo.isYouTubeUrl watch = true
    /\ PageVideo.isYouTubeUrl short = true
    /\ PageVideo.getYouTubeEmbedUrl watch = Some (PageVideo.embed_prefix ++ id)
    /\ PageVideo.getYouTubeEmbedUrl short = Some (PageVideo.embed_prefix ++ id).
Proof.
  intros id rest Hne Hid Hrest watch short. subst watch short.
  pose proof (run_id id rest Hid Hrest) as Hrun.
  assert (Hliterals : Forall (fun literal => head literal = Some 121%N)
                        [Js.lit "youtube.com/watch?v="; Js.lit "youtu.be/"])
    by (repeat constructor).
  split; [|split; [|split]].
  - unfold PageVideo.isYouTubeUrl. apply andb_true_iff. split; [reflexivity|].
    apply orb_true_iff. left.
    change (Js.lit "https://www.youtube.com/watch?v=" ++ id ++ rest)
      with (Js.lit "https://www." ++ Js.lit "youtube.com"
            ++ (Js.lit "/watch?v=" ++ id ++ rest)).
    apply includes_app, includes_here.
  - unfold PageVideo.isYouTubeUrl. apply andb_true_iff. split; [reflexivity|].
    apply orb_true_iff. right.
    change (Js.lit "https://youtu.be/" ++ id ++ rest)
      with (Js.lit "https://" ++ Js.lit "youtu.be" ++ (Js.lit "/" ++ id ++ rest)).
    apply includes_app, includes_here.
  - unfold PageVideo.getYouTubeEmbedUrl.
    change (Js.truthy_string (Js.lit "https://www.youtube.com/watch?v=" ++ id ++ rest))
      with true.
    cbn [negb PageVideo.patterns PageVideo.first_embed].
    change (Js.lit "https://www.youtube.com/watch?v=" ++ id ++ rest)
      with (Js.lit "https://www." ++ Js.lit "youtube.com/watch?v=" ++ id ++ rest).
    rewrite (capture_skips _ (Js.lit "https://www.") _ Hliterals)
      by (repeat constructor; discriminate).
    rewrite (capture_found _ _ id); [reflexivity|].
    cbn [PageVideo.capture_here].
    rewrite (capture_after_here _ id rest Hne Hrun). reflexivity.
  - unfold PageVideo.getYouTubeEmbedUrl.
    change (Js.truthy_string (Js.lit "https://youtu.be/" ++ id ++ rest)) with true.
    cbn [negb PageVideo.patterns PageVideo.first_embed].
    change (Js.lit "https://youtu.be/" ++ id ++ rest)
      with (Js.lit "https://" ++ Js.lit "youtu.be/" ++ id ++ rest).
    rewrite (capture_skips _ (Js.lit "https://") _ Hliterals)
      by (repeat constructor; discriminate).
    rewrite (capture_found _ _ id); [reflexivity|].
    cbn [PageVideo.capture_here].
    assert (Hfirst : PageVideo.capture_after (Js.lit "youtube.com/watch?v=")
                       (Js.lit "youtu.be/" ++ id ++ rest) = None) by reflexivity.
    rewrite Hfirst. rewrite (capture_after_here _ id rest Hne Hrun). reflexivity.
Qed.

Lemma youtube_links_are_embedded_witness :
  PageVideo.getYouTubeEmbedUrl
    (Js.lit "https://www.youtube.com/watch?v=" ++ Js.lit "dQw4w9WgXcQ" ++ Js.lit "&t=42")
  = Some (PageVideo.embed_prefix ++ Js.lit "dQw4w9WgXcQ").
Proof.
  exact (proj1 (proj2 (proj2 (youtube_links_are_embedded (Js.lit "dQw4w9WgXcQ")
                                (Js.lit "&t=42") ltac:(discriminate) eq_refl eq_refl)))).
Defined.

Example channel_link_has_no_embed :
  PageVideo.isYouTubeUrl (Js.lit "https://www.youtube.com/@FIRSTINSPIRES") = true
  /\ PageVideo.getYouTubeEmbedUrl (Js.lit "https://www.youtube.com/@FIRSTINSPIRES")
     = None.
Proof. split; vm_compute; reflexivity. Qed.


(** ** The lines of a question *)
Section LineFacts.
Import Js JsText DynamicFontSize.

Lemma join_cons (sep w : jsstring) (ws : list jsstring) :
  ws <> [] -> join sep (w :: ws) = w ++ sep ++ join sep ws.
Proof. destruct ws; [congruence|reflexivity]. Qed.

(** [s.split(sep).join(sep)] is [s]. *)
Lemma join_split (sep : N) (s : jsstring) : join [sep] (split sep s) = s.
Proof.
  induction s as [|c t IH]; [reflexivity|].
  cbn [split]. pose proof (split_nonempty sep t) as Hne.
  destruct (N.eqb_spec c sep) as [->|_].
  - rewrite join_cons by exact Hne. rewrite IH. reflexivity.
  - destruct (split sep t) as [|w ws]; [congruence|].
    destruct ws as [|w' ws].
    + cbn [join] in *. congruence.
    + rewrite join_cons by discriminate. rewrite join_cons in IH by discriminate.
      rewrite <- IH. reflexivity.
Qed.

Lemma join_take_drop (sep : jsstring) (k : nat) (ws : list jsstring) :
  (0 < k < length ws)%nat ->
  join sep (take k ws) ++ sep ++ join sep (drop k ws) = join sep ws.
Proof.
  revert k. induction ws as [|w ws IH]; intros k [Hk Hlen]; simpl in Hlen; [lia|].
  destruct k as [|k]; [lia|].
  assert (Hws : ws <> []) by (destruct ws; [simpl in Hlen; lia|discriminate]).
  change (take (S k) (w :: ws)) with (w :: take k ws).
  change (drop (S k) (w :: ws)) with (drop k ws).
  rewrite (join_cons sep w ws Hws).
  destruct k as [|k].
  - rewrite take_0, drop_0. reflexivity.
  - assert (Hin : (0 < S k < length ws)%nat) by lia.
    assert (Htake : take (S k) ws <> []).
    { destruct ws; [congruence|discriminate]. }
    rewrite (join_cons sep w _ Htake).
    rewrite <- (IH (S k) Hin). rewrite <- !app_assoc. reflexivity.
Qed.

End LineFacts.

(** X29.  [dynamicFontSize] never loses or reorders a word of the question:
    the element is given either the question itself as text, or two lines
    around a [<br>] which, joined by one space, are the question. *)
Theorem question_lines_keep_the_text :
  forall (toLowerCase : Js.jsstring -> Js.jsstring)
         (screen : DynamicFontSize.Screen) (question : Js.jsstring),
    match DynamicFontSize.question_content toLowerCase screen question with
    | DynamicFontSize.TextContent text => text = question
    | DynamicFontSize.InnerHTML html =>
        exists line1 line2,
          html = line1 ++ Js.lit "<br>" ++ line2
          /\ line1 ++ [32%N] ++ line2 = question
          /\ (15 <= length (Js.split 32 question) <= 20)%nat
    end.
Proof.
  intros toLowerCase screen question. unfold DynamicFontSize.question_content.
  destruct (_ && _) eqn:Hcond; [|reflexivity].
  apply andb_true_iff in Hcond as [Hlen _].
  apply andb_true_iff in Hlen as [Hlo Hhi].
  apply Nat.leb_le in Hlo. apply Nat.leb_le in Hhi.
  eexists _, _. split; [reflexivity|]. split; [|lia].
  rewrite join_take_drop; [apply join_split|].
  set (n := length (Js.split 32 question)) in *.
  assert (Hmid : (8 <= (n + 1) / 2 < 11)%nat).
  { split.
    - apply Nat.div_le_lower_bound; lia.
    - apply Nat.Div0.div_lt_upper_bound; lia. }
  destruct (match _ with Some _ => _ | None => _ end); lia.
Qed.


Example long_question_on_a_desktop :
  DynamicFontSize.question_content (fun word => word) desktop long_question
  = DynamicFontSize.InnerHTML
      (Js.lit "How many hours are you able to stand<br>or walk around the venue on the day").
Proof. vm_compute. reflexivity. Qed.

Example long_question_on_a_phone :
  DynamicFontSize.question_content (fun word => word) upright_phone long_question
  = DynamicFontSize.TextContent long_question.
Proof. vm_compute. reflexivity. Qed.
